(** * Energy service: regeneration, transactions and loot

    A shallow embedding of the Go service (package [service], file
    energyService.go, and package [storage], file storage.go) together with
    the properties of its natural-language specification.

    Conventions of the embedding.
    - Go's [int32] and [int64] are integers of [Z] with the wrap-around of
      two's complement written out ([wrap32], [wrap64]); Go's [int] is 64 bits
      wide.  [/] and [%] are Go's truncated division and remainder ([Z.quot],
      [Z.rem]); dividing by zero panics.
    - A Go function returning [(value, error)] returns an [outcome]: [Ok],
      [Fail] with the gRPC status code, or [Panic] for a run-time panic.
      Status messages (formatted strings) are not modelled.
    - The service is stateless; what it reads and writes is the [World]: the
      CloudSave backend behind the storage layer, the wall clock read by
      [time.Now().Unix()] and the process-wide random source of [math/rand].
      The clock and the random source are streams ([nat -> Z]) with a read
      position, so that every call consumes one reading, as in the code. *)

From Stdlib Require Import ZArith Lia.
From stdpp Require Import gmap strings list fin_maps.

Local Open Scope Z_scope.

(** ** Machine integers *)

Module GoInt.

Definition wrap (bits x : Z) : Z :=
  (x + 2 ^ (bits - 1)) mod 2 ^ bits - 2 ^ (bits - 1).

Definition wrap32 : Z -> Z := wrap 32.
Definition wrap64 : Z -> Z := wrap 64.

Definition fits32 (x : Z) : Prop := - 2 ^ 31 <= x < 2 ^ 31.
Definition fits64 (x : Z) : Prop := - 2 ^ 63 <= x < 2 ^ 63.

Definition MaxInt32 : Z := 2147483647.
Definition MinInt32 : Z := -2147483648.

End GoInt.
Import GoInt.

(** ** Results of fallible code *)

Inductive Code := InvalidArgument | Internal.

Inductive outcome (A : Type) : Type :=
| Ok (a : A)
| Fail (c : Code)
| Panic.
Arguments Ok {A} a.
Arguments Fail {A} c.
Arguments Panic {A}.

(** [x / y] on int64: a run-time panic when [y] is zero. *)
Definition div64 (x y : Z) : outcome Z :=
  if y =? 0 then Panic else Ok (wrap64 (Z.quot x y)).

(** [x % y] on int64. *)
Definition rem64 (x y : Z) : outcome Z :=
  if y =? 0 then Panic else Ok (wrap64 (Z.rem x y)).

(** ** Package storage *)

Module storage.

(** [type EnergyData struct].  [Inventory] is a Go map, [None] is the nil
    map. *)
Record EnergyData := {
  UserId : string;
  CurrentEnergy : Z;
  MaxEnergy : Z;
  LastUpdateTime : Z;
  RegenRateSeconds : Z;
  Level : Z;
  Inventory : option (gmap string Z)
}.

Definition DefaultMaxEnergy : Z := 100.
Definition DefaultRegenRateSeconds : Z := 300.
Definition DefaultStartingEnergy : Z := 100.
Definition DefaultLevel : Z := 1.

(** The value of a CloudSave game record: JSON that unmarshals into an
    [EnergyData], or JSON that does not. *)
Inductive RecordValue :=
| EnergyJSON (d : EnergyData)
| ForeignJSON.

(** The CloudSave backend reached through the SDK: the game records by
    (namespace, key), and for each request in turn whether it fails for a
    reason of the backend's own (network, authorisation, server error). *)
Record CloudSave := {
  records : gmap (string * string) RecordValue;
  outage : nat -> bool;
  requests : nat
}.

Inductive SdkError := RecordNotFound | RequestFailed.

Definition served (cs : CloudSave) : CloudSave :=
  {| records := records cs; outage := outage cs; requests := S (requests cs) |}.

Definition stored (k : string * string) (v : RecordValue) (cs : CloudSave) : CloudSave :=
  {| records := <[k := v]> (records cs); outage := outage cs;
     requests := S (requests cs) |}.

(** The two SDK calls of the storage layer.  They are not code of this
    repository; this is their contract: a request either fails, or reads
    (writes) the record under the key.  The JSON encoding of the body is
    not part of it: a write is taken to store the body as it is, which
    holds of a body whose texts are valid UTF-8 (Go's encoder replaces
    other bytes), so nothing is concluded from a write followed by a read
    about the texts of a record. *)
Definition AdminGetGameRecordHandlerV1Short (namespace key : string) (cs : CloudSave)
  : (SdkError + RecordValue) * CloudSave :=
  if outage cs (requests cs) then (inl RequestFailed, served cs)
  else match records cs !! (namespace, key) with
       | Some v => (inr v, served cs)
       | None => (inl RecordNotFound, served cs)
       end.

Definition AdminPostGameRecordHandlerV1Short (namespace key : string) (body : EnergyData)
    (cs : CloudSave) : (SdkError + RecordValue) * CloudSave :=
  if outage cs (requests cs) then (inl RequestFailed, served cs)
  else (inr (EnergyJSON body), stored (namespace, key) (EnergyJSON body) cs).

Definition getEnergyKey (userId : string) : string := "energy_" +:+ userId.

Definition parseResponseToEnergyData (value : RecordValue) : outcome EnergyData :=
  match value with
  | EnergyJSON d => Ok d
  | ForeignJSON => Fail Internal
  end.

Definition SaveEnergyData (namespace userId : string) (data : EnergyData) (cs : CloudSave)
  : outcome EnergyData * CloudSave :=
  let key := getEnergyKey userId in
  match AdminPostGameRecordHandlerV1Short namespace key data cs with
  | (inl _, cs') => (Fail Internal, cs')
  | (inr response, cs') => (parseResponseToEnergyData response, cs')
  end.

(** [GetEnergyData]: the nil result is [None].  Every error of the SDK call
    takes the branch that returns [nil, nil]. *)
Definition GetEnergyData (namespace userId : string) (cs : CloudSave)
  : outcome (option EnergyData) * CloudSave :=
  let key := getEnergyKey userId in
  match AdminGetGameRecordHandlerV1Short namespace key cs with
  | (inl _, cs') => (Ok None, cs')
  | (inr response, cs') =>
      match parseResponseToEnergyData response with
      | Ok energyData => (Ok (Some energyData), cs')
      | Fail c => (Fail c, cs')
      | Panic => (Panic, cs')
      end
  end.

End storage.

(** ** Package pb: the messages the service answers with *)

Module pb.

Record EnergyState := {
  UserId : string;
  CurrentEnergy : Z;
  MaxEnergy : Z;
  LastUpdateTime : Z;
  RegenRateSeconds : Z;
  NextRegenTime : Z;
  EnergyToMax : Z;
  TimeToMaxSeconds : Z
}.

Record LootItem := {
  ItemId : string;
  ItemName : string;
  Quantity : Z
}.

Record EnergyConfig := {
  cfg_UserId : string;
  cfg_MaxEnergy : Z;
  cfg_RegenRateSeconds : Z;
  cfg_Level : Z
}.

Record ConsumeEnergyResponse := {
  consume_EnergyState : EnergyState;
  consume_Success : bool;
  consume_Loot : list LootItem
}.

Record RefillEnergyResponse := {
  refill_EnergyState : EnergyState;
  refill_Success : bool
}.

Record UpdateEnergyConfigResponse := {
  update_Config : EnergyConfig;
  update_Success : bool
}.

Record InventoryItem := {
  inv_ItemId : string;
  inv_ItemName : string;
  inv_Quantity : Z
}.

Record ResetEnergyResponse := {
  reset_EnergyState : EnergyState;
  reset_Success : bool
}.

End pb.

(** ** The world a request runs in *)

Record World := {
  backend : storage.CloudSave;
  clock : nat -> Z;
  clock_reads : nat;
  rand_src : nat -> Z;
  rand_reads : nat
}.

Definition with_backend (cs : storage.CloudSave) (w : World) : World :=
  {| backend := cs; clock := clock w; clock_reads := clock_reads w;
     rand_src := rand_src w; rand_reads := rand_reads w |}.

Definition clock_read (w : World) : World :=
  {| backend := backend w; clock := clock w; clock_reads := S (clock_reads w);
     rand_src := rand_src w; rand_reads := rand_reads w |}.

Definition rand_read (w : World) : World :=
  {| backend := backend w; clock := clock w; clock_reads := clock_reads w;
     rand_src := rand_src w; rand_reads := S (rand_reads w) |}.

(** A computation of the service: it may read and change the world, and it
    returns, fails with a status code, or panics. *)
Definition M (A : Type) : Type := World -> outcome A * World.

Definition ret {A} (a : A) : M A := fun w => (Ok a, w).

Definition bind {A B} (m : M A) (k : A -> M B) : M B :=
  fun w =>
    match m w with
    | (Ok a, w') => k a w'
    | (Fail c, w') => (Fail c, w')
    | (Panic, w') => (Panic, w')
    end.

Notation "'do' x <- m ; k" := (bind m (fun x => k))
  (at level 10, x name, m at level 100, k at level 200).

Definition throw {A} (c : Code) : M A := fun w => (Fail c, w).

Definition lift {A} (o : outcome A) : M A := fun w => (o, w).

(** [if err != nil { return nil, status.Errorf(c, ...) }] *)
Definition orFail {A} (c : Code) (m : M A) : M A :=
  fun w =>
    match m w with
    | (Fail _, w') => (Fail c, w')
    | r => r
    end.

(** [data, _ := ...]: the error is dropped, the data is nil when one occurred. *)
Definition dropError {A} (m : M (option A)) : M (option A) :=
  fun w =>
    match m w with
    | (Fail _, w') => (Ok None, w')
    | r => r
    end.

(** A call into the storage layer. *)
Definition onStorage {A} (f : storage.CloudSave -> outcome A * storage.CloudSave) : M A :=
  fun w => let (r, cs) := f (backend w) in (r, with_backend cs w).

(** [time.Now().Unix()] *)
Definition time_Now_Unix : M Z :=
  fun w => (Ok (wrap64 (clock w (clock_reads w))), clock_read w).

(** [rand.Intn(n)] and [rand.Int31n(n)]: a value of [0, n); they panic when
    [n <= 0]. *)
Definition rand_Intn (n : Z) : M Z :=
  fun w => if n <=? 0 then (Panic, w)
           else (Ok (rand_src w (rand_reads w) mod n), rand_read w).

Definition rand_Int31n (n : Z) : M Z := rand_Intn n.

(** ** Package service *)

Module service.

Record LootEntry := {
  ItemID : string;
  ItemName : string;
  MinQty : Z;
  MaxQty : Z;
  Weight : Z
}.

Definition actionEnergyCosts : gmap string Z :=
  {[ "fight" := 10; "explore" := 5 ]}.

Definition refillAmounts : gmap string Z :=
  {[ "daily" := 50; "ad" := 20; "purchase" := 100; "debug" := 100 ]}.

Definition fightLoot : list LootEntry :=
  [ {| ItemID := "gold"; ItemName := "Gold"; MinQty := 5; MaxQty := 20; Weight := 50 |};
    {| ItemID := "iron_ore"; ItemName := "Iron Ore"; MinQty := 1; MaxQty := 3; Weight := 30 |};
    {| ItemID := "gem"; ItemName := "Gem"; MinQty := 1; MaxQty := 1; Weight := 10 |};
    {| ItemID := "sword_shard"; ItemName := "Sword Shard"; MinQty := 1; MaxQty := 2;
       Weight := 10 |} ].

Definition exploreLoot : list LootEntry :=
  [ {| ItemID := "gold"; ItemName := "Gold"; MinQty := 2; MaxQty := 10; Weight := 40 |};
    {| ItemID := "herb"; ItemName := "Herb"; MinQty := 1; MaxQty := 5; Weight := 35 |};
    {| ItemID := "map_piece"; ItemName := "Map Piece"; MinQty := 1; MaxQty := 1;
       Weight := 15 |};
    {| ItemID := "gem"; ItemName := "Gem"; MinQty := 1; MaxQty := 1; Weight := 10 |} ].

Definition lootTables : gmap string (list LootEntry) :=
  {[ "fight" := fightLoot; "explore" := exploreLoot ]}.

(** *** rollLoot *)

(** [table, exists := lootTables[actionType]; if !exists { table =
    lootTables["fight"] }] (indexing a Go map at a missing key gives nil). *)
Definition selectTable (actionType : string) : list LootEntry :=
  match lootTables !! actionType with
  | Some table => table
  | None => default [] (lootTables !! "fight")
  end.

(** The first inner loop: [totalWeight += entry.Weight]. *)
Definition totalWeight (table : list LootEntry) : Z :=
  fold_left (fun total entry => wrap64 (total + Weight entry)) table 0.

(** The second inner loop: the first entry at which [roll < cumulative]. *)
Fixpoint landedOn (roll cumulative : Z) (table : list LootEntry) : option LootEntry :=
  match table with
  | [] => None
  | entry :: rest =>
      let cumulative := wrap64 (cumulative + Weight entry) in
      if roll <? cumulative then Some entry else landedOn roll cumulative rest
  end.

Definition rollQuantity (entry : LootEntry) : M Z :=
  if MinQty entry <? MaxQty entry then
    do r <- rand_Int31n (wrap32 (wrap32 (MaxQty entry - MinQty entry) + 1));
    ret (wrap32 (MinQty entry + r))
  else ret (MinQty entry).

(** One turn of the outer loop: the drop appended to [loot], if any. *)
Definition rollDrop (table : list LootEntry) (loot : list pb.LootItem) : M (list pb.LootItem) :=
  do roll <- rand_Intn (totalWeight table);
  match landedOn roll 0 table with
  | Some entry =>
      do qty <- rollQuantity entry;
      ret (loot ++ [ {| pb.ItemId := ItemID entry; pb.ItemName := ItemName entry;
                        pb.Quantity := qty |} ])
  | None => ret loot
  end.

Fixpoint rollDrops (turns : nat) (table : list LootEntry) (loot : list pb.LootItem)
  : M (list pb.LootItem) :=
  match turns with
  | O => ret loot
  | S turns' => do loot' <- rollDrop table loot; rollDrops turns' table loot'
  end.

Definition rollLoot (actionType : string) : M (list pb.LootItem) :=
  let table := selectTable actionType in
  do n <- rand_Intn 3;
  let numDrops := wrap64 (n + 1) in
  rollDrops (Z.to_nat numDrops) table [].

(** *** calculateEnergyState *)

(** Lines 687 to 698: the energy after regeneration, capped at the maximum. *)
Definition regenPointsAt (data : storage.EnergyData) (now : Z) : Z :=
  let elapsedSeconds := wrap64 (now - storage.LastUpdateTime data) in
  if (0 <? storage.RegenRateSeconds data) && (0 <? elapsedSeconds)
  then wrap32 (wrap64 (Z.quot elapsedSeconds (storage.RegenRateSeconds data)))
  else 0.

Definition currentEnergyAt (data : storage.EnergyData) (now : Z) : Z :=
  let currentEnergy := wrap32 (storage.CurrentEnergy data + regenPointsAt data now) in
  if storage.MaxEnergy data <? currentEnergy then storage.MaxEnergy data else currentEnergy.

(** The body of [calculateEnergyState] once the clock has been read. *)
Definition calculateEnergyStateAt (data : storage.EnergyData) (now : Z)
  : outcome pb.EnergyState :=
  let elapsedSeconds := wrap64 (now - storage.LastUpdateTime data) in
  let currentEnergy := currentEnergyAt data now in
  let energyToMax := wrap32 (storage.MaxEnergy data - currentEnergy) in
  let answer nextRegenTime timeToMaxSeconds :=
    {| pb.UserId := storage.UserId data;
       pb.CurrentEnergy := currentEnergy;
       pb.MaxEnergy := storage.MaxEnergy data;
       pb.LastUpdateTime := storage.LastUpdateTime data;
       pb.RegenRateSeconds := storage.RegenRateSeconds data;
       pb.NextRegenTime := nextRegenTime;
       pb.EnergyToMax := energyToMax;
       pb.TimeToMaxSeconds := timeToMaxSeconds |} in
  if currentEnergy <? storage.MaxEnergy data then
    match rem64 elapsedSeconds (storage.RegenRateSeconds data) with
    | Ok usedSeconds =>
        let secondsToNext := wrap64 (storage.RegenRateSeconds data - usedSeconds) in
        let nextRegenTime := wrap64 (now + secondsToNext) in
        let timeToMaxSeconds :=
          wrap64 (wrap64 (energyToMax * storage.RegenRateSeconds data) - usedSeconds) in
        Ok (answer nextRegenTime timeToMaxSeconds)
    | Fail c => Fail c
    | Panic => Panic
    end
  else Ok (answer 0 0).

Definition calculateEnergyState (data : storage.EnergyData) : M pb.EnergyState :=
  do now <- time_Now_Unix;
  lift (calculateEnergyStateAt data now).

(** *** getOrCreateEnergyState *)

Definition defaultData (userId : string) (now : Z) : storage.EnergyData :=
  {| storage.UserId := userId;
     storage.CurrentEnergy := storage.DefaultStartingEnergy;
     storage.MaxEnergy := storage.DefaultMaxEnergy;
     storage.LastUpdateTime := now;
     storage.RegenRateSeconds := storage.DefaultRegenRateSeconds;
     storage.Level := storage.DefaultLevel;
     storage.Inventory := None |}.

Definition getOrCreateEnergyState (namespace userId : string) : M pb.EnergyState :=
  do data <- orFail Internal (onStorage (storage.GetEnergyData namespace userId));
  match data with
  | Some data => calculateEnergyState data
  | None =>
      do now <- time_Now_Unix;
      let data := defaultData userId now in
      do _ <- orFail Internal (onStorage (storage.SaveEnergyData namespace userId data));
      calculateEnergyState data
  end.

(** *** Player operations *)

(** [inventory := make(map[string]int32); if currentData != nil &&
    currentData.Inventory != nil { inventory = currentData.Inventory }] *)
Definition inventoryOf (currentData : option storage.EnergyData) : gmap string Z :=
  match currentData with
  | Some data => default ∅ (storage.Inventory data)
  | None => ∅
  end.

(** [for _, item := range loot { inventory[item.ItemId] += item.Quantity }] *)
Definition addLoot (inventory : gmap string Z) (loot : list pb.LootItem) : gmap string Z :=
  fold_left
    (fun inv item =>
       <[pb.ItemId item := wrap32 (default 0 (inv !! pb.ItemId item) + pb.Quantity item)]> inv)
    loot inventory.

(** The checkpoint both player transactions fall back to:
    [LastUpdateTime + regenPoints * RegenRateSeconds]. *)
Definition preservedCheckpoint (lastUpdateTime regenRateSeconds now : Z) : outcome Z :=
  let elapsed := wrap64 (now - lastUpdateTime) in
  match div64 elapsed regenRateSeconds with
  | Ok regenPoints => Ok (wrap64 (lastUpdateTime + wrap64 (regenPoints * regenRateSeconds)))
  | Fail c => Fail c
  | Panic => Panic
  end.

Definition ConsumeMyEnergy (namespace userId actionType : string)
  : M pb.ConsumeEnergyResponse :=
  match actionEnergyCosts !! actionType with
  | None => throw InvalidArgument
  | Some energyCost =>
      do energyState <- getOrCreateEnergyState namespace userId;
      if pb.CurrentEnergy energyState <? energyCost then
        ret {| pb.consume_EnergyState := energyState;
               pb.consume_Success := false;
               pb.consume_Loot := [] |}
      else
        do currentData <- dropError (onStorage (storage.GetEnergyData namespace userId));
        let inventory := inventoryOf currentData in
        let newEnergy := wrap32 (pb.CurrentEnergy energyState - energyCost) in
        do now <- time_Now_Unix;
        do newLastUpdateTime <-
          match currentData with
          | Some currentData =>
              if pb.MaxEnergy energyState <=? pb.CurrentEnergy energyState then ret now
              else lift (preservedCheckpoint (storage.LastUpdateTime currentData)
                           (pb.RegenRateSeconds energyState) now)
          | None => ret now
          end;
        do loot <- rollLoot actionType;
        let inventory := addLoot inventory loot in
        let updatedData :=
          {| storage.UserId := userId;
             storage.CurrentEnergy := newEnergy;
             storage.MaxEnergy := pb.MaxEnergy energyState;
             storage.LastUpdateTime := newLastUpdateTime;
             storage.RegenRateSeconds := pb.RegenRateSeconds energyState;
             storage.Level := 1;
             storage.Inventory := Some inventory |} in
        do _ <- orFail Internal
                  (onStorage (storage.SaveEnergyData namespace userId updatedData));
        do newState <- calculateEnergyState updatedData;
        ret {| pb.consume_EnergyState := newState;
               pb.consume_Success := true;
               pb.consume_Loot := loot |}
  end.

Definition RefillMyEnergy (namespace userId source : string) : M pb.RefillEnergyResponse :=
  match refillAmounts !! source with
  | None => throw InvalidArgument
  | Some refillAmount =>
      do energyState <- getOrCreateEnergyState namespace userId;
      do currentData <- dropError (onStorage (storage.GetEnergyData namespace userId));
      let inventory := inventoryOf currentData in
      let newEnergy := wrap32 (pb.CurrentEnergy energyState + refillAmount) in
      let newEnergy :=
        if pb.MaxEnergy energyState <? newEnergy then pb.MaxEnergy energyState
        else newEnergy in
      do now <- time_Now_Unix;
      do newLastUpdateTime <-
        match currentData with
        | Some currentData =>
            lift (preservedCheckpoint (storage.LastUpdateTime currentData)
                    (pb.RegenRateSeconds energyState) now)
        | None => ret now
        end;
      let updatedData :=
        {| storage.UserId := userId;
           storage.CurrentEnergy := newEnergy;
           storage.MaxEnergy := pb.MaxEnergy energyState;
           storage.LastUpdateTime := newLastUpdateTime;
           storage.RegenRateSeconds := pb.RegenRateSeconds energyState;
           storage.Level := 1;
           storage.Inventory := Some inventory |} in
      do _ <- orFail Internal
                (onStorage (storage.SaveEnergyData namespace userId updatedData));
      do newState <- calculateEnergyState updatedData;
      ret {| pb.refill_EnergyState := newState; pb.refill_Success := true |}
  end.

(** *** Admin operations *)

(** The record the three admin writes build: the struct literal names no
    [Inventory], which is then the nil map. *)
Definition adminData (userId : string) (currentEnergy maxEnergy now regenRateSeconds : Z)
  : storage.EnergyData :=
  {| storage.UserId := userId;
     storage.CurrentEnergy := currentEnergy;
     storage.MaxEnergy := maxEnergy;
     storage.LastUpdateTime := now;
     storage.RegenRateSeconds := regenRateSeconds;
     storage.Level := 1;
     storage.Inventory := None |}.

Definition ConsumeEnergy (namespace userId : string) (amount : Z)
  : M pb.ConsumeEnergyResponse :=
  if amount <=? 0 then throw InvalidArgument
  else
    do energyState <- getOrCreateEnergyState namespace userId;
    if pb.CurrentEnergy energyState <? amount then
      ret {| pb.consume_EnergyState := energyState;
             pb.consume_Success := false;
             pb.consume_Loot := [] |}
    else
      let newEnergy := wrap32 (pb.CurrentEnergy energyState - amount) in
      do now <- time_Now_Unix;
      let updatedData :=
        adminData userId newEnergy (pb.MaxEnergy energyState) now
          (pb.RegenRateSeconds energyState) in
      do _ <- orFail Internal
                (onStorage (storage.SaveEnergyData namespace userId updatedData));
      do newState <- calculateEnergyState updatedData;
      ret {| pb.consume_EnergyState := newState;
             pb.consume_Success := true;
             pb.consume_Loot := [] |}.

Definition RefillEnergy (namespace userId : string) (amount : Z)
  : M pb.RefillEnergyResponse :=
  if amount <=? 0 then throw InvalidArgument
  else
    do energyState <- getOrCreateEnergyState namespace userId;
    let newEnergy := wrap32 (pb.CurrentEnergy energyState + amount) in
    let newEnergy :=
      if pb.MaxEnergy energyState <? newEnergy then pb.MaxEnergy energyState
      else newEnergy in
    do now <- time_Now_Unix;
    let updatedData :=
      adminData userId newEnergy (pb.MaxEnergy energyState) now
        (pb.RegenRateSeconds energyState) in
    do _ <- orFail Internal
              (onStorage (storage.SaveEnergyData namespace userId updatedData));
    do newState <- calculateEnergyState updatedData;
    ret {| pb.refill_EnergyState := newState; pb.refill_Success := true |}.

Definition UpdateEnergyConfig (namespace userId : string) (maxEnergy regenRateSeconds : Z)
  : M pb.UpdateEnergyConfigResponse :=
  do energyState <- getOrCreateEnergyState namespace userId;
  let newMaxEnergy := if 0 <? maxEnergy then maxEnergy else pb.MaxEnergy energyState in
  let newRegenRate :=
    if 0 <? regenRateSeconds then regenRateSeconds
    else pb.RegenRateSeconds energyState in
  do now <- time_Now_Unix;
  let updatedData :=
    adminData userId (pb.CurrentEnergy energyState) newMaxEnergy now newRegenRate in
  do _ <- orFail Internal
            (onStorage (storage.SaveEnergyData namespace userId updatedData));
  ret {| pb.update_Config :=
           {| pb.cfg_UserId := userId;
              pb.cfg_MaxEnergy := newMaxEnergy;
              pb.cfg_RegenRateSeconds := newRegenRate;
              pb.cfg_Level := 1 |};
         pb.update_Success := true |}.

(** *** Reads *)

(** [GetMyEnergy] and [GetEnergy]: the response holds the energy state. *)
Definition GetMyEnergy (namespace userId : string) : M pb.EnergyState :=
  getOrCreateEnergyState namespace userId.

Definition GetEnergy (namespace userId : string) : M pb.EnergyState :=
  getOrCreateEnergyState namespace userId.

Definition itemNames : gmap string string :=
  {[ "gold" := "Gold"; "iron_ore" := "Iron Ore"; "gem" := "Gem";
     "sword_shard" := "Sword Shard"; "herb" := "Herb"; "map_piece" := "Map Piece" ]}.

(** One turn of [for itemId, qty := range data.Inventory]. *)
Definition inventoryItem (entry : string * Z) : pb.InventoryItem :=
  let (itemId, qty) := entry in
  {| pb.inv_ItemId := itemId;
     pb.inv_ItemName := default itemId (itemNames !! itemId);
     pb.inv_Quantity := qty |}.

(** [GetMyInventory].  Go ranges over a map in an order it does not
    specify; the list here has the order of [map_to_list], and nothing
    proved of it depends on the order. *)
Definition GetMyInventory (namespace userId : string) : M (list pb.InventoryItem) :=
  do data <- onStorage (storage.GetEnergyData namespace userId);
  match data with
  | Some data =>
      match storage.Inventory data with
      | Some inventory => ret (inventoryItem <$> map_to_list inventory)
      | None => ret []
      end
  | None => ret []
  end.

(** [GetMyEnergyConfig] and [GetEnergyConfig] have the same body. *)
Definition GetEnergyConfig (namespace userId : string) : M pb.EnergyConfig :=
  do data <- onStorage (storage.GetEnergyData namespace userId);
  match data with
  | None =>
      ret {| pb.cfg_UserId := userId;
             pb.cfg_MaxEnergy := storage.DefaultMaxEnergy;
             pb.cfg_RegenRateSeconds := storage.DefaultRegenRateSeconds;
             pb.cfg_Level := storage.DefaultLevel |}
  | Some data =>
      ret {| pb.cfg_UserId := storage.UserId data;
             pb.cfg_MaxEnergy := storage.MaxEnergy data;
             pb.cfg_RegenRateSeconds := storage.RegenRateSeconds data;
             pb.cfg_Level := storage.Level data |}
  end.

Definition GetMyEnergyConfig (namespace userId : string) : M pb.EnergyConfig :=
  GetEnergyConfig namespace userId.

(** *** ResetEnergy *)

Definition ResetEnergy (namespace userId : string) : M pb.ResetEnergyResponse :=
  do now <- time_Now_Unix;
  let defaultData := defaultData userId now in
  do _ <- orFail Internal (onStorage (storage.SaveEnergyData namespace userId defaultData));
  do newState <- calculateEnergyState defaultData;
  ret {| pb.reset_EnergyState := newState; pb.reset_Success := true |}.

End service.

(** ** Package common: the authorisation interceptor *)

Module common.

Import Stdlib.Strings.Ascii.

Inductive ParseError := InvalidFormat | EmptyServiceName | EmptyMethodName.

(** [strings.Split(s, sep)] for a separator of one byte. *)
Fixpoint splitOn (sep : Ascii.ascii) (s : string) : list string :=
  match s with
  | EmptyString => [EmptyString]
  | String c s' =>
      if Ascii.eqb c sep then EmptyString :: splitOn sep s'
      else match splitOn sep s' with
           | part :: parts => String c part :: parts
           | [] => [String c EmptyString]
           end
  end.

(** The submatches of the regular expression [^/([^/]+)/([^/]+)$]: a slash,
    a run without slash that is not empty, a slash, and another such run up
    to the end of the text. *)
Definition matchFullMethod (fullMethod : string) : option (string * string) :=
  match fullMethod with
  | String c rest =>
      if Ascii.eqb c "/"%char then
        match splitOn "/"%char rest with
        | [serviceName; methodName] =>
            if (0 <? String.length serviceName)%nat && (0 <? String.length methodName)%nat
            then Some (serviceName, methodName)
            else None
        | _ => None
        end
      else None
  | EmptyString => None
  end.

Definition parseFullMethod (fullMethod : string) : ParseError + string * string :=
  match matchFullMethod fullMethod with
  | None => inl InvalidFormat
  | Some (serviceName, methodName) =>
      if (String.length serviceName =? 0)%nat then inl EmptyServiceName
      else if (String.length methodName =? 0)%nat then inl EmptyMethodName
      else inr (serviceName, methodName)
  end.

(** [strings.TrimPrefix(s, prefix)] *)
Fixpoint trimPrefix (prefix s : string) : option string :=
  match prefix, s with
  | EmptyString, _ => Some s
  | String p prefix', String c s' =>
      if Ascii.eqb p c then trimPrefix prefix' s' else None
  | String _ _, EmptyString => None
  end.

Definition TrimPrefix (s prefix : string) : string := default s (trimPrefix prefix s).

Record Permission := { Action : Z; Resource : string }.

Record AuthRequirement := { RequireToken : bool; RequiredPermission : option Permission }.

Inductive Refusal := Internal | Unauthenticated | PermissionDenied.

(** What the interceptor does with a call: it hands it to the handler, or
    it returns an error of its own, or the error of [extractAuthRequirement]. *)
Inductive Verdict (E : Type) := CallHandler | Refuse (r : Refusal) | ExtractError (e : E).
Arguments CallHandler {E}.
Arguments Refuse {E} r.
Arguments ExtractError {E} e.

Section Interceptor.

(** What the interceptor takes from outside this repository: the payload
    decoder of the token ([base64.RawURLEncoding.DecodeString] followed by
    [json.Unmarshal], [None] when either fails, else the "sub" claim), the
    namespace of the environment, and the token validator of the SDK, which
    may be unset; [true] is its nil error. *)
Variable claimsSub : string -> option string.
Variable getNamespace : string.
Variable Validator :
  option (string -> option Permission -> string -> option string -> bool).

Definition extractUserIDFromToken (token : string) : string :=
  match splitOn "."%char token with
  | [_; payload; _] => default "" (claimsSub payload)
  | _ => ""
  end.

(** [checkAuthorizationMetadata]: [meta] is the incoming metadata of the
    context, [None] when the context has none; [None] as result is the nil
    error. *)
Definition checkAuthorizationMetadata (meta : option (gmap string (list string)))
    (permission : option Permission) : option Refusal :=
  match Validator with
  | None => Some Internal
  | Some validate =>
      match meta with
      | None => Some Unauthenticated
      | Some meta =>
          match meta !! "authorization" with
          | None => Some Unauthenticated
          | Some [] => Some Unauthenticated
          | Some (authorization :: _) =>
              let token := TrimPrefix authorization "Bearer " in
              let namespace := getNamespace in
              let userID := extractUserIDFromToken token in
              let userIDPtr := if String.eqb userID "" then None else Some userID in
              if validate token permission namespace userIDPtr then None
              else Some PermissionDenied
          end
      end
  end.

(** The body of [NewUnaryAuthServerIntercept] and of
    [NewStreamAuthServerIntercept], given what [extractAuthRequirement]
    returned: an error, or a requirement, [None] being the nil pointer. *)
Definition intercept {E} (extracted : E + option AuthRequirement)
    (meta : option (gmap string (list string))) : Verdict E :=
  match extracted with
  | inl err => ExtractError err
  | inr None => CallHandler
  | inr (Some requirement) =>
      if RequireToken requirement || bool_decide (RequiredPermission requirement <> None)
      then match checkAuthorizationMetadata meta (RequiredPermission requirement) with
           | Some r => Refuse r
           | None => CallHandler
           end
      else CallHandler
  end.

End Interceptor.

End common.

Import service.

(** * Vocabulary of the properties *)

(** A Unix time the service can meet, on the clock or in a record: within
    2^62 seconds of 1970, so that the difference of two of them fits int64. *)
Definition instant (t : Z) : Prop := - 2 ^ 62 <= t < 2 ^ 62.

(** A record filled to a maximum of [MaxInt32], as an administrator's
    config update followed by a refill leaves it. *)
Definition brimful : storage.EnergyData :=
  {| storage.UserId := "u1";
     storage.CurrentEnergy := MaxInt32;
     storage.MaxEnergy := MaxInt32;
     storage.LastUpdateTime := 1700000000;
     storage.RegenRateSeconds := 300;
     storage.Level := 1;
     storage.Inventory := None |}.

(** A world with a working backend that holds no record yet, at the time
    of the checkpoint of [brimful]. *)
Definition emptyWorld : World :=
  {| backend :=
       {| storage.records := ∅; storage.outage := fun _ => false; storage.requests := 0 |};
     clock := fun _ => 1700000000;
     clock_reads := 0;
     rand_src := fun _ => 0;
     rand_reads := 0 |}.

(** A record whose regeneration rate is zero, below its cap. *)
Definition stalled : storage.EnergyData :=
  {| storage.UserId := "u1";
     storage.CurrentEnergy := 5;
     storage.MaxEnergy := 100;
     storage.LastUpdateTime := 1700000000;
     storage.RegenRateSeconds := 0;
     storage.Level := 1;
     storage.Inventory := None |}.

Definition healthy (cs : storage.CloudSave) : Prop :=
  forall n, storage.outage cs n = false.

(** The time the next reading of the clock shows, and the ones after it. *)
Definition timeAt (w : World) (k : nat) : Z := wrap64 (clock w (k + clock_reads w)).

(** A backend that holds a record of player u1 and fails the first request
    it gets. *)
Definition veteran : storage.EnergyData :=
  {| storage.UserId := "u1";
     storage.CurrentEnergy := 3;
     storage.MaxEnergy := 100;
     storage.LastUpdateTime := 1700000000;
     storage.RegenRateSeconds := 300;
     storage.Level := 1;
     storage.Inventory := Some {[ "gold" := 7 ]} |}.

Definition flakyWorld : World :=
  {| backend :=
       {| storage.records := {[ ("game", "energy_u1") := storage.EnergyJSON veteran ]};
          storage.outage := fun n => Nat.eqb n 0;
          storage.requests := 0 |};
     clock := fun _ => 1700000010;
     clock_reads := 0;
     rand_src := fun _ => 0;
     rand_reads := 0 |}.

(** The world after [k] more readings of the random source. *)
Definition rand_skip (k : nat) (w : World) : World :=
  {| backend := backend w; clock := clock w; clock_reads := clock_reads w;
     rand_src := rand_src w; rand_reads := k + rand_reads w |}.

(** The sum of the weights of a table, without wrap-around. *)
Definition sumWeights (table : list LootEntry) : Z :=
  foldr (fun entry total => Weight entry + total) 0 table.

(** What the loot roller needs of a table: positive weights whose sum is
    positive and small, and quantity ranges that are not empty. *)
Definition goodEntry (entry : LootEntry) : Prop :=
  0 < Weight entry /\ 0 <= MinQty entry <= MaxQty entry /\ MaxQty entry < 2 ^ 30.

Definition goodTable (table : list LootEntry) : Prop :=
  Forall goodEntry table /\ 0 < sumWeights table < 2 ^ 62.

(** The drop was rolled from an entry of the table. *)
Definition dropFrom (table : list LootEntry) (item : pb.LootItem) : Prop :=
  exists entry,
    entry ∈ table /\
    pb.ItemId item = ItemID entry /\
    pb.ItemName item = ItemName entry /\
    MinQty entry <= pb.Quantity item <= MaxQty entry.

(** The checkpoint that keeps the phase of the regeneration cycle: the
    stored one advanced by the whole regeneration points that have elapsed,
    in exact arithmetic. *)
Definition phaseCheckpoint (lastUpdateTime regenRateSeconds now : Z) : Z :=
  lastUpdateTime + Z.quot (now - lastUpdateTime) regenRateSeconds * regenRateSeconds.

(** A record below its cap, checkpointed at 1700000000, with an inventory
    and a level of its own. *)
Definition regular : storage.EnergyData :=
  {| storage.UserId := "u1";
     storage.CurrentEnergy := 40;
     storage.MaxEnergy := 100;
     storage.LastUpdateTime := 1700000000;
     storage.RegenRateSeconds := 300;
     storage.Level := 3;
     storage.Inventory := Some {[ "gold" := 7 ]} |}.

(** The same record at its cap. *)
Definition topped : storage.EnergyData :=
  {| storage.UserId := "u1";
     storage.CurrentEnergy := 100;
     storage.MaxEnergy := 100;
     storage.LastUpdateTime := 1700000000;
     storage.RegenRateSeconds := 300;
     storage.Level := 3;
     storage.Inventory := Some {[ "gold" := 7 ]} |}.

(** A world with a working backend that holds [d] for player u1 of
    namespace game, and a clock that shows [t]. *)
Definition calmWorld (d : storage.EnergyData) (t : Z) : World :=
  {| backend :=
       {| storage.records := {[ ("game", "energy_u1") := storage.EnergyJSON d ]};
          storage.outage := fun _ => false;
          storage.requests := 0 |};
     clock := fun _ => t;
     clock_reads := 0;
     rand_src := fun n => 37 * Z.of_nat n + 5;
     rand_reads := 0 |}.

(** A record as the data model has it, in the ranges of its Go types: the
    energy is not negative and the rate is positive. *)
Definition validRecord (d : storage.EnergyData) : Prop :=
  fits32 (storage.CurrentEnergy d) /\ fits32 (storage.MaxEnergy d) /\
  fits32 (storage.RegenRateSeconds d) /\
  0 <= storage.CurrentEnergy d /\ 0 < storage.RegenRateSeconds d.

(** The whole points regenerated by time [t], in exact arithmetic. *)
Definition pointsBy (d : storage.EnergyData) (t : Z) : Z :=
  Z.max 0 ((t - storage.LastUpdateTime d) / storage.RegenRateSeconds d).

(** The record a successful [ConsumeMyEnergy] writes for a stored record
    [d], read off the code: [t0] is the time of the derivation, [t1] the time
    of the transaction, [loot] the drops rolled. *)
Definition consumedRecord (userId : string) (d : storage.EnergyData) (energyCost t0 t1 : Z)
    (loot : list pb.LootItem) : storage.EnergyData :=
  {| storage.UserId := userId;
     storage.CurrentEnergy := wrap32 (currentEnergyAt d t0 - energyCost);
     storage.MaxEnergy := storage.MaxEnergy d;
     storage.LastUpdateTime :=
       if storage.MaxEnergy d <=? currentEnergyAt d t0 then t1
       else phaseCheckpoint (storage.LastUpdateTime d) (storage.RegenRateSeconds d) t1;
     storage.RegenRateSeconds := storage.RegenRateSeconds d;
     storage.Level := 1;
     storage.Inventory := Some (addLoot (inventoryOf (Some d)) loot) |}.

(** Whether the backend answers the request that comes [k] places after
    the next one.  A player transaction on an existing record makes three
    requests: the read of the loader ([answers w 0]), its own read of the
    record ([answers w 1]) and the write ([answers w 2]). *)
Definition answers (w : World) (k : nat) : bool :=
  negb (storage.outage (backend w) (k + storage.requests (backend w))).

(** What the second read of a player transaction hands over when the record
    [d] is stored: the record, or nil when the request fails. *)
Definition reread (w : World) (d : storage.EnergyData) : option storage.EnergyData :=
  if answers w 1 then Some d else None.

(** The record a successful [ConsumeMyEnergy] writes, read off the code,
    for a state derived from [d] at [t0] and a second read that handed over
    [currentData]; [t1] is the time of the transaction. *)
Definition consumeWrites (currentData : option storage.EnergyData) (userId : string)
    (d : storage.EnergyData) (energyCost t0 t1 : Z) (loot : list pb.LootItem)
    : storage.EnergyData :=
  {| storage.UserId := userId;
     storage.CurrentEnergy := wrap32 (currentEnergyAt d t0 - energyCost);
     storage.MaxEnergy := storage.MaxEnergy d;
     storage.LastUpdateTime :=
       match currentData with
       | Some currentData =>
           if storage.MaxEnergy d <=? currentEnergyAt d t0 then t1
           else phaseCheckpoint (storage.LastUpdateTime currentData)
                  (storage.RegenRateSeconds d) t1
       | None => t1
       end;
     storage.RegenRateSeconds := storage.RegenRateSeconds d;
     storage.Level := 1;
     storage.Inventory := Some (addLoot (inventoryOf currentData) loot) |}.

(** The record a [RefillMyEnergy] writes, in the same way. *)
Definition refillWrites (currentData : option storage.EnergyData) (userId : string)
    (d : storage.EnergyData) (refillAmount t0 t1 : Z) : storage.EnergyData :=
  {| storage.UserId := userId;
     storage.CurrentEnergy :=
       if storage.MaxEnergy d <? wrap32 (currentEnergyAt d t0 + refillAmount)
       then storage.MaxEnergy d
       else wrap32 (currentEnergyAt d t0 + refillAmount);
     storage.MaxEnergy := storage.MaxEnergy d;
     storage.LastUpdateTime :=
       match currentData with
       | Some currentData =>
           phaseCheckpoint (storage.LastUpdateTime currentData)
             (storage.RegenRateSeconds d) t1
       | None => t1
       end;
     storage.RegenRateSeconds := storage.RegenRateSeconds d;
     storage.Level := 1;
     storage.Inventory := Some (inventoryOf currentData) |}.

(** The world of [calmWorld] with a backend that fails the second request
    it gets and no other. *)
Definition secondReadFails (d : storage.EnergyData) (t : Z) : World :=
  {| backend :=
       {| storage.records := {[ ("game", "energy_u1") := storage.EnergyJSON d ]};
          storage.outage := fun n => Nat.eqb n 1;
          storage.requests := 0 |};
     clock := fun _ => t;
     clock_reads := 0;
     rand_src := fun n => 37 * Z.of_nat n + 5;
     rand_reads := 0 |}.

(** The quantity of an item in an inventory, 0 when it has none, as Go
    reads a map at a missing key. *)
Definition quantityOf (inventory : gmap string Z) (itemId : string) : Z :=
  default 0 (inventory !! itemId).

(** The quantity of an item among the drops of a roll. *)
Definition droppedOf (loot : list pb.LootItem) (itemId : string) : Z :=
  foldr (fun item total =>
           if decide (pb.ItemId item = itemId) then pb.Quantity item + total else total)
        0 loot.

(** The computation leaves every record but the one under [k] as it is,
    whatever its outcome. *)
Definition leavesOtherRecords (k : string * string) {A} (m : M A) : Prop :=
  forall w r w',
    m w = (r, w') ->
    forall k', k' <> k ->
      storage.records (backend w') !! k' = storage.records (backend w) !! k'.

(** The computation leaves the record of the player as it is, whatever its
    outcome. *)
Definition keepsRecordOf (namespace userId : string) {A} (m : M A) : Prop :=
  forall w,
    storage.records (backend (snd (m w))) !! (namespace, storage.getEnergyKey userId)
    = storage.records (backend w) !! (namespace, storage.getEnergyKey userId).

(** A world with a working backend that holds records of two players. *)
Definition busyWorld : World :=
  {| backend :=
       {| storage.records :=
            {[ ("game", "energy_u1") := storage.EnergyJSON regular;
               ("game", "energy_u2") := storage.EnergyJSON veteran ]};
          storage.outage := fun _ => false;
          storage.requests := 0 |};
     clock := fun _ => 1700000450;
     clock_reads := 0;
     rand_src := fun n => 37 * Z.of_nat n + 5;
     rand_reads := 0 |}.

(** The character occurs in the string. *)
Fixpoint occursIn (c : Ascii.ascii) (s : string) : bool :=
  match s with
  | EmptyString => false
  | String c' s' => Ascii.eqb c' c || occursIn c s'
  end.

(** The parts put together again with the separator between them. *)
Fixpoint joinWith (sep : Ascii.ascii) (parts : list string) : string :=
  match parts with
  | [] => EmptyString
  | [part] => part
  | part :: rest => part +:+ String sep (joinWith sep rest)
  end.

(** The user identifier handed to the validator: none when the token
    yields an empty one. *)
Definition presentedUser (claimsSub : string -> option string) (token : string)
    : option string :=
  let userID := common.extractUserIDFromToken claimsSub token in
  if String.eqb userID "" then None else Some userID.

(** A payload decoder that knows one payload, and a validator that accepts
    one token for the user of that payload. *)
Definition demoClaims (payload : string) : option string :=
  if String.eqb payload "cGF5bG9hZA" then Some "u1" else None.

Definition demoValidator (token : string) (permission : option common.Permission)
    (namespace : string) (userID : option string) : bool :=
  String.eqb token "aGVhZGVy.cGF5bG9hZA.c2ln" && bool_decide (userID = Some "u1").

(** * Properties *)

(** ** Machine integers *)

Section WrapFacts.

Lemma wrap32_fits x : fits32 x -> wrap32 x = x.
Proof.
  unfold fits32, wrap32, wrap. intros Hx.
  change (2 ^ (32 - 1)) with 2147483648. change (2 ^ 32) with 4294967296.
  change (2 ^ 31) with 2147483648 in Hx.
  rewrite Z.mod_small by lia. lia.
Qed.

Lemma wrap64_fits x : fits64 x -> wrap64 x = x.
Proof.
  unfold fits64, wrap64, wrap. intros Hx.
  change (2 ^ (64 - 1)) with 9223372036854775808.
  change (2 ^ 64) with 18446744073709551616.
  change (2 ^ 63) with 9223372036854775808 in Hx.
  rewrite Z.mod_small by lia. lia.
Qed.

Lemma wrap32_range x : fits32 (wrap32 x).
Proof.
  unfold fits32, wrap32, wrap.
  change (2 ^ (32 - 1)) with 2147483648. change (2 ^ 32) with 4294967296.
  change (2 ^ 31) with 2147483648.
  pose proof (Z.mod_pos_bound (x + 2147483648) 4294967296 ltac:(lia)). lia.
Qed.

Lemma wrap64_range x : fits64 (wrap64 x).
Proof.
  unfold fits64, wrap64, wrap.
  change (2 ^ (64 - 1)) with 9223372036854775808.
  change (2 ^ 64) with 18446744073709551616.
  change (2 ^ 63) with 9223372036854775808.
  pose proof (Z.mod_pos_bound (x + 9223372036854775808) 18446744073709551616 ltac:(lia)).
  lia.
Qed.

Lemma fits32_fits64 x : fits32 x -> fits64 x.
Proof. unfold fits32, fits64. lia. Qed.

End WrapFacts.

Lemma instant_fits64 t : instant t -> fits64 t.
Proof. unfold instant, fits64. lia. Qed.

Lemma instant_diff_fits64 t u : instant t -> instant u -> fits64 (t - u).
Proof. unfold instant, fits64. lia. Qed.

Lemma quot_bounds a b : 0 <= a -> 0 < b -> 0 <= Z.quot a b <= a.
Proof.
  intros Ha Hb. rewrite Z.quot_div_nonneg by lia. split.
  - apply Z.div_pos; lia.
  - apply Z.div_le_upper_bound; nia.
Qed.

(** Go's quotient is no larger than the dividend, and times the divisor it
    lies between zero and the dividend. *)
Lemma quot_mul_between a b :
  b <> 0 ->
  Z.abs (Z.quot a b) <= Z.abs a /\
  (0 <= a -> 0 <= Z.quot a b * b <= a) /\
  (a <= 0 -> a <= Z.quot a b * b <= 0).
Proof.
  assert (Hpos : forall c e, 0 <= c -> 0 < e ->
                 0 <= Z.quot c e <= c /\ 0 <= Z.quot c e * e <= c).
  { intros c e Hc He. pose proof (quot_bounds c e Hc He).
    pose proof (Z.quot_rem' c e). pose proof (Z.rem_bound_pos c e Hc He). nia. }
  assert (Hb : forall e, 0 < e ->
               Z.abs (Z.quot a e) <= Z.abs a /\
               (0 <= a -> 0 <= Z.quot a e * e <= a) /\
               (a <= 0 -> a <= Z.quot a e * e <= 0)).
  { intros e He. destruct (Z.le_ge_cases 0 a) as [Ha|Ha].
    - destruct (Hpos a e Ha He). repeat split; lia.
    - destruct (Hpos (- a) e ltac:(lia) He) as [H1 H2].
      rewrite Z.quot_opp_l in H1, H2 by lia. repeat split; lia. }
  intros Hne. destruct (Z.lt_ge_cases 0 b) as [Hlt|Hge]; [apply Hb; exact Hlt|].
  destruct (Hb (- b) ltac:(lia)) as (H1 & H2 & H3).
  rewrite Z.quot_opp_r in H1, H2, H3 by lia. repeat split; lia.
Qed.

Lemma rem_bounds a b : 0 <= a -> 0 < b -> 0 <= Z.rem a b < b.
Proof. intros Ha Hb. apply Z.rem_bound_pos; lia. Qed.

(** ** The regeneration function *)

Section Regeneration.

Variable data : storage.EnergyData.

Let cur := storage.CurrentEnergy data.
Let cap := storage.MaxEnergy data.
Let last := storage.LastUpdateTime data.
Let rate := storage.RegenRateSeconds data.

Lemma regenPointsAt_instant now :
  instant last -> instant now ->
  regenPointsAt data now =
    if (0 <? rate) && (0 <? now - last) then wrap32 (Z.quot (now - last) rate) else 0.
Proof.
  intros Hl Hn. unfold regenPointsAt. fold last rate.
  rewrite (wrap64_fits (now - last)) by (apply instant_diff_fits64; assumption).
  destruct (Z.ltb_spec 0 rate) as [Hr|Hr]; [|reflexivity].
  destruct (Z.ltb_spec 0 (now - last)) as [He|He]; [|reflexivity].
  cbn [andb]. rewrite wrap64_fits; [reflexivity|].
  pose proof (quot_bounds (now - last) rate ltac:(lia) Hr).
  unfold instant in *. unfold fits64. lia.
Qed.

(** With a rate that is not zero the function returns. *)
Lemma calculateEnergyStateAt_returns now :
  rate <> 0 -> exists st, calculateEnergyStateAt data now = Ok st.
Proof.
  intros Hr. unfold calculateEnergyStateAt, rem64. fold rate.
  destruct (Z.eqb_spec rate 0) as [->|_]; [contradiction|].
  destruct (_ <? _); eexists; reflexivity.
Qed.

Lemma calculateEnergyStateAt_fields now st :
  calculateEnergyStateAt data now = Ok st ->
  pb.CurrentEnergy st = currentEnergyAt data now /\
  pb.MaxEnergy st = cap /\ pb.RegenRateSeconds st = rate /\
  pb.LastUpdateTime st = last /\ pb.UserId st = storage.UserId data.
Proof.
  unfold calculateEnergyStateAt.
  destruct (_ <? _).
  - destruct (rem64 _ _); intros [= <-]; cbn; auto.
  - intros [= <-]; cbn; auto.
Qed.

(** Where no addition overflows, regeneration never lowers the energy. *)
Lemma currentEnergyAt_monotone t1 t2 :
  instant last -> instant t1 -> instant t2 ->
  fits32 cur -> 0 <= cur ->
  (0 < rate -> cur + Z.quot (t2 - last) rate < 2 ^ 31) ->
  t1 <= t2 ->
  currentEnergyAt data t1 <= currentEnergyAt data t2.
Proof.
  intros Hl H1 H2 Hf Hc Hov Hle. unfold currentEnergyAt. fold cur cap.
  unfold fits32 in Hf.
  rewrite !regenPointsAt_instant by assumption.
  destruct (Z.ltb_spec 0 rate) as [Hr|Hr]; cbn [andb]; [|lia].
  specialize (Hov Hr).
  assert (Hq : forall t, 0 < t - last -> t <= t2 ->
               0 <= Z.quot (t - last) rate <= Z.quot (t2 - last) rate).
  { intros t Ht Htt. split.
    - apply Z.quot_pos; lia.
    - apply Z.quot_le_mono; lia. }
  assert (Hw : forall q, 0 <= q <= Z.quot (t2 - last) rate ->
               wrap32 (cur + wrap32 q) = cur + q).
  { intros q Hqq. rewrite (wrap32_fits q) by (unfold fits32; lia).
    apply wrap32_fits. unfold fits32. lia. }
  assert (H0 : wrap32 (cur + 0) = cur + 0).
  { apply wrap32_fits. unfold fits32. lia. }
  destruct (Z.ltb_spec 0 (t1 - last)) as [He1|He1];
    destruct (Z.ltb_spec 0 (t2 - last)) as [He2|He2]; try lia.
  - pose proof (Hq t1 He1 Hle) as Hq1. pose proof (Hq t2 He2 ltac:(lia)) as Hq2.
    rewrite (Hw _ Hq1), (Hw _ Hq2).
    repeat match goal with |- context [?a <? ?b] => destruct (Z.ltb_spec a b) end; lia.
  - pose proof (Hq t2 He2 ltac:(lia)) as Hq2.
    rewrite H0, (Hw _ Hq2).
    repeat match goal with |- context [?a <? ?b] => destruct (Z.ltb_spec a b) end; lia.
Qed.

End Regeneration.

(** C4. The specification says that derivation has no error case and that a
    regeneration rate of zero or less gives zero regenerated points instead
    of a failure.  The division is guarded so, the remainder that follows is
    not: with a rate of zero and a derived energy below the maximum,
    [calculateEnergyState] panics (integer division by zero). *)
Theorem calculateEnergyState_zero_rate_panics (data : storage.EnergyData) (now : Z) :
  storage.RegenRateSeconds data = 0 ->
  currentEnergyAt data now < storage.MaxEnergy data ->
  regenPointsAt data now = 0 /\ calculateEnergyStateAt data now = Panic.
Proof.
  intros Hr Hlt. split.
  - unfold regenPointsAt. rewrite Hr. reflexivity.
  - unfold calculateEnergyStateAt, rem64. rewrite Hr.
    destruct (Z.ltb_spec (currentEnergyAt data now) (storage.MaxEnergy data)); [|lia].
    reflexivity.
Qed.

Lemma calculateEnergyState_zero_rate_panics_witness :
  regenPointsAt stalled 1700000450 = 0 /\
  calculateEnergyStateAt stalled 1700000450 = Panic.
Proof.
  apply (calculateEnergyState_zero_rate_panics stalled 1700000450).
  - reflexivity.
  - vm_compute. reflexivity.
Defined.

(** The record [brimful] is what two admin calls with positive int32
    arguments leave for a new player: a config update to a maximum of
    [MaxInt32], then a refill of 2147483547 on top of the initial 100. *)
Lemma brimful_after_admin_calls :
  let w1 := snd (UpdateEnergyConfig "game" "u1" MaxInt32 0 emptyWorld) in
  let w2 := snd (RefillEnergy "game" "u1" 2147483547 w1) in
  storage.records (backend w2) !! ("game", storage.getEnergyKey "u1")
  = Some (storage.EnergyJSON brimful).
Proof. vm_compute. reflexivity. Qed.

(** C7. Derived energy is to be non-decreasing in time.  The sum
    [data.CurrentEnergy + regenPoints] is an int32 sum taken before the cap:
    for a record filled to a maximum of [MaxInt32] the first regenerated
    point wraps it around to [MinInt32], which the cap lets through. *)
Theorem regeneration_wraps_below_earlier_energy :
  exists s1 s2,
    1700000000 <= 1700000300 /\
    calculateEnergyStateAt brimful 1700000000 = Ok s1 /\
    calculateEnergyStateAt brimful 1700000300 = Ok s2 /\
    pb.CurrentEnergy s1 = MaxInt32 /\
    pb.CurrentEnergy s2 = MinInt32 /\
    pb.CurrentEnergy s2 < pb.CurrentEnergy s1.
Proof.
  do 2 eexists. split; [lia|].
  split; [vm_compute; reflexivity|].
  split; [vm_compute; reflexivity|].
  cbn. repeat split.
Qed.

(** C10. Below the cap, with a positive rate and a checkpoint that is not in
    the future, the next regeneration point is predicted after the query
    time and at most one regeneration interval later. *)
Theorem nextRegenTime_within_one_interval (data : storage.EnergyData) (now : Z) :
  fits32 (storage.RegenRateSeconds data) ->
  instant (storage.LastUpdateTime data) -> instant now ->
  0 < storage.RegenRateSeconds data ->
  storage.LastUpdateTime data <= now ->
  currentEnergyAt data now < storage.MaxEnergy data ->
  exists st,
    calculateEnergyStateAt data now = Ok st /\
    pb.CurrentEnergy st = currentEnergyAt data now /\
    now < pb.NextRegenTime st <= now + storage.RegenRateSeconds data.
Proof.
  intros Hfr Hl Hn Hr Hle Hlt.
  unfold calculateEnergyStateAt, rem64.
  destruct (Z.ltb_spec (currentEnergyAt data now) (storage.MaxEnergy data)); [|lia].
  destruct (Z.eqb_spec (storage.RegenRateSeconds data) 0); [lia|].
  eexists. split; [reflexivity|]. cbn. split; [reflexivity|].
  rewrite (wrap64_fits (now - _)) by (apply instant_diff_fits64; assumption).
  pose proof (rem_bounds (now - storage.LastUpdateTime data) _ ltac:(lia) Hr) as Hrem.
  unfold fits32, instant in *.
  rewrite (wrap64_fits (Z.rem _ _)) by (unfold fits64; lia).
  rewrite (wrap64_fits (_ - Z.rem _ _)) by (unfold fits64; lia).
  rewrite wrap64_fits by (unfold fits64; lia).
  lia.
Qed.

Lemma nextRegenTime_within_one_interval_witness :
  exists st,
    calculateEnergyStateAt
      {| storage.UserId := "u1"; storage.CurrentEnergy := 40; storage.MaxEnergy := 100;
         storage.LastUpdateTime := 1700000000; storage.RegenRateSeconds := 300;
         storage.Level := 1; storage.Inventory := None |} 1700000450 = Ok st /\
    pb.CurrentEnergy st = 41 /\
    1700000450 < pb.NextRegenTime st <= 1700000450 + 300.
Proof.
  apply (nextRegenTime_within_one_interval
           {| storage.UserId := "u1"; storage.CurrentEnergy := 40; storage.MaxEnergy := 100;
              storage.LastUpdateTime := 1700000000; storage.RegenRateSeconds := 300;
              storage.Level := 1; storage.Inventory := None |} 1700000450).
  - unfold fits32. cbn. lia.
  - unfold instant. cbn. lia.
  - unfold instant. lia.
  - cbn. lia.
  - cbn. lia.
  - vm_compute. reflexivity.
Defined.

Section Storage.

Variables namespace userId : string.

Let key := (namespace, storage.getEnergyKey userId).
Lemma GetEnergyData_stored cs d :
  healthy cs ->
  storage.records cs !! key = Some (storage.EnergyJSON d) ->
  storage.GetEnergyData namespace userId cs = (Ok (Some d), storage.served cs).
Proof.
  intros Hh Hd. unfold storage.GetEnergyData, storage.AdminGetGameRecordHandlerV1Short.
  rewrite Hh. fold key. rewrite Hd. reflexivity.
Qed.

Lemma GetEnergyData_absent cs :
  healthy cs ->
  storage.records cs !! key = None ->
  storage.GetEnergyData namespace userId cs = (Ok None, storage.served cs).
Proof.
  intros Hh Hd. unfold storage.GetEnergyData, storage.AdminGetGameRecordHandlerV1Short.
  rewrite Hh. fold key. rewrite Hd. reflexivity.
Qed.

Lemma SaveEnergyData_stores cs d :
  storage.outage cs (storage.requests cs) = false ->
  storage.SaveEnergyData namespace userId d cs
  = (Ok d, storage.stored key (storage.EnergyJSON d) cs).
Proof.
  intros Hh. unfold storage.SaveEnergyData, storage.AdminPostGameRecordHandlerV1Short.
  rewrite Hh. reflexivity.
Qed.

Lemma healthy_served cs : healthy cs -> healthy (storage.served cs).
Proof. intros Hh n. apply Hh. Qed.

Lemma healthy_stored cs k v : healthy cs -> healthy (storage.stored k v cs).
Proof. intros Hh n. apply Hh. Qed.

End Storage.

(** C5. A read that fails for a reason other than absence is to surface as an
    internal failure.  [GetEnergyData] answers every error of the SDK call
    with [nil, nil], the answer for an absent record; the caller then takes
    the player for a new one and, if the next request gets through, writes
    the default record over whatever was stored. *)
Theorem GetEnergyData_reports_failed_read_as_absent (namespace userId : string) (w : World) :
  storage.outage (backend w) (storage.requests (backend w)) = true ->
  storage.outage (backend w) (S (storage.requests (backend w))) = false ->
  fst (storage.GetEnergyData namespace userId (backend w)) = Ok None /\
  exists st w',
    getOrCreateEnergyState namespace userId w = (Ok st, w') /\
    storage.records (backend w') !! (namespace, storage.getEnergyKey userId)
    = Some (storage.EnergyJSON (defaultData userId (timeAt w 0))).
Proof.
  intros Hout Hnext.
  assert (Hget : storage.GetEnergyData namespace userId (backend w)
                 = (Ok None, storage.served (backend w))).
  { unfold storage.GetEnergyData, storage.AdminGetGameRecordHandlerV1Short.
    rewrite Hout. reflexivity. }
  split; [rewrite Hget; reflexivity|].
  unfold getOrCreateEnergyState, bind, orFail, onStorage.
  rewrite Hget. cbn.
  rewrite SaveEnergyData_stores by exact Hnext. cbn.
  unfold calculateEnergyState, bind, lift. cbn.
  destruct (calculateEnergyStateAt_returns
              (defaultData userId (wrap64 (clock w (clock_reads w))))
              (wrap64 (clock w (S (clock_reads w)))) ltac:(discriminate)) as [st Hst].
  rewrite Hst. eexists _, _. split; [reflexivity|].
  cbn. apply lookup_insert_eq.
Qed.

Lemma GetEnergyData_reports_failed_read_as_absent_witness :
  storage.records (backend flakyWorld) !! ("game", storage.getEnergyKey "u1")
  = Some (storage.EnergyJSON veteran) /\
  fst (storage.GetEnergyData "game" "u1" (backend flakyWorld)) = Ok None /\
  exists st w',
    getOrCreateEnergyState "game" "u1" flakyWorld = (Ok st, w') /\
    storage.records (backend w') !! ("game", storage.getEnergyKey "u1")
    = Some (storage.EnergyJSON (defaultData "u1" (timeAt flakyWorld 0))).
Proof.
  split; [vm_compute; reflexivity|].
  apply (GetEnergyData_reports_failed_read_as_absent "game" "u1" flakyWorld);
    reflexivity.
Defined.

(** ** The loot roller *)

Section LootRoller.

Lemma rand_skip_skip j k w : rand_skip j (rand_skip k w) = rand_skip (j + k) w.
Proof. unfold rand_skip. cbn. f_equal. lia. Qed.

Lemma rand_Intn_draws n w :
  0 < n ->
  exists r, rand_Intn n w = (Ok r, rand_skip 1 w) /\ 0 <= r < n.
Proof.
  intros Hn. unfold rand_Intn.
  destruct (Z.leb_spec n 0); [lia|].
  eexists. split; [reflexivity|]. apply Z.mod_pos_bound. lia.
Qed.

Lemma sumWeights_nonneg table : Forall goodEntry table -> 0 <= sumWeights table.
Proof.
  induction 1 as [|entry rest [Hw _] _ IH]; unfold sumWeights in *; cbn; lia.
Qed.

Lemma totalWeight_from table : forall acc,
  Forall goodEntry table -> 0 <= acc -> acc + sumWeights table < 2 ^ 62 ->
  fold_left (fun total entry => wrap64 (total + Weight entry)) table acc
  = acc + sumWeights table.
Proof.
  unfold sumWeights.
  induction table as [|entry rest IH]; intros acc Hgood Hacc Hsum; cbn in *.
  - lia.
  - inversion Hgood as [|? ? [Hw _] Hrest]; subst.
    pose proof (sumWeights_nonneg rest Hrest) as Hnn. unfold sumWeights in Hnn.
    rewrite (wrap64_fits (acc + Weight entry)) by (unfold fits64; lia).
    rewrite IH by (auto; lia). lia.
Qed.

Lemma totalWeight_sumWeights table :
  goodTable table -> totalWeight table = sumWeights table.
Proof.
  intros [Hgood Hsum]. unfold totalWeight.
  rewrite totalWeight_from by (auto; lia). lia.
Qed.

Lemma landedOn_lands table : forall roll cumulative,
  Forall goodEntry table ->
  0 <= cumulative <= roll ->
  roll < cumulative + sumWeights table ->
  cumulative + sumWeights table < 2 ^ 62 ->
  exists entry, landedOn roll cumulative table = Some entry /\ entry ∈ table.
Proof.
  unfold sumWeights.
  induction table as [|entry rest IH]; intros roll c Hgood Hc Hroll Hsum; cbn in *.
  - lia.
  - inversion Hgood as [|? ? [Hw _] Hrest]; subst.
    pose proof (sumWeights_nonneg rest Hrest) as Hnn. unfold sumWeights in Hnn.
    rewrite (wrap64_fits (c + Weight entry)) by (unfold fits64; lia).
    destruct (Z.ltb_spec roll (c + Weight entry)) as [Hlt|Hge].
    + exists entry. split; [reflexivity|]. apply list_elem_of_here.
    + destruct (IH roll (c + Weight entry) Hrest ltac:(lia) ltac:(lia) ltac:(lia))
        as (e & He & Hin).
      exists e. split; [exact He|]. apply list_elem_of_further. exact Hin.
Qed.

Lemma rollQuantity_in_range entry w :
  goodEntry entry ->
  exists qty k,
    rollQuantity entry w = (Ok qty, rand_skip k w) /\
    MinQty entry <= qty <= MaxQty entry.
Proof.
  intros (Hw & Hq & Hmax). unfold rollQuantity.
  destruct (Z.ltb_spec (MinQty entry) (MaxQty entry)) as [Hlt|Hge].
  - unfold rand_Int31n, bind.
    rewrite (wrap32_fits (MaxQty entry - MinQty entry)) by (unfold fits32; lia).
    rewrite (wrap32_fits (MaxQty entry - MinQty entry + 1)) by (unfold fits32; lia).
    destruct (rand_Intn_draws (MaxQty entry - MinQty entry + 1) w ltac:(lia))
      as (r & Hr & Hrange).
    rewrite Hr. unfold ret.
    rewrite (wrap32_fits (MinQty entry + r)) by (unfold fits32; lia).
    exists (MinQty entry + r), 1%nat. split; [reflexivity|lia].
  - exists (MinQty entry), 0%nat. split; [|lia].
    unfold ret, rand_skip. destruct w; reflexivity.
Qed.

Lemma rollDrop_appends table loot w :
  goodTable table ->
  exists item k,
    rollDrop table loot w = (Ok (loot ++ [item]), rand_skip k w) /\
    dropFrom table item.
Proof.
  intros Hgood. pose proof Hgood as [Hentries Hsum].
  unfold rollDrop, bind. rewrite totalWeight_sumWeights by exact Hgood.
  destruct (rand_Intn_draws (sumWeights table) w ltac:(lia)) as (roll & Hroll & Hrange).
  rewrite Hroll.
  destruct (landedOn_lands table roll 0 Hentries ltac:(lia) ltac:(lia) ltac:(lia))
    as (entry & Hland & Hin).
  rewrite Hland.
  assert (Hentry : goodEntry entry).
  { rewrite Forall_forall in Hentries. apply Hentries. exact Hin. }
  destruct (rollQuantity_in_range entry (rand_skip 1 w) Hentry) as (qty & k & Hqty & Hq).
  rewrite Hqty. unfold ret. rewrite rand_skip_skip.
  eexists _, _. split; [reflexivity|].
  exists entry. cbn. auto.
Qed.

Lemma rollDrops_appends table : forall turns loot w,
  goodTable table ->
  Forall (dropFrom table) loot ->
  exists loot' k,
    rollDrops turns table loot w = (Ok loot', rand_skip k w) /\
    length loot' = (length loot + turns)%nat /\
    Forall (dropFrom table) loot'.
Proof.
  induction turns as [|turns IH]; intros loot w Hgood Hloot; cbn.
  - exists loot, 0%nat. unfold ret, rand_skip. split; [destruct w; reflexivity|].
    split; [lia|exact Hloot].
  - unfold bind.
    destruct (rollDrop_appends table loot w Hgood) as (item & k & Hdrop & Hitem).
    rewrite Hdrop.
    destruct (IH (loot ++ [item]) (rand_skip k w) Hgood) as (loot' & k' & Hrest & Hlen & Hall).
    { apply Forall_app. split; [exact Hloot|]. constructor; [exact Hitem|constructor]. }
    rewrite Hrest, rand_skip_skip. exists loot', (k' + k)%nat.
    split; [reflexivity|]. split; [|exact Hall].
    rewrite Hlen, length_app. cbn. lia.
Qed.

Lemma fightLoot_good : goodTable fightLoot.
Proof.
  split.
  - unfold fightLoot, goodEntry. repeat constructor; cbn; lia.
  - cbn. lia.
Qed.

Lemma exploreLoot_good : goodTable exploreLoot.
Proof.
  split.
  - unfold exploreLoot, goodEntry. repeat constructor; cbn; lia.
  - cbn. lia.
Qed.

Lemma lootTables_lookup actionType :
  lootTables !! actionType =
    if decide (actionType = "fight") then Some fightLoot
    else if decide (actionType = "explore") then Some exploreLoot
    else None.
Proof.
  unfold lootTables.
  destruct (decide (actionType = "fight")) as [->|Hf].
  - apply lookup_insert_eq.
  - rewrite lookup_insert_ne by congruence.
    destruct (decide (actionType = "explore")) as [->|He].
    + apply lookup_singleton_eq.
    + apply lookup_singleton_ne. congruence.
Qed.

Lemma selectTable_good actionType : goodTable (selectTable actionType).
Proof.
  unfold selectTable. rewrite !lootTables_lookup.
  repeat case_decide; try congruence; cbn;
    auto using fightLoot_good, exploreLoot_good.
Qed.

Lemma rollLoot_rolls actionType w :
  exists loot k,
    rollLoot actionType w = (Ok loot, rand_skip k w) /\
    (1 <= length loot <= 3)%nat /\
    Forall (dropFrom (selectTable actionType)) loot.
Proof.
  unfold rollLoot, bind.
  destruct (rand_Intn_draws 3 w ltac:(lia)) as (n & Hn & Hrange).
  rewrite Hn.
  rewrite (wrap64_fits (n + 1)) by (unfold fits64; lia).
  destruct (rollDrops_appends (selectTable actionType) (Z.to_nat (n + 1)) []
              (rand_skip 1 w) (selectTable_good actionType) ltac:(constructor))
    as (loot & k & Hrolls & Hlen & Hall).
  rewrite Hrolls, rand_skip_skip. exists loot, (k + 1)%nat.
  split; [reflexivity|]. split; [|exact Hall].
  rewrite Hlen. cbn. lia.
Qed.

End LootRoller.

(** C6. Every roll of the loot roller returns between one and three drops;
    the table is the action's own when it has one and the table of "fight"
    otherwise; every drop carries the item of an entry of that table, in a
    quantity between the entry's minimum and maximum. *)
Theorem rollLoot_drops_from_selected_table (actionType : string) (w : World) :
  exists loot w',
    rollLoot actionType w = (Ok loot, w') /\
    (1 <= length loot <= 3)%nat /\
    (forall table, lootTables !! actionType = Some table -> selectTable actionType = table) /\
    (lootTables !! actionType = None -> selectTable actionType = fightLoot) /\
    Forall (fun item =>
              exists entry,
                entry ∈ selectTable actionType /\
                pb.ItemId item = ItemID entry /\
                MinQty entry <= pb.Quantity item <= MaxQty entry) loot.
Proof.
  destruct (rollLoot_rolls actionType w) as (loot & k & Hroll & Hlen & Hall).
  exists loot, (rand_skip k w). split; [exact Hroll|]. split; [exact Hlen|].
  split; [|split].
  - intros table Ht. unfold selectTable. rewrite Ht. reflexivity.
  - intros Hnone. unfold selectTable. rewrite Hnone. reflexivity.
  - eapply Forall_impl; [exact Hall|].
    intros item (entry & Hin & Hid & _ & Hq). exists entry. auto.
Qed.

(** ** Running the service *)

Section Running.

Variables namespace userId : string.

Let key := (namespace, storage.getEnergyKey userId).

Lemma bind_Ok {A B} (m : M A) (k : A -> M B) w a w' :
  m w = (Ok a, w') -> bind m k w = k a w'.
Proof. intros H. unfold bind. rewrite H. reflexivity. Qed.

Lemma calculateEnergyState_run data w :
  calculateEnergyState data w = (calculateEnergyStateAt data (timeAt w 0), clock_read w).
Proof. reflexivity. Qed.

Lemma time_Now_Unix_run w : time_Now_Unix w = (Ok (timeAt w 0), clock_read w).
Proof. reflexivity. Qed.

Lemma load_stored w d :
  healthy (backend w) ->
  storage.records (backend w) !! key = Some (storage.EnergyJSON d) ->
  orFail Internal (onStorage (storage.GetEnergyData namespace userId)) w
  = (Ok (Some d), with_backend (storage.served (backend w)) w).
Proof.
  intros Hh Hd. unfold orFail, onStorage.
  rewrite (GetEnergyData_stored namespace userId _ d Hh Hd). reflexivity.
Qed.

Lemma reload_stored w d :
  healthy (backend w) ->
  storage.records (backend w) !! key = Some (storage.EnergyJSON d) ->
  dropError (onStorage (storage.GetEnergyData namespace userId)) w
  = (Ok (Some d), with_backend (storage.served (backend w)) w).
Proof.
  intros Hh Hd. unfold dropError, onStorage.
  rewrite (GetEnergyData_stored namespace userId _ d Hh Hd). reflexivity.
Qed.

Lemma save_stores w d :
  healthy (backend w) ->
  orFail Internal (onStorage (storage.SaveEnergyData namespace userId d)) w
  = (Ok d, with_backend (storage.stored key (storage.EnergyJSON d) (backend w)) w).
Proof.
  intros Hh. unfold orFail, onStorage.
  rewrite SaveEnergyData_stores by apply Hh. reflexivity.
Qed.

(** Loading an existing record reads the backend once and the clock once. *)
Lemma getOrCreateEnergyState_existing w d :
  healthy (backend w) ->
  storage.records (backend w) !! key = Some (storage.EnergyJSON d) ->
  getOrCreateEnergyState namespace userId w
  = (calculateEnergyStateAt d (timeAt w 0),
     clock_read (with_backend (storage.served (backend w)) w)).
Proof.
  intros Hh Hd. unfold getOrCreateEnergyState.
  rewrite (bind_Ok _ _ _ _ _ (load_stored w d Hh Hd)).
  rewrite calculateEnergyState_run. reflexivity.
Qed.

(** Loading an absent record writes the defaults first. *)
Lemma getOrCreateEnergyState_absent w :
  healthy (backend w) ->
  storage.records (backend w) !! key = None ->
  getOrCreateEnergyState namespace userId w
  = (calculateEnergyStateAt (defaultData userId (timeAt w 0)) (timeAt w 1),
     clock_read
       (with_backend
          (storage.stored key (storage.EnergyJSON (defaultData userId (timeAt w 0)))
             (storage.served (backend w)))
          (clock_read w))).
Proof.
  intros Hh Hd. unfold getOrCreateEnergyState.
  assert (Hload : orFail Internal (onStorage (storage.GetEnergyData namespace userId)) w
                  = (Ok None, with_backend (storage.served (backend w)) w)).
  { unfold orFail, onStorage.
    rewrite (GetEnergyData_absent namespace userId _ Hh Hd). reflexivity. }
  rewrite (bind_Ok _ _ _ _ _ Hload).
  rewrite (bind_Ok _ _ _ _ _ (time_Now_Unix_run _)).
  erewrite bind_Ok; [|apply save_stores; cbn; apply healthy_served; exact Hh].
  reflexivity.
Qed.

(** What a successful load leaves behind: the record it derived the state
    from is in the store, either because it was there or because the
    defaults were written. *)
Lemma getOrCreateEnergyState_loads w st w1 :
  healthy (backend w) ->
  getOrCreateEnergyState namespace userId w = (Ok st, w1) ->
  healthy (backend w1) /\
  exists d,
    storage.records (backend w1) !! key = Some (storage.EnergyJSON d) /\
    pb.MaxEnergy st = storage.MaxEnergy d /\
    pb.RegenRateSeconds st = storage.RegenRateSeconds d /\
    ((storage.records (backend w) !! key = Some (storage.EnergyJSON d) /\
      storage.records (backend w1) = storage.records (backend w) /\
      calculateEnergyStateAt d (timeAt w 0) = Ok st)
     \/
     (storage.records (backend w) !! key = None /\
      d = defaultData userId (timeAt w 0) /\
      calculateEnergyStateAt d (timeAt w 1) = Ok st)).
Proof.
  intros Hh Hrun.
  destruct (storage.records (backend w) !! key) as [[d|]|] eqn:Hd.
  - rewrite (getOrCreateEnergyState_existing w d Hh Hd) in Hrun.
    injection Hrun as Hst <-. split; [intros n; apply Hh|].
    destruct (calculateEnergyStateAt_fields d _ _ Hst) as (_ & Hm & Hr & _).
    exists d. cbn. repeat split; auto.
  - exfalso. unfold getOrCreateEnergyState, bind, orFail, onStorage in Hrun.
    unfold storage.GetEnergyData, storage.AdminGetGameRecordHandlerV1Short in Hrun.
    rewrite Hh in Hrun. fold key in Hrun. rewrite Hd in Hrun. cbn in Hrun. discriminate.
  - rewrite (getOrCreateEnergyState_absent w Hh Hd) in Hrun.
    injection Hrun as Hst <-. split; [intros n; apply Hh|].
    destruct (calculateEnergyStateAt_fields _ _ _ Hst) as (_ & Hm & Hr & _).
    exists (defaultData userId (timeAt w 0)). cbn.
    split; [apply lookup_insert_eq|]. repeat split; auto.
Qed.

End Running.

(** ** The checkpoint of the player transactions *)

Lemma preservedCheckpoint_instant last rate now :
  rate <> 0 -> instant last -> instant now ->
  preservedCheckpoint last rate now = Ok (phaseCheckpoint last rate now).
Proof.
  intros Hr Hl Hn. unfold preservedCheckpoint, phaseCheckpoint, div64.
  destruct (Z.eqb_spec rate 0); [lia|].
  rewrite (wrap64_fits (now - last)) by (apply instant_diff_fits64; assumption).
  destruct (quot_mul_between (now - last) rate Hr) as (Habs & Hpos & Hneg).
  unfold instant in *.
  assert (Hq : fits64 (Z.quot (now - last) rate)) by (unfold fits64; lia).
  assert (Hm : fits64 (Z.quot (now - last) rate * rate)) by (unfold fits64; lia).
  assert (Hs : fits64 (last + Z.quot (now - last) rate * rate)) by (unfold fits64; lia).
  rewrite (wrap64_fits _ Hq), (wrap64_fits _ Hm), (wrap64_fits _ Hs). reflexivity.
Qed.

(** The example of the specification: one whole point and 150 seconds after
    the checkpoint, the checkpoint advances by one interval. *)
Lemma phaseCheckpoint_keeps_150_seconds T :
  phaseCheckpoint T 300 (T + 450) = T + 300.
Proof. unfold phaseCheckpoint. replace (T + 450 - T) with 450 by lia. reflexivity. Qed.

(** With the checkpoint not in the future, Go's quotient is the floor. *)
Lemma phaseCheckpoint_floor last rate now :
  0 < rate -> last <= now ->
  phaseCheckpoint last rate now = last + (now - last) / rate * rate.
Proof.
  intros Hr Hle. unfold phaseCheckpoint. rewrite Z.quot_div_nonneg by lia. reflexivity.
Qed.

(** ** The second read of a player transaction *)

Section SecondRead.

Variables namespace userId : string.
Variable d : storage.EnergyData.
Variable w : World.

Let key := (namespace, storage.getEnergyKey userId).

Hypothesis Hfirst : answers w 0 = true.
Hypothesis Hwrite : answers w 2 = true.
Hypothesis Hstored : storage.records (backend w) !! key = Some (storage.EnergyJSON d).
Hypothesis Hrate : storage.RegenRateSeconds d <> 0.

Lemma GetEnergyData_answered cs :
  storage.outage cs (storage.requests cs) = false ->
  storage.records cs !! key = Some (storage.EnergyJSON d) ->
  storage.GetEnergyData namespace userId cs = (Ok (Some d), storage.served cs).
Proof.
  intros Hup Hd. unfold storage.GetEnergyData, storage.AdminGetGameRecordHandlerV1Short.
  rewrite Hup. fold key. rewrite Hd. reflexivity.
Qed.

Lemma GetEnergyData_unanswered cs :
  storage.outage cs (storage.requests cs) = true ->
  storage.GetEnergyData namespace userId cs = (Ok None, storage.served cs).
Proof.
  intros Hdown. unfold storage.GetEnergyData, storage.AdminGetGameRecordHandlerV1Short.
  rewrite Hdown. reflexivity.
Qed.

Lemma answers_outage k :
  answers w k = true ->
  storage.outage (backend w) (k + storage.requests (backend w)) = false.
Proof. unfold answers. destruct (storage.outage _ _); [discriminate|reflexivity]. Qed.

(** The loader reads the stored record and derives the state from it. *)
Lemma first_read_loads :
  getOrCreateEnergyState namespace userId w
  = (calculateEnergyStateAt d (timeAt w 0),
     clock_read (with_backend (storage.served (backend w)) w)).
Proof.
  unfold getOrCreateEnergyState.
  erewrite bind_Ok.
  2:{ unfold orFail, onStorage.
      rewrite GetEnergyData_answered; [reflexivity|apply (answers_outage 0 Hfirst)|].
      exact Hstored. }
  cbn match. rewrite calculateEnergyState_run. reflexivity.
Qed.

(** The transaction's own read hands over the record, or nil with no error
    when the request fails. *)
Lemma second_read_hands_over :
  dropError (onStorage (storage.GetEnergyData namespace userId))
    (clock_read (with_backend (storage.served (backend w)) w))
  = (Ok (reread w d),
     with_backend (storage.served (storage.served (backend w)))
       (clock_read (with_backend (storage.served (backend w)) w))).
Proof.
  unfold dropError, onStorage, reread, answers.
  destruct (storage.outage (backend w) (1 + storage.requests (backend w))) eqn:Hout;
    cbn [negb].
  - rewrite GetEnergyData_unanswered; [reflexivity|exact Hout].
  - rewrite GetEnergyData_answered; [reflexivity|exact Hout|exact Hstored].
Qed.

Lemma write_stores w2 data :
  storage.outage (backend w2) (storage.requests (backend w2)) = false ->
  orFail Internal (onStorage (storage.SaveEnergyData namespace userId data)) w2
  = (Ok data,
     with_backend (storage.stored key (storage.EnergyJSON data) (backend w2)) w2).
Proof.
  intros Hup. unfold orFail, onStorage.
  rewrite SaveEnergyData_stores by exact Hup. reflexivity.
Qed.

(** What a consume with enough energy returns and writes, whatever becomes
    of its second read. *)
Lemma ConsumeMyEnergy_effect actionType energyCost :
  actionEnergyCosts !! actionType = Some energyCost ->
  instant (storage.LastUpdateTime d) ->
  instant (timeAt w 1) ->
  energyCost <= currentEnergyAt d (timeAt w 0) ->
  exists loot newState w',
    ConsumeMyEnergy namespace userId actionType w
    = (Ok {| pb.consume_EnergyState := newState;
             pb.consume_Success := true;
             pb.consume_Loot := loot |}, w') /\
    (1 <= length loot <= 3)%nat /\
    Forall (dropFrom (selectTable actionType)) loot /\
    storage.records (backend w')
    = <[key := storage.EnergyJSON
                 (consumeWrites (reread w d) userId d energyCost (timeAt w 0) (timeAt w 1)
                    loot)]>
        (storage.records (backend w)) /\
    calculateEnergyStateAt
      (consumeWrites (reread w d) userId d energyCost (timeAt w 0) (timeAt w 1) loot)
      (timeAt w 2)
    = Ok newState.
Proof.
  intros Hcost Hlast Hnow Henough.
  unfold ConsumeMyEnergy. rewrite Hcost.
  destruct (calculateEnergyStateAt_returns d (timeAt w 0) Hrate) as [st Hst].
  destruct (calculateEnergyStateAt_fields d _ _ Hst) as (Hcur & Hmax & Hr & _).
  erewrite bind_Ok; [|rewrite first_read_loads; rewrite Hst; reflexivity].
  rewrite Hcur, Hmax, Hr.
  destruct (Z.ltb_spec (currentEnergyAt d (timeAt w 0)) energyCost) as [|_]; [lia|].
  rewrite (bind_Ok _ _ _ _ _ second_read_hands_over).
  rewrite (bind_Ok _ _ _ _ _ (time_Now_Unix_run _)).
  change (timeAt (with_backend _ (clock_read _)) 0) with (timeAt w 1).
  set (w3 := clock_read _).
  set (newLast := storage.LastUpdateTime
                    (consumeWrites (reread w d) userId d energyCost (timeAt w 0)
                       (timeAt w 1) [])).
  erewrite (bind_Ok _ _ w3 newLast w3).
  2:{ subst newLast. destruct (reread w d) as [currentData|] eqn:Hread; [|reflexivity].
      assert (currentData = d) as ->
        by (unfold reread in Hread; destruct (answers w 1); congruence).
      cbn. destruct (_ <=? _); [reflexivity|].
      unfold lift. rewrite preservedCheckpoint_instant by assumption. reflexivity. }
  destruct (rollLoot_rolls actionType w3) as (loot & k & Hloot & Hlen & Hall).
  rewrite (bind_Ok _ _ _ _ _ Hloot).
  erewrite bind_Ok; [|apply write_stores; exact (answers_outage 2 Hwrite)].
  unfold bind at 1. rewrite calculateEnergyState_run.
  change (calculateEnergyStateAt _ _)
    with (calculateEnergyStateAt
            (consumeWrites (reread w d) userId d energyCost (timeAt w 0) (timeAt w 1) loot)
            (timeAt w 2)).
  destruct (calculateEnergyStateAt_returns
              (consumeWrites (reread w d) userId d energyCost (timeAt w 0) (timeAt w 1) loot)
              (timeAt w 2) Hrate) as [st' Hst'].
  rewrite Hst'. unfold ret.
  exists loot, st'. eexists. split; [reflexivity|].
  split; [exact Hlen|]. split; [exact Hall|]. split; reflexivity.
Qed.

(** What a refill returns and writes, whatever becomes of its second read. *)
Lemma RefillMyEnergy_effect source refillAmount :
  refillAmounts !! source = Some refillAmount ->
  instant (storage.LastUpdateTime d) ->
  instant (timeAt w 1) ->
  exists newState w',
    RefillMyEnergy namespace userId source w
    = (Ok {| pb.refill_EnergyState := newState; pb.refill_Success := true |}, w') /\
    storage.records (backend w')
    = <[key := storage.EnergyJSON
                 (refillWrites (reread w d) userId d refillAmount (timeAt w 0) (timeAt w 1))]>
        (storage.records (backend w)) /\
    calculateEnergyStateAt
      (refillWrites (reread w d) userId d refillAmount (timeAt w 0) (timeAt w 1))
      (timeAt w 2)
    = Ok newState.
Proof.
  intros Hamount Hlast Hnow.
  unfold RefillMyEnergy. rewrite Hamount.
  destruct (calculateEnergyStateAt_returns d (timeAt w 0) Hrate) as [st Hst].
  destruct (calculateEnergyStateAt_fields d _ _ Hst) as (Hcur & Hmax & Hr & _).
  erewrite bind_Ok; [|rewrite first_read_loads; rewrite Hst; reflexivity].
  rewrite Hcur, Hmax, Hr.
  rewrite (bind_Ok _ _ _ _ _ second_read_hands_over).
  rewrite (bind_Ok _ _ _ _ _ (time_Now_Unix_run _)).
  change (timeAt (with_backend _ (clock_read _)) 0) with (timeAt w 1).
  set (w3 := clock_read _).
  set (newLast := storage.LastUpdateTime
                    (refillWrites (reread w d) userId d refillAmount (timeAt w 0)
                       (timeAt w 1))).
  erewrite (bind_Ok _ _ w3 newLast w3).
  2:{ subst newLast. destruct (reread w d) as [currentData|] eqn:Hread; [|reflexivity].
      assert (currentData = d) as ->
        by (unfold reread in Hread; destruct (answers w 1); congruence).
      cbn. unfold lift. rewrite preservedCheckpoint_instant by assumption. reflexivity. }
  erewrite bind_Ok; [|apply write_stores; exact (answers_outage 2 Hwrite)].
  unfold bind at 1. rewrite calculateEnergyState_run.
  change (calculateEnergyStateAt _ _)
    with (calculateEnergyStateAt
            (refillWrites (reread w d) userId d refillAmount (timeAt w 0) (timeAt w 1))
            (timeAt w 2)).
  destruct (calculateEnergyStateAt_returns
              (refillWrites (reread w d) userId d refillAmount (timeAt w 0) (timeAt w 1))
              (timeAt w 2) Hrate) as [st' Hst'].
  rewrite Hst'. unfold ret.
  exists st'. eexists. split; [reflexivity|]. split; reflexivity.
Qed.

End SecondRead.

(** C1. A consume for a valid action on an existing record, with the read of
    the loader and the write answered by the backend.  The checkpoint it
    persists turns on its second read of the record, whose error the code
    drops.  When that read is answered the rule holds: the time of the
    transaction when the energy derived before it had reached the maximum,
    otherwise the stored checkpoint advanced by regenPoints *
    regenRateSeconds, with regenPoints the quotient of the elapsed time by
    the rate.  When that read fails the consume reports success all the same
    and persists the time of the transaction, also below the cap, where the
    rule asks for the advanced checkpoint. *)
Theorem ConsumeMyEnergy_checkpoint_by_second_read (namespace userId actionType : string)
    (energyCost : Z) (d : storage.EnergyData) (w : World) :
  actionEnergyCosts !! actionType = Some energyCost ->
  answers w 0 = true ->
  answers w 2 = true ->
  storage.records (backend w) !! (namespace, storage.getEnergyKey userId)
  = Some (storage.EnergyJSON d) ->
  storage.RegenRateSeconds d <> 0 ->
  instant (storage.LastUpdateTime d) ->
  instant (timeAt w 1) ->
  energyCost <= currentEnergyAt d (timeAt w 0) ->
  exists response w' d',
    ConsumeMyEnergy namespace userId actionType w = (Ok response, w') /\
    pb.consume_Success response = true /\
    storage.records (backend w') !! (namespace, storage.getEnergyKey userId)
    = Some (storage.EnergyJSON d') /\
    (answers w 1 = true ->
     (storage.MaxEnergy d <= currentEnergyAt d (timeAt w 0) ->
      storage.LastUpdateTime d' = timeAt w 1) /\
     (currentEnergyAt d (timeAt w 0) < storage.MaxEnergy d ->
      storage.LastUpdateTime d'
      = storage.LastUpdateTime d
        + Z.quot (timeAt w 1 - storage.LastUpdateTime d) (storage.RegenRateSeconds d)
          * storage.RegenRateSeconds d /\
      (0 < storage.RegenRateSeconds d -> storage.LastUpdateTime d <= timeAt w 1 ->
       storage.LastUpdateTime d'
       = storage.LastUpdateTime d
         + (timeAt w 1 - storage.LastUpdateTime d) / storage.RegenRateSeconds d
           * storage.RegenRateSeconds d))) /\
    (answers w 1 = false -> storage.LastUpdateTime d' = timeAt w 1).
Proof.
  intros Hcost Hfirst Hwrite Hd Hrate Hlast Hnow Henough.
  destruct (ConsumeMyEnergy_effect namespace userId d w Hfirst Hwrite Hd Hrate
              actionType energyCost Hcost Hlast Hnow Henough)
    as (loot & newState & w' & Hrun & _ & _ & Hrec & _).
  eexists _, w', _. split; [exact Hrun|]. split; [reflexivity|].
  split; [rewrite Hrec; apply lookup_insert_eq|].
  unfold reread. split; intros Hsecond; rewrite Hsecond; cbn; [|reflexivity].
  destruct (Z.leb_spec (storage.MaxEnergy d) (currentEnergyAt d (timeAt w 0)));
    split; intros; try lia.
  split; [reflexivity|]. intros Hpos Hle. apply phaseCheckpoint_floor; assumption.
Qed.

Lemma ConsumeMyEnergy_checkpoint_by_second_read_witness :
  currentEnergyAt regular 1700000450 < storage.MaxEnergy regular /\
  (exists response w' d',
     ConsumeMyEnergy "game" "u1" "fight" (calmWorld regular 1700000450) = (Ok response, w') /\
     pb.consume_Success response = true /\
     storage.records (backend w') !! ("game", storage.getEnergyKey "u1")
     = Some (storage.EnergyJSON d') /\
     storage.LastUpdateTime d' = 1700000300) /\
  (exists response w' d',
     ConsumeMyEnergy "game" "u1" "fight" (secondReadFails regular 1700000450)
     = (Ok response, w') /\
     pb.consume_Success response = true /\
     storage.records (backend w') !! ("game", storage.getEnergyKey "u1")
     = Some (storage.EnergyJSON d') /\
     storage.LastUpdateTime d' = 1700000450 /\
     storage.LastUpdateTime d'
     <> storage.LastUpdateTime regular
        + Z.quot (1700000450 - storage.LastUpdateTime regular)
            (storage.RegenRateSeconds regular)
          * storage.RegenRateSeconds regular).
Proof.
  split; [vm_compute; reflexivity|]. split.
  - destruct (ConsumeMyEnergy_checkpoint_by_second_read "game" "u1" "fight" 10 regular
                (calmWorld regular 1700000450))
      as (response & w' & d' & Hrun & Hok & Hrec & Hread & _).
    + reflexivity.
    + reflexivity.
    + reflexivity.
    + reflexivity.
    + discriminate.
    + unfold instant. cbn. lia.
    + unfold instant. vm_compute. split; [discriminate|reflexivity].
    + vm_compute. discriminate.
    + exists response, w', d'. repeat split; try assumption.
      destruct (Hread eq_refl) as [_ Hbelow].
      destruct Hbelow as [Hq _]; [vm_compute; reflexivity|].
      rewrite Hq. vm_compute. reflexivity.
  - destruct (ConsumeMyEnergy_checkpoint_by_second_read "game" "u1" "fight" 10 regular
                (secondReadFails regular 1700000450))
      as (response & w' & d' & Hrun & Hok & Hrec & _ & Hunread).
    + reflexivity.
    + reflexivity.
    + reflexivity.
    + reflexivity.
    + discriminate.
    + unfold instant. cbn. lia.
    + unfold instant. vm_compute. split; [discriminate|reflexivity].
    + vm_compute. discriminate.
    + exists response, w', d'. repeat split; try assumption.
      * rewrite (Hunread eq_refl). vm_compute. reflexivity.
      * rewrite (Hunread eq_refl). vm_compute. discriminate.
Defined.

(** C3. A refill from a valid source on an existing record, with the read of
    the loader and the write answered by the backend.  When the refill's
    second read of the record is answered, it persists the stored checkpoint
    advanced by regenPoints * regenRateSeconds, whatever the derived energy,
    also at the cap.  When that read fails, its error is dropped, the refill
    reports success and persists the time of the transaction as the
    checkpoint. *)
Theorem RefillMyEnergy_checkpoint_by_second_read (namespace userId source : string)
    (refillAmount : Z) (d : storage.EnergyData) (w : World) :
  refillAmounts !! source = Some refillAmount ->
  answers w 0 = true ->
  answers w 2 = true ->
  storage.records (backend w) !! (namespace, storage.getEnergyKey userId)
  = Some (storage.EnergyJSON d) ->
  storage.RegenRateSeconds d <> 0 ->
  instant (storage.LastUpdateTime d) ->
  instant (timeAt w 1) ->
  exists response w' d',
    RefillMyEnergy namespace userId source w = (Ok response, w') /\
    pb.refill_Success response = true /\
    storage.records (backend w') !! (namespace, storage.getEnergyKey userId)
    = Some (storage.EnergyJSON d') /\
    (answers w 1 = true ->
     storage.LastUpdateTime d'
     = storage.LastUpdateTime d
       + Z.quot (timeAt w 1 - storage.LastUpdateTime d) (storage.RegenRateSeconds d)
         * storage.RegenRateSeconds d /\
     (0 < storage.RegenRateSeconds d -> storage.LastUpdateTime d <= timeAt w 1 ->
      storage.LastUpdateTime d'
      = storage.LastUpdateTime d
        + (timeAt w 1 - storage.LastUpdateTime d) / storage.RegenRateSeconds d
          * storage.RegenRateSeconds d)) /\
    (answers w 1 = false -> storage.LastUpdateTime d' = timeAt w 1).
Proof.
  intros Hamount Hfirst Hwrite Hd Hrate Hlast Hnow.
  destruct (RefillMyEnergy_effect namespace userId d w Hfirst Hwrite Hd Hrate
              source refillAmount Hamount Hlast Hnow)
    as (newState & w' & Hrun & Hrec & _).
  eexists _, w', _. split; [exact Hrun|]. split; [reflexivity|].
  split; [rewrite Hrec; apply lookup_insert_eq|].
  unfold reread. split; intros Hsecond; rewrite Hsecond; cbn; [|reflexivity].
  split; [reflexivity|]. intros Hpos Hle. apply phaseCheckpoint_floor; assumption.
Qed.

Lemma RefillMyEnergy_checkpoint_by_second_read_witness :
  currentEnergyAt topped 1700000450 = storage.MaxEnergy topped /\
  (exists response w' d',
     RefillMyEnergy "game" "u1" "ad" (calmWorld topped 1700000450) = (Ok response, w') /\
     pb.refill_Success response = true /\
     storage.records (backend w') !! ("game", storage.getEnergyKey "u1")
     = Some (storage.EnergyJSON d') /\
     storage.LastUpdateTime d' = 1700000300) /\
  (exists response w' d',
     RefillMyEnergy "game" "u1" "ad" (secondReadFails topped 1700000450) = (Ok response, w') /\
     pb.refill_Success response = true /\
     storage.records (backend w') !! ("game", storage.getEnergyKey "u1")
     = Some (storage.EnergyJSON d') /\
     storage.LastUpdateTime d' = timeAt (secondReadFails topped 1700000450) 1 /\
     storage.LastUpdateTime d' = 1700000450 /\
     storage.LastUpdateTime d'
     <> storage.LastUpdateTime topped
        + Z.quot (1700000450 - storage.LastUpdateTime topped)
            (storage.RegenRateSeconds topped)
          * storage.RegenRateSeconds topped).
Proof.
  split; [vm_compute; reflexivity|]. split.
  - destruct (RefillMyEnergy_checkpoint_by_second_read "game" "u1" "ad" 20 topped
                (calmWorld topped 1700000450))
      as (response & w' & d' & Hrun & Hok & Hrec & Hread & _).
    + reflexivity.
    + reflexivity.
    + reflexivity.
    + reflexivity.
    + discriminate.
    + unfold instant. cbn. lia.
    + unfold instant. vm_compute. split; [discriminate|reflexivity].
    + exists response, w', d'. repeat split; try assumption.
      destruct (Hread eq_refl) as [Hq _]. rewrite Hq. vm_compute. reflexivity.
  - destruct (RefillMyEnergy_checkpoint_by_second_read "game" "u1" "ad" 20 topped
                (secondReadFails topped 1700000450))
      as (response & w' & d' & Hrun & Hok & Hrec & _ & Hunread).
    + reflexivity.
    + reflexivity.
    + reflexivity.
    + reflexivity.
    + discriminate.
    + unfold instant. cbn. lia.
    + unfold instant. vm_compute. split; [discriminate|reflexivity].
    + exists response, w', d'. repeat split; try assumption.
      * apply Hunread. reflexivity.
      * rewrite (Hunread eq_refl). vm_compute. reflexivity.
      * rewrite (Hunread eq_refl). vm_compute. discriminate.
Defined.

(** ** Insufficient energy *)

Lemma actionEnergyCosts_lookup actionType :
  actionEnergyCosts !! actionType =
    if decide (actionType = "fight") then Some 10
    else if decide (actionType = "explore") then Some 5
    else None.
Proof.
  unfold actionEnergyCosts.
  destruct (decide (actionType = "fight")) as [->|Hf].
  - apply lookup_insert_eq.
  - rewrite lookup_insert_ne by congruence.
    destruct (decide (actionType = "explore")) as [->|He].
    + apply lookup_singleton_eq.
    + apply lookup_singleton_ne. congruence.
Qed.

Lemma actionEnergyCosts_at_most actionType energyCost :
  actionEnergyCosts !! actionType = Some energyCost -> 0 < energyCost <= 10.
Proof.
  rewrite actionEnergyCosts_lookup. repeat case_decide; intros [= <-]; lia.
Qed.

(** A record just created is full for as long as the clock behaves. *)
Lemma defaultData_full userId t0 t1 :
  fits64 t0 -> fits64 t1 -> t0 <= t1 < t0 + 2 ^ 31 ->
  currentEnergyAt (defaultData userId t0) t1 = 100.
Proof.
  intros H0 H1 Hstep. unfold currentEnergyAt, regenPointsAt. cbn.
  unfold storage.DefaultRegenRateSeconds, storage.DefaultStartingEnergy,
    storage.DefaultMaxEnergy.
  rewrite (wrap64_fits (t1 - t0)) by (unfold fits64 in *; lia).
  destruct (Z.ltb_spec 0 (t1 - t0)) as [He|He]; cbn [andb].
  - pose proof (quot_bounds (t1 - t0) 300 ltac:(lia) ltac:(lia)) as Hq.
    assert (Z.quot (t1 - t0) 300 < 2 ^ 23).
    { rewrite Z.quot_div_nonneg by lia. apply Z.div_lt_upper_bound; lia. }
    rewrite (wrap64_fits (Z.quot _ _)) by (unfold fits64; lia).
    rewrite (wrap32_fits (Z.quot _ _)) by (unfold fits32; lia).
    rewrite wrap32_fits by (unfold fits32; lia).
    destruct (Z.ltb_spec 100 (100 + Z.quot (t1 - t0) 300)); lia.
  - reflexivity.
Qed.

(** C2. A consume for a valid action whose cost exceeds the derived energy
    answers success = false with the derived state as it is and no loot, and
    writes nothing: the store is the same and the only request the backend
    got is the read.  (For a player without a record the defaults are
    written first; the energy derived from them is 100, which no cost
    exceeds, so the case does not arise while the clock neither runs
    backwards nor leaps.) *)
Theorem ConsumeMyEnergy_insufficient (namespace userId actionType : string) (energyCost : Z)
    (w : World) (energyState : pb.EnergyState) (w1 : World) :
  actionEnergyCosts !! actionType = Some energyCost ->
  healthy (backend w) ->
  (storage.records (backend w) !! (namespace, storage.getEnergyKey userId) = None ->
   timeAt w 0 <= timeAt w 1 < timeAt w 0 + 2 ^ 31) ->
  getOrCreateEnergyState namespace userId w = (Ok energyState, w1) ->
  pb.CurrentEnergy energyState < energyCost ->
  ConsumeMyEnergy namespace userId actionType w
  = (Ok {| pb.consume_EnergyState := energyState;
           pb.consume_Success := false;
           pb.consume_Loot := [] |}, w1) /\
  storage.records (backend w1) = storage.records (backend w) /\
  storage.requests (backend w1) = S (storage.requests (backend w)).
Proof.
  intros Hcost Hh Hclock Hload Hlow.
  split.
  - unfold ConsumeMyEnergy. rewrite Hcost, (bind_Ok _ _ _ _ _ Hload).
    destruct (Z.ltb_spec (pb.CurrentEnergy energyState) energyCost); [reflexivity|lia].
  - destruct (getOrCreateEnergyState_loads namespace userId w energyState w1 Hh Hload)
      as (_ & d & _ & _ & _ & [(Hd & Hsame & _)|(Hnone & -> & Hst)]).
    + split; [exact Hsame|].
      rewrite (getOrCreateEnergyState_existing namespace userId w d Hh Hd) in Hload.
      injection Hload as _ <-. reflexivity.
    + exfalso.
      destruct (calculateEnergyStateAt_fields _ _ _ Hst) as (Hcur & _).
      rewrite defaultData_full in Hcur
        by (try apply wrap64_range; apply Hclock; exact Hnone).
      pose proof (actionEnergyCosts_at_most _ _ Hcost). lia.
Qed.

Lemma ConsumeMyEnergy_insufficient_witness :
  exists energyState w1,
    getOrCreateEnergyState "game" "u1" (calmWorld veteran 1700000450) = (Ok energyState, w1) /\
    pb.CurrentEnergy energyState = 4 /\
    ConsumeMyEnergy "game" "u1" "fight" (calmWorld veteran 1700000450)
    = (Ok {| pb.consume_EnergyState := energyState;
             pb.consume_Success := false;
             pb.consume_Loot := [] |}, w1) /\
    storage.records (backend w1) = storage.records (backend (calmWorld veteran 1700000450)) /\
    storage.requests (backend w1)
    = S (storage.requests (backend (calmWorld veteran 1700000450))).
Proof.
  destruct (calculateEnergyStateAt_returns veteran
              (timeAt (calmWorld veteran 1700000450) 0) ltac:(discriminate)) as [st Hst].
  assert (Hload : getOrCreateEnergyState "game" "u1" (calmWorld veteran 1700000450)
                  = (Ok st, clock_read
                              (with_backend
                                 (storage.served (backend (calmWorld veteran 1700000450)))
                                 (calmWorld veteran 1700000450)))).
  { rewrite (getOrCreateEnergyState_existing "game" "u1" _ veteran);
      [rewrite Hst; reflexivity|intros n; reflexivity|reflexivity]. }
  assert (Hcur : pb.CurrentEnergy st = 4).
  { destruct (calculateEnergyStateAt_fields _ _ _ Hst) as (-> & _). vm_compute. reflexivity. }
  eexists st, _. split; [exact Hload|]. split; [exact Hcur|].
  apply (ConsumeMyEnergy_insufficient "game" "u1" "fight" 10 (calmWorld veteran 1700000450)).
  - reflexivity.
  - intros n. reflexivity.
  - intros Habsent. vm_compute in Habsent. discriminate.
  - exact Hload.
  - rewrite Hcur. lia.
Defined.

(** ** Admin operations *)

(** C8. A config update keeps a field of the loaded record when the request
    gives 0 for it and takes the request's value when that is positive; the
    persisted checkpoint is the time of the update; the persisted energy is
    the energy derived at the load, whatever the new maximum. *)
Theorem UpdateEnergyConfig_persists (namespace userId : string) (maxEnergy regenRateSeconds : Z)
    (w : World) (energyState : pb.EnergyState) (w1 : World) :
  healthy (backend w) ->
  getOrCreateEnergyState namespace userId w = (Ok energyState, w1) ->
  exists d response w' d',
    storage.records (backend w1) !! (namespace, storage.getEnergyKey userId)
    = Some (storage.EnergyJSON d) /\
    UpdateEnergyConfig namespace userId maxEnergy regenRateSeconds w = (Ok response, w') /\
    pb.update_Success response = true /\
    storage.records (backend w') !! (namespace, storage.getEnergyKey userId)
    = Some (storage.EnergyJSON d') /\
    (maxEnergy = 0 -> storage.MaxEnergy d' = storage.MaxEnergy d) /\
    (0 < maxEnergy -> storage.MaxEnergy d' = maxEnergy) /\
    (regenRateSeconds = 0 -> storage.RegenRateSeconds d' = storage.RegenRateSeconds d) /\
    (0 < regenRateSeconds -> storage.RegenRateSeconds d' = regenRateSeconds) /\
    storage.LastUpdateTime d' = timeAt w1 0 /\
    storage.CurrentEnergy d' = pb.CurrentEnergy energyState.
Proof.
  intros Hh Hload.
  destruct (getOrCreateEnergyState_loads namespace userId w energyState w1 Hh Hload)
    as (Hh1 & d & Hd & Hmax & Hrate & _).
  exists d. unfold UpdateEnergyConfig.
  rewrite (bind_Ok _ _ _ _ _ Hload), (bind_Ok _ _ _ _ _ (time_Now_Unix_run _)).
  erewrite bind_Ok; [|apply save_stores; intros n; apply Hh1].
  unfold ret. eexists _, _, _. split; [exact Hd|]. split; [reflexivity|].
  split; [reflexivity|]. split; [cbn; apply lookup_insert_eq|].
  cbn. rewrite Hmax, Hrate.
  destruct (Z.ltb_spec 0 maxEnergy); destruct (Z.ltb_spec 0 regenRateSeconds);
    repeat split; intros; lia.
Qed.

Lemma UpdateEnergyConfig_persists_witness :
  exists response w' d',
    UpdateEnergyConfig "game" "u1" 10 0 (calmWorld regular 1700000450) = (Ok response, w') /\
    storage.records (backend w') !! ("game", storage.getEnergyKey "u1")
    = Some (storage.EnergyJSON d') /\
    storage.MaxEnergy d' = 10 /\
    storage.RegenRateSeconds d' = 300 /\
    storage.LastUpdateTime d' = 1700000450 /\
    storage.CurrentEnergy d' = 41.
Proof.
  destruct (calculateEnergyStateAt_returns regular
              (timeAt (calmWorld regular 1700000450) 0) ltac:(discriminate)) as [st Hst].
  assert (Hload : getOrCreateEnergyState "game" "u1" (calmWorld regular 1700000450)
                  = (Ok st, clock_read
                              (with_backend
                                 (storage.served (backend (calmWorld regular 1700000450)))
                                 (calmWorld regular 1700000450)))).
  { rewrite (getOrCreateEnergyState_existing "game" "u1" _ regular);
      [rewrite Hst; reflexivity|intros n; reflexivity|reflexivity]. }
  assert (Hcur : pb.CurrentEnergy st = 41).
  { destruct (calculateEnergyStateAt_fields _ _ _ Hst) as (-> & _). vm_compute. reflexivity. }
  destruct (UpdateEnergyConfig_persists "game" "u1" 10 0 (calmWorld regular 1700000450)
              st _ ltac:(intros n; reflexivity) Hload)
    as (d & response & w' & d' & Hd & Hrun & _ & Hd' & _ & Hmax & Hrate & _ & Hlast & Hen).
  assert (d = regular) as ->.
  { cbn in Hd. rewrite lookup_singleton_eq in Hd. congruence. }
  exists response, w', d'. split; [exact Hrun|]. split; [exact Hd'|].
  split; [apply Hmax; lia|]. split; [apply Hrate; reflexivity|].
  split; [rewrite Hlast; vm_compute; reflexivity|]. rewrite Hen. exact Hcur.
Defined.

(** C9. The three admin writes build their record without the stored
    inventory and with level 1: whatever inventory and level the stored
    record has, the record persisted by a raw-amount consume, a raw-amount
    refill or a config update has the nil inventory and level 1. *)
Theorem admin_writes_drop_inventory_and_level (namespace userId : string)
    (amount maxEnergy regenRateSeconds : Z) (d : storage.EnergyData) (w : World) :
  healthy (backend w) ->
  storage.records (backend w) !! (namespace, storage.getEnergyKey userId)
  = Some (storage.EnergyJSON d) ->
  storage.RegenRateSeconds d <> 0 ->
  0 < amount ->
  (amount <= currentEnergyAt d (timeAt w 0) ->
   exists response w' d',
     ConsumeEnergy namespace userId amount w = (Ok response, w') /\
     pb.consume_Success response = true /\
     storage.records (backend w') !! (namespace, storage.getEnergyKey userId)
     = Some (storage.EnergyJSON d') /\
     storage.Inventory d' = None /\ storage.Level d' = 1) /\
  (exists response w' d',
     RefillEnergy namespace userId amount w = (Ok response, w') /\
     pb.refill_Success response = true /\
     storage.records (backend w') !! (namespace, storage.getEnergyKey userId)
     = Some (storage.EnergyJSON d') /\
     storage.Inventory d' = None /\ storage.Level d' = 1) /\
  (exists response w' d',
     UpdateEnergyConfig namespace userId maxEnergy regenRateSeconds w = (Ok response, w') /\
     pb.update_Success response = true /\
     storage.records (backend w') !! (namespace, storage.getEnergyKey userId)
     = Some (storage.EnergyJSON d') /\
     storage.Inventory d' = None /\ storage.Level d' = 1).
Proof.
  intros Hh Hd Hrate Hamount.
  destruct (calculateEnergyStateAt_returns d (timeAt w 0) Hrate) as [st Hst].
  destruct (calculateEnergyStateAt_fields d _ _ Hst) as (Hcur & Hmax & Hr & _).
  assert (Hload : getOrCreateEnergyState namespace userId w
                  = (Ok st, clock_read (with_backend (storage.served (backend w)) w))).
  { rewrite (getOrCreateEnergyState_existing namespace userId w d Hh Hd), Hst.
    reflexivity. }
  split; [|split].
  - intros Henough. unfold ConsumeEnergy.
    destruct (Z.leb_spec amount 0); [lia|].
    rewrite (bind_Ok _ _ _ _ _ Hload).
    destruct (Z.ltb_spec (pb.CurrentEnergy st) amount); [lia|].
    rewrite (bind_Ok _ _ _ _ _ (time_Now_Unix_run _)).
    erewrite bind_Ok; [|apply save_stores; intros n; apply Hh].
    unfold bind at 1. rewrite calculateEnergyState_run.
    match goal with
    | |- context [calculateEnergyStateAt ?u ?t] =>
        destruct (calculateEnergyStateAt_returns u t ltac:(cbn; congruence)) as [st' Hst']
    end.
    rewrite Hst'. unfold ret. eexists _, _, _.
    split; [reflexivity|]. split; [reflexivity|].
    split; [cbn; apply lookup_insert_eq|]. split; reflexivity.
  - unfold RefillEnergy.
    destruct (Z.leb_spec amount 0); [lia|].
    rewrite (bind_Ok _ _ _ _ _ Hload), (bind_Ok _ _ _ _ _ (time_Now_Unix_run _)).
    erewrite bind_Ok; [|apply save_stores; intros n; apply Hh].
    unfold bind at 1. rewrite calculateEnergyState_run.
    match goal with
    | |- context [calculateEnergyStateAt ?u ?t] =>
        destruct (calculateEnergyStateAt_returns u t ltac:(cbn; congruence)) as [st' Hst']
    end.
    rewrite Hst'. unfold ret. eexists _, _, _.
    split; [reflexivity|]. split; [reflexivity|].
    split; [cbn; apply lookup_insert_eq|]. split; reflexivity.
  - unfold UpdateEnergyConfig.
    rewrite (bind_Ok _ _ _ _ _ Hload), (bind_Ok _ _ _ _ _ (time_Now_Unix_run _)).
    erewrite bind_Ok; [|apply save_stores; intros n; apply Hh].
    unfold ret. eexists _, _, _.
    split; [reflexivity|]. split; [reflexivity|].
    split; [cbn; apply lookup_insert_eq|]. split; reflexivity.
Qed.

Lemma admin_writes_drop_inventory_and_level_witness :
  storage.Inventory regular = Some {[ "gold" := 7 ]} /\
  storage.Level regular = 3 /\
  (exists response w' d',
     ConsumeEnergy "game" "u1" 5 (calmWorld regular 1700000450) = (Ok response, w') /\
     pb.consume_Success response = true /\
     storage.records (backend w') !! ("game", storage.getEnergyKey "u1")
     = Some (storage.EnergyJSON d') /\
     storage.Inventory d' = None /\ storage.Level d' = 1) /\
  (exists response w' d',
     RefillEnergy "game" "u1" 5 (calmWorld regular 1700000450) = (Ok response, w') /\
     pb.refill_Success response = true /\
     storage.records (backend w') !! ("game", storage.getEnergyKey "u1")
     = Some (storage.EnergyJSON d') /\
     storage.Inventory d' = None /\ storage.Level d' = 1) /\
  (exists response w' d',
     UpdateEnergyConfig "game" "u1" 0 60 (calmWorld regular 1700000450) = (Ok response, w') /\
     pb.update_Success response = true /\
     storage.records (backend w') !! ("game", storage.getEnergyKey "u1")
     = Some (storage.EnergyJSON d') /\
     storage.Inventory d' = None /\ storage.Level d' = 1).
Proof.
  split; [reflexivity|]. split; [reflexivity|].
  destruct (admin_writes_drop_inventory_and_level "game" "u1" 5 0 60 regular
              (calmWorld regular 1700000450)) as (Hconsume & Hrefill & Hupdate).
  - intros n. reflexivity.
  - reflexivity.
  - discriminate.
  - lia.
  - split; [|split; assumption]. apply Hconsume. vm_compute. discriminate.
Defined.

(** * Further properties of the code *)

(** ** Regeneration in closed form *)

Section ClosedForm.

Variable d : storage.EnergyData.

Let cur := storage.CurrentEnergy d.
Let cap := storage.MaxEnergy d.
Let last := storage.LastUpdateTime d.
Let rate := storage.RegenRateSeconds d.

Lemma pointsBy_nonneg t : 0 <= pointsBy d t.
Proof. unfold pointsBy. lia. Qed.

Lemma pointsBy_elapsed t :
  0 < rate -> last <= t -> pointsBy d t = (t - last) / rate.
Proof.
  intros Hr Ht. unfold pointsBy. fold last rate.
  pose proof (Z.div_pos (t - last) rate ltac:(lia) Hr). lia.
Qed.

Lemma pointsBy_monotone t u : 0 < rate -> t <= u -> pointsBy d t <= pointsBy d u.
Proof.
  intros Hr Htu. unfold pointsBy. fold last rate.
  pose proof (Z.div_le_mono (t - last) (u - last) rate Hr ltac:(lia)). lia.
Qed.

Lemma currentEnergyAt_min t :
  validRecord d -> instant last -> instant t ->
  cur + pointsBy d t < 2 ^ 31 ->
  currentEnergyAt d t = Z.min cap (cur + pointsBy d t).
Proof.
  intros (Hfc & Hfm & Hfr & Hc & Hr) Hl Ht Hov.
  unfold currentEnergyAt. rewrite regenPointsAt_instant by assumption.
  unfold pointsBy in *. fold cur cap last rate. fold cur last rate in Hov.
  destruct (Z.ltb_spec 0 rate) as [_|]; [|lia]. cbn [andb].
  unfold fits32 in Hfc, Hfm, Hfr.
  destruct (Z.ltb_spec 0 (t - last)) as [He|He].
  - rewrite Z.quot_div_nonneg by lia.
    pose proof (Z.div_pos (t - last) rate ltac:(lia) Hr) as Hq.
    rewrite Z.max_r in Hov |- * by lia.
    rewrite (wrap32_fits ((t - last) / rate)) by (unfold fits32; lia).
    rewrite wrap32_fits by (unfold fits32; lia).
    destruct (Z.ltb_spec cap (cur + (t - last) / rate)); lia.
  - pose proof (Z.div_le_upper_bound (t - last) rate 0 Hr ltac:(lia)) as Hq.
    rewrite Z.max_l in Hov |- * by lia.
    rewrite wrap32_fits by (unfold fits32; lia).
    destruct (Z.ltb_spec cap (cur + 0)); lia.
Qed.

(** What the function returns below the cap, in exact arithmetic. *)
Lemma calculateEnergyStateAt_below_cap now st :
  validRecord d -> instant last -> instant (now + rate) -> last <= now ->
  cur + pointsBy d now < 2 ^ 31 ->
  calculateEnergyStateAt d now = Ok st ->
  pb.CurrentEnergy st < cap ->
  pb.CurrentEnergy st = cur + (now - last) / rate /\
  pb.NextRegenTime st = now + rate - (now - last) mod rate /\
  pb.EnergyToMax st = cap - pb.CurrentEnergy st /\
  pb.TimeToMaxSeconds st = (cap - pb.CurrentEnergy st) * rate - (now - last) mod rate.
Proof.
  intros Hv Hl Hnr Hle Hov Hst Hlow.
  pose proof Hv as (Hfc & Hfm & Hfr & Hc & Hr).
  fold cur in Hfc, Hc. fold cap in Hfm. fold rate in Hfr, Hr.
  assert (Hn : instant now) by (unfold instant, fits32 in *; lia).
  destruct (calculateEnergyStateAt_fields d now st Hst) as (Hcur0 & _).
  pose proof Hcur0 as Hcur.
  rewrite (currentEnergyAt_min now Hv Hl Hn Hov) in Hcur.
  rewrite pointsBy_elapsed in Hcur, Hov by assumption.
  pose proof (Z.div_pos (now - last) rate ltac:(lia) Hr) as Hq.
  pose proof (Z.mod_pos_bound (now - last) rate Hr) as Hm.
  assert (Hd : pb.CurrentEnergy st = cur + (now - last) / rate) by lia.
  split; [exact Hd|].
  revert Hst. unfold calculateEnergyStateAt, rem64.
  rewrite <- Hcur0. fold cap rate last.
  destruct (Z.ltb_spec (pb.CurrentEnergy st) cap); [|lia].
  destruct (Z.eqb_spec rate 0); [lia|].
  rewrite (wrap64_fits (now - last)) by (apply instant_diff_fits64; assumption).
  rewrite Z.rem_mod_nonneg by lia.
  unfold instant in Hl, Hnr, Hn. unfold fits32 in Hfc, Hfm, Hfr.
  rewrite (wrap64_fits ((now - last) mod rate)) by (unfold fits64; lia).
  rewrite (wrap64_fits (rate - _)) by (unfold fits64; lia).
  rewrite (wrap64_fits (now + _)) by (unfold fits64; lia).
  rewrite (wrap32_fits (cap - _)) by (unfold fits32; lia).
  rewrite (wrap64_fits (_ * rate)) by (unfold fits64; nia).
  rewrite (wrap64_fits (_ - _ mod _)) by (unfold fits64; nia).
  intros [= <-]. cbn. repeat split; lia.
Qed.

End ClosedForm.

(** X1. For a valid record, as long as the sum fits int32, the derived
    energy is the stored energy plus the whole points regenerated since the
    checkpoint, capped at the maximum; for a record within its maximum it
    lies between the stored energy and the maximum, and energyToMax is the
    rest. *)
Theorem derived_energy_closed_form (d : storage.EnergyData) (now : Z) :
  validRecord d ->
  instant (storage.LastUpdateTime d) -> instant now ->
  storage.CurrentEnergy d + pointsBy d now < 2 ^ 31 ->
  exists st,
    calculateEnergyStateAt d now = Ok st /\
    pb.CurrentEnergy st
    = Z.min (storage.MaxEnergy d) (storage.CurrentEnergy d + pointsBy d now) /\
    (storage.CurrentEnergy d <= storage.MaxEnergy d ->
     storage.CurrentEnergy d <= pb.CurrentEnergy st <= storage.MaxEnergy d /\
     pb.EnergyToMax st = storage.MaxEnergy d - pb.CurrentEnergy st).
Proof.
  intros Hv Hl Hn Hov. pose proof Hv as (Hfc & Hfm & Hfr & Hc & Hr).
  destruct (calculateEnergyStateAt_returns d now ltac:(lia)) as [st Hst].
  exists st. split; [exact Hst|].
  destruct (calculateEnergyStateAt_fields d now st Hst) as (Hcur & _).
  rewrite (currentEnergyAt_min d now Hv Hl Hn Hov) in Hcur.
  split; [exact Hcur|]. intros Hle.
  pose proof (pointsBy_nonneg d now). split; [lia|].
  revert Hst. unfold calculateEnergyStateAt.
  assert (Hto : wrap32 (storage.MaxEnergy d - currentEnergyAt d now)
                = storage.MaxEnergy d - pb.CurrentEnergy st).
  { rewrite (currentEnergyAt_min d now Hv Hl Hn Hov), <- Hcur.
    apply wrap32_fits. unfold fits32 in *. lia. }
  destruct (_ <? _).
  - destruct (rem64 _ _); intros [= Heq]. rewrite <- Hto, <- Heq. reflexivity.
  - intros [= Heq]. rewrite <- Hto, <- Heq. reflexivity.
Qed.

Lemma derived_energy_closed_form_witness :
  exists st,
    calculateEnergyStateAt regular 1700000450 = Ok st /\
    pb.CurrentEnergy st = 41 /\
    pb.EnergyToMax st = 59.
Proof.
  destruct (derived_energy_closed_form regular 1700000450) as (st & Hst & Hcur & Hrest).
  - unfold validRecord, fits32. cbn. lia.
  - unfold instant. cbn. lia.
  - unfold instant. lia.
  - vm_compute. reflexivity.
  - exists st. split; [exact Hst|].
    assert (Hc : pb.CurrentEnergy st = 41) by (rewrite Hcur; vm_compute; reflexivity).
    split; [exact Hc|].
    destruct Hrest as [_ Hto]; [cbn; lia|]. rewrite Hto, Hc. reflexivity.
Defined.

(** X2. Whatever the record and the time, wrap-around included, the derived
    energy never exceeds the maximum, and when it equals the maximum the
    state carries no timing: nextRegenTime, timeToMaxSeconds and energyToMax
    are 0. *)
Theorem derived_energy_capped (d : storage.EnergyData) (now : Z) (st : pb.EnergyState) :
  calculateEnergyStateAt d now = Ok st ->
  pb.CurrentEnergy st <= storage.MaxEnergy d /\
  (pb.CurrentEnergy st = storage.MaxEnergy d ->
   pb.NextRegenTime st = 0 /\ pb.TimeToMaxSeconds st = 0 /\ pb.EnergyToMax st = 0).
Proof.
  unfold calculateEnergyStateAt.
  assert (Hcap : currentEnergyAt d now <= storage.MaxEnergy d).
  { unfold currentEnergyAt.
    destruct (Z.ltb_spec (storage.MaxEnergy d)
                (wrap32 (storage.CurrentEnergy d + regenPointsAt d now))); lia. }
  destruct (Z.ltb_spec (currentEnergyAt d now) (storage.MaxEnergy d)) as [Hlt|Hge].
  - destruct (rem64 _ _); intros [= <-]; cbn; split; [lia| lia].
  - intros [= <-]. cbn. split; [exact Hcap|]. intros Heq. rewrite Heq.
    replace (storage.MaxEnergy d - storage.MaxEnergy d) with 0 by lia.
    repeat split; reflexivity.
Qed.

Lemma derived_energy_capped_witness :
  exists st,
    calculateEnergyStateAt brimful 1700000300 = Ok st /\
    pb.CurrentEnergy st <= storage.MaxEnergy brimful /\
    (pb.CurrentEnergy st = storage.MaxEnergy brimful ->
     pb.NextRegenTime st = 0 /\ pb.TimeToMaxSeconds st = 0 /\ pb.EnergyToMax st = 0).
Proof.
  destruct (calculateEnergyStateAt_returns brimful 1700000300 ltac:(discriminate))
    as [st Hst].
  exists st. split; [exact Hst|].
  exact (derived_energy_capped brimful 1700000300 st Hst).
Defined.

(** X4. Below the cap, nextRegenTime is exactly the time of the next point:
    from the query time until just before it the derived energy stays what
    it is, and at nextRegenTime it is one more. *)
Theorem nextRegenTime_is_exact (d : storage.EnergyData) (now : Z) (st : pb.EnergyState) :
  validRecord d ->
  instant (storage.LastUpdateTime d) ->
  instant (now + storage.RegenRateSeconds d) ->
  storage.LastUpdateTime d <= now ->
  storage.CurrentEnergy d + pointsBy d now < 2 ^ 31 ->
  calculateEnergyStateAt d now = Ok st ->
  pb.CurrentEnergy st < storage.MaxEnergy d ->
  currentEnergyAt d (pb.NextRegenTime st) = pb.CurrentEnergy st + 1 /\
  forall t, now <= t < pb.NextRegenTime st -> currentEnergyAt d t = pb.CurrentEnergy st.
Proof.
  intros Hv Hl Hnr Hle Hov Hst Hlow.
  destruct (calculateEnergyStateAt_below_cap d now st Hv Hl Hnr Hle Hov Hst Hlow)
    as (Hcur & Hnext & _).
  pose proof Hv as (Hfc & Hfm & Hfr & Hc & Hr).
  set (cur := storage.CurrentEnergy d) in *. set (cap := storage.MaxEnergy d) in *.
  set (last := storage.LastUpdateTime d) in *. set (rate := storage.RegenRateSeconds d) in *.
  pose proof (Z.div_mod (now - last) rate ltac:(lia)) as Hdm.
  pose proof (Z.mod_pos_bound (now - last) rate Hr) as Hm.
  pose proof (Z.div_pos (now - last) rate ltac:(lia) Hr) as Hq.
  unfold instant, fits32 in *.
  assert (Hat : forall t k, now <= t -> t <= now + rate ->
                (t - last) / rate = (now - last) / rate + k ->
                cur + (now - last) / rate + k <= cap ->
                currentEnergyAt d t = cur + (now - last) / rate + k).
  { intros t k Ht1 Ht2 Hdiv Hk.
    rewrite currentEnergyAt_min; try assumption; try (unfold instant; lia).
    - rewrite pointsBy_elapsed by (fold last; fold rate; lia).
      fold last rate cur cap. rewrite Hdiv. lia.
    - rewrite pointsBy_elapsed by (fold last; fold rate; lia).
      fold last rate cur. rewrite Hdiv. lia. }
  split.
  - rewrite Hcur. rewrite (Hat (pb.NextRegenTime st) 1); try lia.
    rewrite Hnext. symmetry.
    apply (Z.div_unique_pos _ rate _ 0); [lia|]. nia.
  - intros t Ht. rewrite Hcur. rewrite (Hat t 0); try lia.
    symmetry. apply (Z.div_unique_pos _ rate _ ((now - last) mod rate + (t - now))); lia.
Qed.

Lemma nextRegenTime_is_exact_witness :
  exists st,
    calculateEnergyStateAt regular 1700000450 = Ok st /\
    pb.NextRegenTime st = 1700000600 /\
    currentEnergyAt regular (pb.NextRegenTime st) = pb.CurrentEnergy st + 1 /\
    forall t, 1700000450 <= t < pb.NextRegenTime st ->
              currentEnergyAt regular t = pb.CurrentEnergy st.
Proof.
  eexists. split; [vm_compute; reflexivity|]. split; [reflexivity|].
  apply (nextRegenTime_is_exact regular 1700000450).
  - unfold validRecord, fits32. cbn. lia.
  - unfold instant. cbn. lia.
  - unfold instant. cbn. lia.
  - cbn. lia.
  - vm_compute. reflexivity.
  - vm_compute. reflexivity.
  - cbn. lia.
Defined.

(** X5. Below the cap, timeToMaxSeconds is exactly the time left until the
    derived energy reaches the maximum: it is below the maximum at every time
    before, and it is the maximum once that many seconds have passed. *)
Theorem timeToMaxSeconds_is_exact (d : storage.EnergyData) (now : Z) (st : pb.EnergyState) :
  validRecord d ->
  instant (storage.LastUpdateTime d) -> instant now ->
  instant (now + (storage.MaxEnergy d - storage.CurrentEnergy d)
                 * storage.RegenRateSeconds d) ->
  storage.LastUpdateTime d <= now ->
  storage.CurrentEnergy d + pointsBy d now < 2 ^ 31 ->
  calculateEnergyStateAt d now = Ok st ->
  pb.CurrentEnergy st < storage.MaxEnergy d ->
  0 < pb.TimeToMaxSeconds st /\
  currentEnergyAt d (now + pb.TimeToMaxSeconds st) = storage.MaxEnergy d /\
  forall t, now <= t < now + pb.TimeToMaxSeconds st ->
            currentEnergyAt d t < storage.MaxEnergy d.
Proof.
  intros Hv Hl Hn Hfull Hle Hov Hst Hlow.
  pose proof Hv as (Hfc & Hfm & Hfr & Hc & Hr).
  destruct (calculateEnergyStateAt_fields d now st Hst) as (Hcur0 & _).
  assert (Hbelow : storage.CurrentEnergy d < storage.MaxEnergy d).
  { pose proof (pointsBy_nonneg d now).
    rewrite currentEnergyAt_min in Hcur0 by assumption. lia. }
  assert (Hnr : instant (now + storage.RegenRateSeconds d)).
  { unfold instant in *. nia. }
  destruct (calculateEnergyStateAt_below_cap d now st Hv Hl Hnr Hle Hov Hst Hlow)
    as (Hcur & _ & _ & Httm).
  set (cur := storage.CurrentEnergy d) in *. set (cap := storage.MaxEnergy d) in *.
  set (last := storage.LastUpdateTime d) in *. set (rate := storage.RegenRateSeconds d) in *.
  pose proof (Z.div_mod (now - last) rate ltac:(lia)) as Hdm.
  pose proof (Z.mod_pos_bound (now - last) rate Hr) as Hm.
  pose proof (Z.div_pos (now - last) rate ltac:(lia) Hr) as Hq.
  unfold instant, fits32 in *.
  assert (Hpos : 0 < pb.TimeToMaxSeconds st) by nia.
  assert (Hend : now + pb.TimeToMaxSeconds st <= now + (cap - cur) * rate) by nia.
  split; [exact Hpos|]. split.
  - assert (Hdiv : (now + pb.TimeToMaxSeconds st - last) / rate = cap - cur).
    { symmetry. apply (Z.div_unique_pos _ rate _ 0); [lia|]. nia. }
    rewrite currentEnergyAt_min; try assumption; try (unfold instant; lia).
    + rewrite pointsBy_elapsed by (fold last; fold rate; lia).
      fold last rate cur cap. rewrite Hdiv. lia.
    + rewrite pointsBy_elapsed by (fold last; fold rate; lia).
      fold last rate cur. rewrite Hdiv. lia.
  - intros t Ht.
    assert (Hdiv : (t - last) / rate < cap - cur).
    { apply Z.div_lt_upper_bound; [lia|]. nia. }
    pose proof (Z.div_pos (t - last) rate ltac:(lia) Hr).
    rewrite currentEnergyAt_min; try assumption; try (unfold instant; lia).
    + rewrite pointsBy_elapsed by (fold last; fold rate; lia).
      fold last rate cur cap. lia.
    + rewrite pointsBy_elapsed by (fold last; fold rate; lia).
      fold last rate cur. lia.
Qed.

Lemma timeToMaxSeconds_is_exact_witness :
  exists st,
    calculateEnergyStateAt regular 1700000450 = Ok st /\
    pb.TimeToMaxSeconds st = 17550 /\
    currentEnergyAt regular (1700000450 + pb.TimeToMaxSeconds st)
    = storage.MaxEnergy regular /\
    forall t, 1700000450 <= t < 1700000450 + pb.TimeToMaxSeconds st ->
              currentEnergyAt regular t < storage.MaxEnergy regular.
Proof.
  eexists. split; [vm_compute; reflexivity|]. split; [reflexivity|].
  apply (timeToMaxSeconds_is_exact regular 1700000450).
  - unfold validRecord, fits32. cbn. lia.
  - unfold instant. cbn. lia.
  - unfold instant. lia.
  - unfold instant. cbn. lia.
  - cbn. lia.
  - vm_compute. reflexivity.
  - vm_compute. reflexivity.
  - cbn. lia.
Defined.

(** X3. For a valid record, as long as the sum of stored energy and
    regenerated points fits int32 at the later time, the derived energy at a
    later time is at least the derived energy at an earlier one. *)
Theorem derived_energy_monotone (d : storage.EnergyData) (t1 t2 : Z) :
  validRecord d ->
  instant (storage.LastUpdateTime d) -> instant t1 -> instant t2 ->
  t1 <= t2 ->
  storage.CurrentEnergy d + pointsBy d t2 < 2 ^ 31 ->
  exists s1 s2,
    calculateEnergyStateAt d t1 = Ok s1 /\
    calculateEnergyStateAt d t2 = Ok s2 /\
    pb.CurrentEnergy s1 <= pb.CurrentEnergy s2.
Proof.
  intros Hv Hl H1 H2 Hle Hov. pose proof Hv as (Hfc & Hfm & Hfr & Hc & Hr).
  destruct (calculateEnergyStateAt_returns d t1 ltac:(lia)) as [s1 Hs1].
  destruct (calculateEnergyStateAt_returns d t2 ltac:(lia)) as [s2 Hs2].
  exists s1, s2. split; [exact Hs1|]. split; [exact Hs2|].
  destruct (calculateEnergyStateAt_fields d t1 s1 Hs1) as (-> & _).
  destruct (calculateEnergyStateAt_fields d t2 s2 Hs2) as (-> & _).
  pose proof (pointsBy_monotone d t1 t2 Hr Hle).
  rewrite !currentEnergyAt_min by (assumption || lia). lia.
Qed.

Lemma derived_energy_monotone_witness :
  exists s1 s2,
    calculateEnergyStateAt regular 1700000450 = Ok s1 /\
    calculateEnergyStateAt regular 1700009000 = Ok s2 /\
    pb.CurrentEnergy s1 <= pb.CurrentEnergy s2.
Proof.
  apply (derived_energy_monotone regular 1700000450 1700009000).
  - unfold validRecord, fits32. cbn. lia.
  - unfold instant. cbn. lia.
  - unfold instant. lia.
  - unfold instant. lia.
  - lia.
  - vm_compute. reflexivity.
Defined.

(** ** The player transactions, in full *)

Section PlayerTransactions.

Variables namespace userId : string.
Variable d : storage.EnergyData.
Variable w : World.

Let key := (namespace, storage.getEnergyKey userId).

Hypothesis Hhealthy : healthy (backend w).
Hypothesis Hstored : storage.records (backend w) !! key = Some (storage.EnergyJSON d).
Hypothesis Hrate : storage.RegenRateSeconds d <> 0.
Hypothesis Hlast : instant (storage.LastUpdateTime d).
Hypothesis Hnow : instant (timeAt w 1).

(** What a successful consume returns and writes. *)
Lemma ConsumeMyEnergy_writes actionType energyCost :
  actionEnergyCosts !! actionType = Some energyCost ->
  energyCost <= currentEnergyAt d (timeAt w 0) ->
  exists loot newState w',
    ConsumeMyEnergy namespace userId actionType w
    = (Ok {| pb.consume_EnergyState := newState;
             pb.consume_Success := true;
             pb.consume_Loot := loot |}, w') /\
    (1 <= length loot <= 3)%nat /\
    Forall (dropFrom (selectTable actionType)) loot /\
    storage.records (backend w')
    = <[key := storage.EnergyJSON
                 (consumedRecord userId d energyCost (timeAt w 0) (timeAt w 1) loot)]>
        (storage.records (backend w)) /\
    calculateEnergyStateAt
      (consumedRecord userId d energyCost (timeAt w 0) (timeAt w 1) loot) (timeAt w 2)
    = Ok newState.
Proof.
  intros Hcost Henough.
  unfold ConsumeMyEnergy. rewrite Hcost.
  destruct (calculateEnergyStateAt_returns d (timeAt w 0) Hrate) as [st Hst].
  destruct (calculateEnergyStateAt_fields d _ _ Hst) as (Hcur & Hmax & Hr & _).
  erewrite bind_Ok;
    [|rewrite (getOrCreateEnergyState_existing namespace userId w d Hhealthy Hstored);
      rewrite Hst; reflexivity].
  rewrite Hcur, Hmax, Hr.
  destruct (Z.ltb_spec (currentEnergyAt d (timeAt w 0)) energyCost) as [|_]; [lia|].
  erewrite bind_Ok;
    [|apply (reload_stored namespace userId _ d); [intros n; apply Hhealthy|exact Hstored]].
  rewrite (bind_Ok _ _ _ _ _ (time_Now_Unix_run _)).
  change (timeAt (with_backend _ (clock_read _)) 0) with (timeAt w 1).
  set (w3 := clock_read _).
  set (newLast := if storage.MaxEnergy d <=? currentEnergyAt d (timeAt w 0)
                  then timeAt w 1
                  else phaseCheckpoint (storage.LastUpdateTime d)
                         (storage.RegenRateSeconds d) (timeAt w 1)).
  erewrite (bind_Ok _ _ w3 newLast w3).
  2:{ subst newLast. destruct (_ <=? _); [reflexivity|].
      unfold lift. rewrite preservedCheckpoint_instant by assumption. reflexivity. }
  destruct (rollLoot_rolls actionType w3) as (loot & k & Hloot & Hlen & Hall).
  rewrite (bind_Ok _ _ _ _ _ Hloot).
  erewrite bind_Ok; [|apply save_stores; intros n; apply Hhealthy].
  unfold bind at 1. rewrite calculateEnergyState_run.
  change (calculateEnergyStateAt _ _)
    with (calculateEnergyStateAt
            (consumedRecord userId d energyCost (timeAt w 0) (timeAt w 1) loot) (timeAt w 2)).
  destruct (calculateEnergyStateAt_returns
              (consumedRecord userId d energyCost (timeAt w 0) (timeAt w 1) loot)
              (timeAt w 2) Hrate) as [st' Hst'].
  rewrite Hst'. unfold ret.
  exists loot, st'. eexists. split; [reflexivity|].
  split; [exact Hlen|]. split; [exact Hall|]. split; reflexivity.
Qed.

End PlayerTransactions.

(** ** What a consume leaves behind *)

Lemma currentEnergyAt_fits32 d t :
  fits32 (storage.MaxEnergy d) -> fits32 (currentEnergyAt d t).
Proof.
  intros Hm. unfold currentEnergyAt.
  destruct (_ <? _); [exact Hm|apply wrap32_range].
Qed.

Lemma currentEnergyAt_le_max d t : currentEnergyAt d t <= storage.MaxEnergy d.
Proof.
  unfold currentEnergyAt.
  destruct (Z.ltb_spec (storage.MaxEnergy d)
              (wrap32 (storage.CurrentEnergy d + regenPointsAt d t))); lia.
Qed.

(** The points a record has regenerated by [t], once its checkpoint has
    been advanced by the whole points elapsed at [t1]. *)
Lemma pointsBy_after_phaseCheckpoint d d' t1 t :
  0 < storage.RegenRateSeconds d ->
  storage.LastUpdateTime d <= t1 -> t1 <= t ->
  storage.RegenRateSeconds d' = storage.RegenRateSeconds d ->
  storage.LastUpdateTime d'
  = phaseCheckpoint (storage.LastUpdateTime d) (storage.RegenRateSeconds d) t1 ->
  pointsBy d' t = pointsBy d t - pointsBy d t1.
Proof.
  intros Hr Hl Ht Hrate Hlast.
  rewrite (pointsBy_elapsed d t), (pointsBy_elapsed d t1) by lia.
  unfold pointsBy. rewrite Hrate, Hlast, phaseCheckpoint_floor by lia.
  set (rate := storage.RegenRateSeconds d) in *.
  set (last := storage.LastUpdateTime d) in *.
  replace (t - (last + (t1 - last) / rate * rate))
    with ((t - last) + (- ((t1 - last) / rate)) * rate) by lia.
  rewrite Z.div_add by lia.
  pose proof (Z.div_le_mono (t1 - last) (t - last) rate Hr ltac:(lia)). lia.
Qed.

Lemma phaseCheckpoint_between last rate t1 :
  0 < rate -> last <= t1 -> last <= phaseCheckpoint last rate t1 <= t1.
Proof.
  intros Hr Hl. rewrite phaseCheckpoint_floor by assumption.
  pose proof (Z.div_mod (t1 - last) rate ltac:(lia)).
  pose proof (Z.mod_pos_bound (t1 - last) rate Hr).
  pose proof (Z.div_pos (t1 - last) rate ltac:(lia) Hr). nia.
Qed.

(** The energy a record derives once its checkpoint is the time [t1]. *)
Lemma currentEnergyAt_since d' t1 t :
  validRecord d' -> storage.LastUpdateTime d' = t1 ->
  instant t1 -> instant t -> t1 <= t ->
  storage.CurrentEnergy d' + (t - t1) / storage.RegenRateSeconds d' < 2 ^ 31 ->
  currentEnergyAt d' t
  = Z.min (storage.MaxEnergy d')
      (storage.CurrentEnergy d' + (t - t1) / storage.RegenRateSeconds d').
Proof.
  intros Hv Hl H1 Ht Hle Hov. pose proof Hv as (_ & _ & _ & _ & Hr).
  assert (Hpts : pointsBy d' t = (t - t1) / storage.RegenRateSeconds d').
  { rewrite pointsBy_elapsed by (rewrite ?Hl; lia). rewrite Hl. reflexivity. }
  rewrite currentEnergyAt_min; rewrite ?Hl, ?Hpts; try assumption. reflexivity.
Qed.

(** X6. A successful consume persists the derived energy less the cost, not
    negative, with the maximum and the rate of the stored record; the state
    it returns is derived from the persisted record, and when the clock has
    not moved on since the transaction its energy is the derived energy less
    the cost. *)
Theorem ConsumeMyEnergy_deducts_cost (namespace userId actionType : string) (energyCost : Z)
    (d : storage.EnergyData) (w : World) :
  actionEnergyCosts !! actionType = Some energyCost ->
  healthy (backend w) ->
  storage.records (backend w) !! (namespace, storage.getEnergyKey userId)
  = Some (storage.EnergyJSON d) ->
  validRecord d ->
  instant (storage.LastUpdateTime d) ->
  instant (timeAt w 1) ->
  energyCost <= currentEnergyAt d (timeAt w 0) ->
  exists response w' d',
    ConsumeMyEnergy namespace userId actionType w = (Ok response, w') /\
    pb.consume_Success response = true /\
    storage.records (backend w') !! (namespace, storage.getEnergyKey userId)
    = Some (storage.EnergyJSON d') /\
    storage.CurrentEnergy d' = currentEnergyAt d (timeAt w 0) - energyCost /\
    0 <= storage.CurrentEnergy d' <= storage.MaxEnergy d /\
    storage.MaxEnergy d' = storage.MaxEnergy d /\
    storage.RegenRateSeconds d' = storage.RegenRateSeconds d /\
    calculateEnergyStateAt d' (timeAt w 2) = Ok (pb.consume_EnergyState response) /\
    (storage.LastUpdateTime d <= timeAt w 1 -> timeAt w 2 = timeAt w 1 ->
     pb.CurrentEnergy (pb.consume_EnergyState response)
     = currentEnergyAt d (timeAt w 0) - energyCost).
Proof.
  intros Hcost Hh Hd Hv Hlast Hnow Henough.
  pose proof Hv as (Hfc & Hfm & Hfr & Hc & Hr).
  destruct (ConsumeMyEnergy_writes namespace userId d w Hh Hd ltac:(lia) Hlast Hnow
              actionType energyCost Hcost Henough)
    as (loot & newState & w' & Hrun & _ & _ & Hrec & Hst).
  pose proof (actionEnergyCosts_at_most _ _ Hcost) as Hcostpos.
  pose proof (currentEnergyAt_le_max d (timeAt w 0)) as Hle.
  set (d' := consumedRecord userId d energyCost (timeAt w 0) (timeAt w 1) loot) in *.
  assert (Hcur : storage.CurrentEnergy d' = currentEnergyAt d (timeAt w 0) - energyCost).
  { cbn. apply wrap32_fits. unfold fits32 in *. lia. }
  eexists _, w', d'. split; [exact Hrun|]. split; [reflexivity|].
  split; [rewrite Hrec; apply lookup_insert_eq|].
  split; [exact Hcur|]. split; [lia|]. split; [reflexivity|]. split; [reflexivity|].
  split; [exact Hst|]. cbn [pb.consume_EnergyState].
  intros Hpast Hsame. rewrite Hsame in Hst.
  destruct (calculateEnergyStateAt_fields d' _ _ Hst) as (-> & _).
  assert (Hl' : storage.LastUpdateTime d <= storage.LastUpdateTime d' <= timeAt w 1).
  { cbn. destruct (_ <=? _); [lia|]. apply phaseCheckpoint_between; assumption. }
  assert (Hpts : pointsBy d' (timeAt w 1) = 0).
  { assert (Hsplit :
      storage.LastUpdateTime d' = timeAt w 1 \/
      storage.LastUpdateTime d'
      = phaseCheckpoint (storage.LastUpdateTime d) (storage.RegenRateSeconds d) (timeAt w 1)).
    { cbn. destruct (_ <=? _); auto. }
    destruct Hsplit as [Heq|Heq].
    - unfold pointsBy. rewrite Heq, Z.sub_diag. cbn. rewrite Z.div_0_l by lia. reflexivity.
    - rewrite (pointsBy_after_phaseCheckpoint d d' (timeAt w 1) (timeAt w 1));
        try assumption; try reflexivity; lia. }
  rewrite currentEnergyAt_min.
  - rewrite Hpts, Hcur. change (storage.MaxEnergy d') with (storage.MaxEnergy d). lia.
  - unfold validRecord. rewrite Hcur.
    change (storage.MaxEnergy d') with (storage.MaxEnergy d).
    change (storage.RegenRateSeconds d') with (storage.RegenRateSeconds d).
    unfold fits32 in *. repeat split; lia.
  - unfold instant in *. lia.
  - exact Hnow.
  - rewrite Hpts, Hcur. unfold fits32 in *. lia.
Qed.

Lemma ConsumeMyEnergy_deducts_cost_witness :
  exists response w' d',
    ConsumeMyEnergy "game" "u1" "fight" (calmWorld regular 1700000450) = (Ok response, w') /\
    storage.records (backend w') !! ("game", storage.getEnergyKey "u1")
    = Some (storage.EnergyJSON d') /\
    storage.CurrentEnergy d' = 31 /\
    pb.CurrentEnergy (pb.consume_EnergyState response) = 31.
Proof.
  destruct (ConsumeMyEnergy_deducts_cost "game" "u1" "fight" 10 regular
              (calmWorld regular 1700000450))
    as (response & w' & d' & Hrun & _ & Hrec & Hcur & _ & _ & _ & _ & Hshown).
  - reflexivity.
  - intros n. reflexivity.
  - reflexivity.
  - unfold validRecord, fits32. cbn. lia.
  - unfold instant. cbn. lia.
  - unfold instant. vm_compute. split; [discriminate|reflexivity].
  - vm_compute. discriminate.
  - exists response, w', d'. split; [exact Hrun|]. split; [exact Hrec|].
    split; [rewrite Hcur; vm_compute; reflexivity|].
    rewrite Hshown; [vm_compute; reflexivity|vm_compute; discriminate|reflexivity].
Defined.

(** X7. Consuming below the cap, with the read of the loader and the write
    answered by the backend and no point falling between the derivation and
    the transaction.  When the consume's second read of the record is
    answered, the phase of the regeneration cycle is kept: the persisted
    record derives at every later time the energy the stored record would
    have had by then, less the cost (capped at the maximum).  When that read
    fails, the consume succeeds all the same and the phase is lost: the
    checkpoint is the time of the transaction, and the persisted record
    derives the energy it had then plus one point for every whole interval
    since the transaction (capped). *)
Theorem ConsumeMyEnergy_phase_by_second_read (namespace userId actionType : string)
    (energyCost : Z) (d : storage.EnergyData) (w : World) :
  actionEnergyCosts !! actionType = Some energyCost ->
  answers w 0 = true ->
  answers w 2 = true ->
  storage.records (backend w) !! (namespace, storage.getEnergyKey userId)
  = Some (storage.EnergyJSON d) ->
  validRecord d ->
  instant (storage.LastUpdateTime d) ->
  instant (timeAt w 1) ->
  storage.LastUpdateTime d <= timeAt w 0 <= timeAt w 1 ->
  pointsBy d (timeAt w 0) = pointsBy d (timeAt w 1) ->
  energyCost <= storage.CurrentEnergy d + pointsBy d (timeAt w 0) < storage.MaxEnergy d ->
  exists response w' d',
    ConsumeMyEnergy namespace userId actionType w = (Ok response, w') /\
    pb.consume_Success response = true /\
    storage.records (backend w') !! (namespace, storage.getEnergyKey userId)
    = Some (storage.EnergyJSON d') /\
    (answers w 1 = true ->
     forall t,
       timeAt w 1 <= t -> instant t ->
       storage.CurrentEnergy d + pointsBy d t - energyCost < 2 ^ 31 ->
       currentEnergyAt d' t
       = Z.min (storage.MaxEnergy d) (storage.CurrentEnergy d + pointsBy d t - energyCost)) /\
    (answers w 1 = false ->
     storage.LastUpdateTime d' = timeAt w 1 /\
     forall t,
       timeAt w 1 <= t -> instant t ->
       storage.CurrentEnergy d + pointsBy d (timeAt w 0) - energyCost
       + (t - timeAt w 1) / storage.RegenRateSeconds d < 2 ^ 31 ->
       currentEnergyAt d' t
       = Z.min (storage.MaxEnergy d)
           (storage.CurrentEnergy d + pointsBy d (timeAt w 0) - energyCost
            + (t - timeAt w 1) / storage.RegenRateSeconds d)).
Proof.
  intros Hcost Hfirst Hwrite Hd Hv Hlast Hnow Horder Hsame Hbelow.
  pose proof Hv as (Hfc & Hfm & Hfr & Hc & Hr).
  pose proof (actionEnergyCosts_at_most _ _ Hcost) as Hcostpos.
  assert (H0 : instant (timeAt w 0)) by (unfold instant in *; lia).
  assert (Hderived : currentEnergyAt d (timeAt w 0)
                     = storage.CurrentEnergy d + pointsBy d (timeAt w 0)).
  { rewrite currentEnergyAt_min; try assumption; [lia|]. unfold fits32 in *. lia. }
  destruct (ConsumeMyEnergy_effect namespace userId d w Hfirst Hwrite Hd ltac:(lia)
              actionType energyCost Hcost Hlast Hnow ltac:(lia))
    as (loot & newState & w' & Hrun & _ & _ & Hrec & _).
  set (d' := consumeWrites (reread w d) userId d energyCost (timeAt w 0) (timeAt w 1) loot)
    in *.
  assert (Hcur : storage.CurrentEnergy d'
                 = storage.CurrentEnergy d + pointsBy d (timeAt w 0) - energyCost).
  { cbn. rewrite Hderived. apply wrap32_fits. unfold fits32 in *. lia. }
  assert (Hvalid : validRecord d').
  { unfold validRecord. rewrite Hcur.
    change (storage.MaxEnergy d') with (storage.MaxEnergy d).
    change (storage.RegenRateSeconds d') with (storage.RegenRateSeconds d).
    unfold fits32 in *. repeat split; lia. }
  eexists _, w', d'. split; [exact Hrun|]. split; [reflexivity|].
  split; [rewrite Hrec; apply lookup_insert_eq|].
  split; intros Hsecond.
  - assert (Hl' : storage.LastUpdateTime d'
                  = phaseCheckpoint (storage.LastUpdateTime d) (storage.RegenRateSeconds d)
                      (timeAt w 1)).
    { unfold d', reread. rewrite Hsecond. cbn. rewrite Hderived.
      destruct (Z.leb_spec (storage.MaxEnergy d)
                  (storage.CurrentEnergy d + pointsBy d (timeAt w 0))); [lia|reflexivity]. }
    pose proof (phaseCheckpoint_between (storage.LastUpdateTime d)
                  (storage.RegenRateSeconds d) (timeAt w 1) Hr ltac:(lia)) as Hbetween.
    intros t Ht Hinst Hov.
    assert (Hpts : pointsBy d' t = pointsBy d t - pointsBy d (timeAt w 1)).
    { apply pointsBy_after_phaseCheckpoint; try assumption; try reflexivity; lia. }
    pose proof (pointsBy_monotone d (timeAt w 1) t Hr Ht).
    rewrite currentEnergyAt_min.
    + rewrite Hpts, Hcur, Hsame. change (storage.MaxEnergy d') with (storage.MaxEnergy d).
      f_equal. lia.
    + exact Hvalid.
    + rewrite Hl'. unfold instant in *. lia.
    + exact Hinst.
    + rewrite Hpts, Hcur, Hsame. lia.
  - assert (Hl' : storage.LastUpdateTime d' = timeAt w 1).
    { unfold d', reread. rewrite Hsecond. reflexivity. }
    split; [exact Hl'|]. intros t Ht Hinst Hov.
    rewrite (currentEnergyAt_since d' (timeAt w 1) t Hvalid Hl' Hnow Hinst Ht).
    + rewrite Hcur. reflexivity.
    + rewrite Hcur. exact Hov.
Qed.

Lemma ConsumeMyEnergy_phase_by_second_read_witness :
  (exists response w' d',
     ConsumeMyEnergy "game" "u1" "fight" (calmWorld regular 1700000450) = (Ok response, w') /\
     storage.records (backend w') !! ("game", storage.getEnergyKey "u1")
     = Some (storage.EnergyJSON d') /\
     currentEnergyAt d' 1700000600 = 32) /\
  (exists response w' d',
     ConsumeMyEnergy "game" "u1" "fight" (secondReadFails regular 1700000450)
     = (Ok response, w') /\
     pb.consume_Success response = true /\
     storage.records (backend w') !! ("game", storage.getEnergyKey "u1")
     = Some (storage.EnergyJSON d') /\
     storage.LastUpdateTime d' = 1700000450 /\
     currentEnergyAt d' 1700000600 = 31).
Proof.
  split.
  - destruct (ConsumeMyEnergy_phase_by_second_read "game" "u1" "fight" 10 regular
                (calmWorld regular 1700000450))
      as (response & w' & d' & Hrun & _ & Hrec & Hkept & _).
    + reflexivity.
    + reflexivity.
    + reflexivity.
    + reflexivity.
    + unfold validRecord, fits32. cbn. lia.
    + unfold instant. cbn. lia.
    + unfold instant. vm_compute. split; [discriminate|reflexivity].
    + vm_compute. split; discriminate.
    + reflexivity.
    + vm_compute. split; [discriminate|reflexivity].
    + exists response, w', d'. split; [exact Hrun|]. split; [exact Hrec|].
      rewrite (Hkept eq_refl).
      * vm_compute. reflexivity.
      * vm_compute. discriminate.
      * unfold instant. lia.
      * vm_compute. reflexivity.
  - destruct (ConsumeMyEnergy_phase_by_second_read "game" "u1" "fight" 10 regular
                (secondReadFails regular 1700000450))
      as (response & w' & d' & Hrun & Hok & Hrec & _ & Hlost).
    + reflexivity.
    + reflexivity.
    + reflexivity.
    + reflexivity.
    + unfold validRecord, fits32. cbn. lia.
    + unfold instant. cbn. lia.
    + unfold instant. vm_compute. split; [discriminate|reflexivity].
    + vm_compute. split; discriminate.
    + reflexivity.
    + vm_compute. split; [discriminate|reflexivity].
    + destruct (Hlost eq_refl) as [Hlast Hlater].
      exists response, w', d'. split; [exact Hrun|]. split; [exact Hok|].
      split; [exact Hrec|]. split; [rewrite Hlast; vm_compute; reflexivity|].
      rewrite Hlater.
      * vm_compute. reflexivity.
      * vm_compute. discriminate.
      * unfold instant. lia.
      * vm_compute. reflexivity.
Defined.

(** X8. Consuming at the cap starts a fresh cycle: the persisted record
    derives at every later time the maximum less the cost plus one point for
    every whole interval since the transaction (capped at the maximum). *)
Theorem ConsumeMyEnergy_from_cap_starts_cycle (namespace userId actionType : string)
    (energyCost : Z) (d : storage.EnergyData) (w : World) :
  actionEnergyCosts !! actionType = Some energyCost ->
  healthy (backend w) ->
  storage.records (backend w) !! (namespace, storage.getEnergyKey userId)
  = Some (storage.EnergyJSON d) ->
  fits32 (storage.MaxEnergy d) -> fits32 (storage.RegenRateSeconds d) ->
  0 < storage.RegenRateSeconds d ->
  instant (storage.LastUpdateTime d) ->
  instant (timeAt w 1) ->
  energyCost <= storage.MaxEnergy d <= currentEnergyAt d (timeAt w 0) ->
  exists response w' d',
    ConsumeMyEnergy namespace userId actionType w = (Ok response, w') /\
    pb.consume_Success response = true /\
    storage.records (backend w') !! (namespace, storage.getEnergyKey userId)
    = Some (storage.EnergyJSON d') /\
    storage.LastUpdateTime d' = timeAt w 1 /\
    forall t,
      timeAt w 1 <= t -> instant t ->
      storage.MaxEnergy d - energyCost + (t - timeAt w 1) / storage.RegenRateSeconds d
      < 2 ^ 31 ->
      currentEnergyAt d' t
      = Z.min (storage.MaxEnergy d)
          (storage.MaxEnergy d - energyCost
           + (t - timeAt w 1) / storage.RegenRateSeconds d).
Proof.
  intros Hcost Hh Hd Hfm Hfr Hr Hlast Hnow Hcap.
  pose proof (actionEnergyCosts_at_most _ _ Hcost) as Hcostpos.
  pose proof (currentEnergyAt_le_max d (timeAt w 0)) as Hle.
  assert (Hderived : currentEnergyAt d (timeAt w 0) = storage.MaxEnergy d) by lia.
  destruct (ConsumeMyEnergy_writes namespace userId d w Hh Hd ltac:(lia) Hlast Hnow
              actionType energyCost Hcost ltac:(lia))
    as (loot & newState & w' & Hrun & _ & _ & Hrec & _).
  set (d' := consumedRecord userId d energyCost (timeAt w 0) (timeAt w 1) loot) in *.
  assert (Hcur : storage.CurrentEnergy d' = storage.MaxEnergy d - energyCost).
  { cbn. rewrite Hderived. apply wrap32_fits. unfold fits32 in *. lia. }
  assert (Hl' : storage.LastUpdateTime d' = timeAt w 1).
  { cbn. rewrite Hderived.
    destruct (Z.leb_spec (storage.MaxEnergy d) (storage.MaxEnergy d)); [reflexivity|lia]. }
  eexists _, w', d'. split; [exact Hrun|]. split; [reflexivity|].
  split; [rewrite Hrec; apply lookup_insert_eq|]. split; [exact Hl'|].
  intros t Ht Hinst Hov.
  assert (Hpts : pointsBy d' t = (t - timeAt w 1) / storage.RegenRateSeconds d).
  { rewrite pointsBy_elapsed; rewrite ?Hl'; try lia; try reflexivity. exact Hr. }
  rewrite currentEnergyAt_min.
  - rewrite Hpts, Hcur. reflexivity.
  - unfold validRecord. rewrite Hcur.
    change (storage.MaxEnergy d') with (storage.MaxEnergy d).
    change (storage.RegenRateSeconds d') with (storage.RegenRateSeconds d).
    unfold fits32 in *. repeat split; lia.
  - rewrite Hl'. exact Hnow.
  - exact Hinst.
  - rewrite Hpts, Hcur. exact Hov.
Qed.

Lemma ConsumeMyEnergy_from_cap_starts_cycle_witness :
  exists response w' d',
    ConsumeMyEnergy "game" "u1" "fight" (calmWorld topped 1700000450) = (Ok response, w') /\
    storage.records (backend w') !! ("game", storage.getEnergyKey "u1")
    = Some (storage.EnergyJSON d') /\
    storage.LastUpdateTime d' = 1700000450 /\
    currentEnergyAt d' 1700000749 = 90 /\
    currentEnergyAt d' 1700000750 = 91.
Proof.
  destruct (ConsumeMyEnergy_from_cap_starts_cycle "game" "u1" "fight" 10 topped
              (calmWorld topped 1700000450))
    as (response & w' & d' & Hrun & _ & Hrec & Hlast & Hlater).
  - reflexivity.
  - intros n. reflexivity.
  - reflexivity.
  - unfold fits32. cbn. lia.
  - unfold fits32. cbn. lia.
  - cbn. lia.
  - unfold instant. cbn. lia.
  - unfold instant. vm_compute. split; [discriminate|reflexivity].
  - vm_compute. split; discriminate.
  - exists response, w', d'. split; [exact Hrun|]. split; [exact Hrec|].
    split; [rewrite Hlast; vm_compute; reflexivity|].
    split; (rewrite Hlater;
            [vm_compute; reflexivity|vm_compute; discriminate|unfold instant; lia|
             vm_compute; reflexivity]).
Defined.

(** ** The inventory *)

Section Inventory.

Lemma droppedOf_nonneg loot itemId :
  Forall (fun item => 0 <= pb.Quantity item) loot -> 0 <= droppedOf loot itemId.
Proof.
  unfold droppedOf.
  induction 1 as [|item rest Hq _ IH]; cbn; [lia|]. case_decide; lia.
Qed.

Lemma addLoot_quantity loot : forall inventory itemId,
  Forall (fun item => 0 <= pb.Quantity item) loot ->
  0 <= quantityOf inventory itemId ->
  quantityOf inventory itemId + droppedOf loot itemId < 2 ^ 31 ->
  quantityOf (addLoot inventory loot) itemId
  = quantityOf inventory itemId + droppedOf loot itemId.
Proof.
  unfold addLoot, droppedOf.
  induction loot as [|item rest IH]; intros inventory itemId Hall Hq Hsum; cbn in *.
  - lia.
  - inversion Hall as [|? ? Hitem Hrest]; subst.
    pose proof (droppedOf_nonneg rest itemId Hrest) as Hnn. unfold droppedOf in Hnn.
    destruct (decide (pb.ItemId item = itemId)) as [Heq|Hne].
    + assert (Hnew : quantityOf
                       (<[pb.ItemId item :=
                            wrap32 (default 0 (inventory !! pb.ItemId item)
                                    + pb.Quantity item)]> inventory) itemId
                     = quantityOf inventory itemId + pb.Quantity item).
      { unfold quantityOf in *. rewrite Heq, lookup_insert_eq. cbn.
        apply wrap32_fits. unfold fits32. lia. }
      rewrite IH; rewrite ?Hnew; try assumption; lia.
    + assert (Hnew : quantityOf
                       (<[pb.ItemId item :=
                            wrap32 (default 0 (inventory !! pb.ItemId item)
                                    + pb.Quantity item)]> inventory) itemId
                     = quantityOf inventory itemId).
      { unfold quantityOf. rewrite lookup_insert_ne by exact Hne. reflexivity. }
      rewrite IH; rewrite ?Hnew; try assumption; lia.
Qed.

Lemma addLoot_keeps_items loot : forall inventory itemId,
  is_Some (inventory !! itemId) -> is_Some (addLoot inventory loot !! itemId).
Proof.
  unfold addLoot.
  induction loot as [|item rest IH]; intros inventory itemId Hin; cbn; [exact Hin|].
  apply IH. destruct (decide (pb.ItemId item = itemId)) as [<-|Hne].
  - rewrite lookup_insert_eq. eauto.
  - rewrite lookup_insert_ne by exact Hne. exact Hin.
Qed.

Lemma addLoot_other_items loot : forall inventory itemId,
  Forall (fun item => pb.ItemId item <> itemId) loot ->
  addLoot inventory loot !! itemId = inventory !! itemId.
Proof.
  unfold addLoot.
  induction loot as [|item rest IH]; intros inventory itemId Hall; cbn; [reflexivity|].
  inversion Hall as [|? ? Hne Hrest]; subst.
  rewrite IH by exact Hrest. apply lookup_insert_ne. exact Hne.
Qed.

Lemma selectTable_at_least_one actionType :
  Forall (fun entry => 1 <= MinQty entry) (selectTable actionType).
Proof.
  unfold selectTable. rewrite !lootTables_lookup.
  repeat case_decide; try congruence; cbn; repeat constructor; cbn; lia.
Qed.

Lemma dropFrom_at_least_one actionType item :
  dropFrom (selectTable actionType) item -> 1 <= pb.Quantity item.
Proof.
  intros (entry & Hin & _ & _ & Hq).
  pose proof (selectTable_at_least_one actionType) as Hall.
  rewrite Forall_forall in Hall. specialize (Hall entry Hin). lia.
Qed.

End Inventory.

(** X9. A consume with enough energy, the read of the loader and the write
    answered by the backend, hands out drops that count at least one item
    each.  When its second read of the record is answered, the drops are
    merged into the stored inventory: no item of the stored inventory is
    lost, an item that was not dropped keeps its entry, and the quantity of
    every item is the stored quantity plus what was dropped of it (while
    that fits int32).  When that read fails, the consume succeeds all the
    same and the persisted inventory holds the drops alone: an item that was
    not dropped has no entry, whatever was stored, and the quantity of every
    item is what was dropped of it. *)
Theorem ConsumeMyEnergy_inventory_by_second_read (namespace userId actionType : string)
    (energyCost : Z) (d : storage.EnergyData) (w : World) :
  actionEnergyCosts !! actionType = Some energyCost ->
  answers w 0 = true ->
  answers w 2 = true ->
  storage.records (backend w) !! (namespace, storage.getEnergyKey userId)
  = Some (storage.EnergyJSON d) ->
  storage.RegenRateSeconds d <> 0 ->
  instant (storage.LastUpdateTime d) ->
  instant (timeAt w 1) ->
  energyCost <= currentEnergyAt d (timeAt w 0) ->
  exists response w' d' inventory,
    ConsumeMyEnergy namespace userId actionType w = (Ok response, w') /\
    pb.consume_Success response = true /\
    storage.records (backend w') !! (namespace, storage.getEnergyKey userId)
    = Some (storage.EnergyJSON d') /\
    storage.Inventory d' = Some inventory /\
    Forall (fun item => 1 <= pb.Quantity item) (pb.consume_Loot response) /\
    (answers w 1 = true ->
     (forall itemId,
        is_Some (inventoryOf (Some d) !! itemId) -> is_Some (inventory !! itemId)) /\
     (forall itemId,
        Forall (fun item => pb.ItemId item <> itemId) (pb.consume_Loot response) ->
        inventory !! itemId = inventoryOf (Some d) !! itemId) /\
     (forall itemId,
        0 <= quantityOf (inventoryOf (Some d)) itemId ->
        quantityOf (inventoryOf (Some d)) itemId
        + droppedOf (pb.consume_Loot response) itemId < 2 ^ 31 ->
        quantityOf inventory itemId
        = quantityOf (inventoryOf (Some d)) itemId
          + droppedOf (pb.consume_Loot response) itemId)) /\
    (answers w 1 = false ->
     (forall itemId,
        Forall (fun item => pb.ItemId item <> itemId) (pb.consume_Loot response) ->
        inventory !! itemId = None) /\
     (forall itemId,
        droppedOf (pb.consume_Loot response) itemId < 2 ^ 31 ->
        quantityOf inventory itemId = droppedOf (pb.consume_Loot response) itemId)).
Proof.
  intros Hcost Hfirst Hwrite Hd Hrate Hlast Hnow Henough.
  destruct (ConsumeMyEnergy_effect namespace userId d w Hfirst Hwrite Hd Hrate
              actionType energyCost Hcost Hlast Hnow Henough)
    as (loot & newState & w' & Hrun & _ & Hall & Hrec & _).
  assert (Hone : Forall (fun item => 1 <= pb.Quantity item) loot).
  { eapply Forall_impl; [exact Hall|]. intros item. apply dropFrom_at_least_one. }
  assert (Hnonneg : Forall (fun item => 0 <= pb.Quantity item) loot).
  { eapply Forall_impl; [exact Hone|]. cbn. intros. lia. }
  eexists _, w', _, (addLoot (inventoryOf (reread w d)) loot).
  split; [exact Hrun|]. split; [reflexivity|].
  split; [rewrite Hrec; apply lookup_insert_eq|].
  split; [reflexivity|]. cbn [pb.consume_Loot]. split; [exact Hone|].
  unfold reread. split; intros Hsecond; rewrite Hsecond.
  - split; [intros itemId; apply addLoot_keeps_items|].
    split; [intros itemId; apply addLoot_other_items|].
    intros itemId Hq Hsum. apply addLoot_quantity; assumption.
  - split.
    + intros itemId Hother. rewrite addLoot_other_items by exact Hother.
      apply lookup_empty.
    + intros itemId Hsum.
      rewrite addLoot_quantity; try assumption; unfold quantityOf, inventoryOf;
        rewrite lookup_empty; cbn; lia.
Qed.

Lemma ConsumeMyEnergy_inventory_by_second_read_witness :
  quantityOf (inventoryOf (Some regular)) "gold" = 7 /\
  (exists response w' d' inventory,
     ConsumeMyEnergy "game" "u1" "fight" (calmWorld regular 1700000450) = (Ok response, w') /\
     storage.records (backend w') !! ("game", storage.getEnergyKey "u1")
     = Some (storage.EnergyJSON d') /\
     storage.Inventory d' = Some inventory /\
     is_Some (inventory !! "gold") /\
     quantityOf inventory "gold" = 7 + droppedOf (pb.consume_Loot response) "gold") /\
  (exists response w' d' inventory,
     ConsumeMyEnergy "game" "u1" "fight" (secondReadFails regular 1700000450)
     = (Ok response, w') /\
     pb.consume_Success response = true /\
     storage.records (backend w') !! ("game", storage.getEnergyKey "u1")
     = Some (storage.EnergyJSON d') /\
     storage.Inventory d' = Some inventory /\
     quantityOf inventory "gold" = droppedOf (pb.consume_Loot response) "gold").
Proof.
  split; [reflexivity|]. split.
  - destruct (ConsumeMyEnergy_inventory_by_second_read "game" "u1" "fight" 10 regular
                (calmWorld regular 1700000450))
      as (response & w' & d' & inventory & Hrun & _ & Hrec & Hinv & _ & Hmerged & _).
    + reflexivity.
    + reflexivity.
    + reflexivity.
    + reflexivity.
    + discriminate.
    + unfold instant. cbn. lia.
    + unfold instant. vm_compute. split; [discriminate|reflexivity].
    + vm_compute. discriminate.
    + destruct (Hmerged eq_refl) as (Hkeep & _ & Hsum).
      exists response, w', d', inventory. split; [exact Hrun|]. split; [exact Hrec|].
      split; [exact Hinv|]. split.
      * apply Hkeep. vm_compute. eauto.
      * assert (Hloot : pb.consume_Loot response
                        = pb.consume_Loot
                            match fst (ConsumeMyEnergy "game" "u1" "fight"
                                         (calmWorld regular 1700000450)) with
                            | Ok r => r
                            | _ => response
                            end) by (rewrite Hrun; reflexivity).
        rewrite (Hsum "gold").
        -- reflexivity.
        -- vm_compute. discriminate.
        -- rewrite Hloot. vm_compute. reflexivity.
  - destruct (ConsumeMyEnergy_inventory_by_second_read "game" "u1" "fight" 10 regular
                (secondReadFails regular 1700000450))
      as (response & w' & d' & inventory & Hrun & Hok & Hrec & Hinv & _ & _ & Hdrops).
    + reflexivity.
    + reflexivity.
    + reflexivity.
    + reflexivity.
    + discriminate.
    + unfold instant. cbn. lia.
    + unfold instant. vm_compute. split; [discriminate|reflexivity].
    + vm_compute. discriminate.
    + destruct (Hdrops eq_refl) as (_ & Hsum).
      exists response, w', d', inventory. split; [exact Hrun|]. split; [exact Hok|].
      split; [exact Hrec|]. split; [exact Hinv|].
      assert (Hloot : pb.consume_Loot response
                      = pb.consume_Loot
                          match fst (ConsumeMyEnergy "game" "u1" "fight"
                                       (secondReadFails regular 1700000450)) with
                          | Ok r => r
                          | _ => response
                          end) by (rewrite Hrun; reflexivity).
      apply Hsum. rewrite Hloot. vm_compute. reflexivity.
Defined.

(** ** What a refill leaves behind *)

Lemma refillAmounts_lookup source :
  refillAmounts !! source =
    if decide (source = "daily") then Some 50
    else if decide (source = "ad") then Some 20
    else if decide (source = "purchase") then Some 100
    else if decide (source = "debug") then Some 100
    else None.
Proof.
  unfold refillAmounts.
  repeat (case_decide; [subst; first [apply lookup_insert_eq | apply lookup_singleton_eq]|];
          rewrite ?lookup_insert_ne by congruence).
  apply lookup_singleton_ne. congruence.
Qed.

Lemma refillAmounts_at_most source refillAmount :
  refillAmounts !! source = Some refillAmount -> 0 < refillAmount <= 100.
Proof.
  rewrite refillAmounts_lookup. repeat case_decide; intros [= <-]; lia.
Qed.

(** X10. A refill, with the read of the loader and the write answered by
    the backend, persists an energy that never exceeds the maximum: the
    derived energy plus the amount of the source, capped (while the sum fits
    int32), with the maximum and the rate of the stored record.  When its
    second read of the record is answered, the stored inventory is carried
    over as it is; when that read fails, the refill succeeds all the same
    and persists an empty inventory. *)
Theorem RefillMyEnergy_energy_and_inventory (namespace userId source : string)
    (refillAmount : Z) (d : storage.EnergyData) (w : World) :
  refillAmounts !! source = Some refillAmount ->
  answers w 0 = true ->
  answers w 2 = true ->
  storage.records (backend w) !! (namespace, storage.getEnergyKey userId)
  = Some (storage.EnergyJSON d) ->
  storage.RegenRateSeconds d <> 0 ->
  fits32 (storage.MaxEnergy d) ->
  instant (storage.LastUpdateTime d) ->
  instant (timeAt w 1) ->
  exists response w' d',
    RefillMyEnergy namespace userId source w = (Ok response, w') /\
    pb.refill_Success response = true /\
    storage.records (backend w') !! (namespace, storage.getEnergyKey userId)
    = Some (storage.EnergyJSON d') /\
    storage.CurrentEnergy d' <= storage.MaxEnergy d /\
    (currentEnergyAt d (timeAt w 0) + refillAmount < 2 ^ 31 ->
     storage.CurrentEnergy d'
     = Z.min (storage.MaxEnergy d) (currentEnergyAt d (timeAt w 0) + refillAmount)) /\
    storage.MaxEnergy d' = storage.MaxEnergy d /\
    storage.RegenRateSeconds d' = storage.RegenRateSeconds d /\
    calculateEnergyStateAt d' (timeAt w 2) = Ok (pb.refill_EnergyState response) /\
    (answers w 1 = true -> storage.Inventory d' = Some (inventoryOf (Some d))) /\
    (answers w 1 = false -> storage.Inventory d' = Some ∅).
Proof.
  intros Hamount Hfirst Hwrite Hd Hrate Hfm Hlast Hnow.
  destruct (RefillMyEnergy_effect namespace userId d w Hfirst Hwrite Hd Hrate
              source refillAmount Hamount Hlast Hnow)
    as (newState & w' & Hrun & Hrec & Hst).
  pose proof (refillAmounts_at_most _ _ Hamount) as Hpos.
  pose proof (currentEnergyAt_fits32 d (timeAt w 0) Hfm) as Hfd.
  eexists _, w', _. split; [exact Hrun|]. split; [reflexivity|].
  split; [rewrite Hrec; apply lookup_insert_eq|].
  cbn [refillWrites storage.CurrentEnergy storage.MaxEnergy storage.RegenRateSeconds
       storage.Inventory pb.refill_EnergyState].
  split; [|split; [|split; [reflexivity|split; [reflexivity|split; [exact Hst|]]]]].
  - destruct (Z.ltb_spec (storage.MaxEnergy d)
                (wrap32 (currentEnergyAt d (timeAt w 0) + refillAmount))); lia.
  - intros Hov. rewrite wrap32_fits by (unfold fits32 in *; lia).
    destruct (Z.ltb_spec (storage.MaxEnergy d)
                (currentEnergyAt d (timeAt w 0) + refillAmount)); lia.
  - unfold reread. split; intros Hsecond; rewrite Hsecond; reflexivity.
Qed.

Lemma RefillMyEnergy_energy_and_inventory_witness :
  (exists response w' d',
     RefillMyEnergy "game" "u1" "purchase" (calmWorld regular 1700000450)
     = (Ok response, w') /\
     storage.records (backend w') !! ("game", storage.getEnergyKey "u1")
     = Some (storage.EnergyJSON d') /\
     storage.CurrentEnergy d' = 100 /\
     storage.Inventory d' = storage.Inventory regular) /\
  (exists response w' d',
     RefillMyEnergy "game" "u1" "purchase" (secondReadFails regular 1700000450)
     = (Ok response, w') /\
     pb.refill_Success response = true /\
     storage.records (backend w') !! ("game", storage.getEnergyKey "u1")
     = Some (storage.EnergyJSON d') /\
     storage.CurrentEnergy d' = 100 /\
     storage.Inventory d' = Some ∅).
Proof.
  split.
  - destruct (RefillMyEnergy_energy_and_inventory "game" "u1" "purchase" 100 regular
                (calmWorld regular 1700000450))
      as (response & w' & d' & Hrun & _ & Hrec & _ & Hcur & _ & _ & _ & Hinv & _).
    + reflexivity.
    + reflexivity.
    + reflexivity.
    + reflexivity.
    + discriminate.
    + unfold fits32. cbn. lia.
    + unfold instant. cbn. lia.
    + unfold instant. vm_compute. split; [discriminate|reflexivity].
    + exists response, w', d'. split; [exact Hrun|]. split; [exact Hrec|].
      split; [rewrite Hcur; vm_compute; reflexivity|]. rewrite (Hinv eq_refl). reflexivity.
  - destruct (RefillMyEnergy_energy_and_inventory "game" "u1" "purchase" 100 regular
                (secondReadFails regular 1700000450))
      as (response & w' & d' & Hrun & Hok & Hrec & _ & Hcur & _ & _ & _ & _ & Hinv).
    + reflexivity.
    + reflexivity.
    + reflexivity.
    + reflexivity.
    + discriminate.
    + unfold fits32. cbn. lia.
    + unfold instant. cbn. lia.
    + unfold instant. vm_compute. split; [discriminate|reflexivity].
    + exists response, w', d'. split; [exact Hrun|]. split; [exact Hok|].
      split; [exact Hrec|].
      split; [rewrite Hcur; vm_compute; reflexivity|]. exact (Hinv eq_refl).
Defined.

(** X11. A refill, with the read of the loader and the write answered by the
    backend and no point falling between the derivation and the
    transaction.  When its second read of the record is answered, the phase
    of the regeneration cycle is kept: the persisted record derives at every
    later time the refilled energy plus the points the stored record
    regenerates after the transaction (capped).  When that read fails, the
    refill succeeds all the same and the phase is lost: the checkpoint is
    the time of the transaction, and the persisted record derives the
    refilled energy plus one point for every whole interval since the
    transaction (capped). *)
Theorem RefillMyEnergy_phase_by_second_read (namespace userId source : string)
    (refillAmount : Z) (d : storage.EnergyData) (w : World) :
  refillAmounts !! source = Some refillAmount ->
  answers w 0 = true ->
  answers w 2 = true ->
  storage.records (backend w) !! (namespace, storage.getEnergyKey userId)
  = Some (storage.EnergyJSON d) ->
  validRecord d ->
  instant (storage.LastUpdateTime d) ->
  instant (timeAt w 1) ->
  storage.LastUpdateTime d <= timeAt w 0 <= timeAt w 1 ->
  pointsBy d (timeAt w 0) = pointsBy d (timeAt w 1) ->
  storage.CurrentEnergy d + pointsBy d (timeAt w 0) + refillAmount < 2 ^ 31 ->
  0 <= storage.MaxEnergy d ->
  exists response w' d',
    RefillMyEnergy namespace userId source w = (Ok response, w') /\
    pb.refill_Success response = true /\
    storage.records (backend w') !! (namespace, storage.getEnergyKey userId)
    = Some (storage.EnergyJSON d') /\
    storage.CurrentEnergy d'
    = Z.min (storage.MaxEnergy d)
        (storage.CurrentEnergy d + pointsBy d (timeAt w 0) + refillAmount) /\
    (answers w 1 = true ->
     forall t,
       timeAt w 1 <= t -> instant t ->
       storage.CurrentEnergy d' + (pointsBy d t - pointsBy d (timeAt w 1)) < 2 ^ 31 ->
       currentEnergyAt d' t
       = Z.min (storage.MaxEnergy d)
           (storage.CurrentEnergy d' + (pointsBy d t - pointsBy d (timeAt w 1)))) /\
    (answers w 1 = false ->
     storage.LastUpdateTime d' = timeAt w 1 /\
     forall t,
       timeAt w 1 <= t -> instant t ->
       storage.CurrentEnergy d' + (t - timeAt w 1) / storage.RegenRateSeconds d < 2 ^ 31 ->
       currentEnergyAt d' t
       = Z.min (storage.MaxEnergy d)
           (storage.CurrentEnergy d' + (t - timeAt w 1) / storage.RegenRateSeconds d)).
Proof.
  intros Hamount Hfirst Hwrite Hd Hv Hlast Hnow Horder Hsame Hov Hmax.
  pose proof Hv as (Hfc & Hfm & Hfr & Hc & Hr).
  pose proof (refillAmounts_at_most _ _ Hamount) as Hpos.
  assert (H0 : instant (timeAt w 0)) by (unfold instant in *; lia).
  assert (Hderived : currentEnergyAt d (timeAt w 0)
                     = Z.min (storage.MaxEnergy d)
                         (storage.CurrentEnergy d + pointsBy d (timeAt w 0))).
  { apply currentEnergyAt_min; try assumption. lia. }
  destruct (RefillMyEnergy_effect namespace userId d w Hfirst Hwrite Hd ltac:(lia)
              source refillAmount Hamount Hlast Hnow)
    as (newState & w' & Hrun & Hrec & _).
  set (d' := refillWrites (reread w d) userId d refillAmount (timeAt w 0) (timeAt w 1)) in *.
  pose proof (pointsBy_nonneg d (timeAt w 0)) as Hp0.
  assert (Hcur : storage.CurrentEnergy d'
                 = Z.min (storage.MaxEnergy d)
                     (storage.CurrentEnergy d + pointsBy d (timeAt w 0) + refillAmount)).
  { cbn. rewrite Hderived.
    rewrite wrap32_fits by (unfold fits32 in *; lia).
    destruct (Z.ltb_spec (storage.MaxEnergy d)
                (Z.min (storage.MaxEnergy d)
                   (storage.CurrentEnergy d + pointsBy d (timeAt w 0)) + refillAmount)); lia. }
  assert (Hvalid : validRecord d').
  { unfold validRecord. rewrite Hcur.
    change (storage.MaxEnergy d') with (storage.MaxEnergy d).
    change (storage.RegenRateSeconds d') with (storage.RegenRateSeconds d).
    unfold fits32 in *. repeat split; lia. }
  eexists _, w', d'. split; [exact Hrun|]. split; [reflexivity|].
  split; [rewrite Hrec; apply lookup_insert_eq|]. split; [exact Hcur|].
  split; intros Hsecond.
  - assert (Hl' : storage.LastUpdateTime d'
                  = phaseCheckpoint (storage.LastUpdateTime d) (storage.RegenRateSeconds d)
                      (timeAt w 1)).
    { unfold d', reread. rewrite Hsecond. reflexivity. }
    pose proof (phaseCheckpoint_between (storage.LastUpdateTime d)
                  (storage.RegenRateSeconds d) (timeAt w 1) Hr ltac:(lia)) as Hbetween.
    intros t Ht Hinst Hfit.
    assert (Hpts : pointsBy d' t = pointsBy d t - pointsBy d (timeAt w 1)).
    { apply pointsBy_after_phaseCheckpoint; try assumption; try reflexivity; lia. }
    rewrite currentEnergyAt_min.
    + rewrite Hpts. reflexivity.
    + exact Hvalid.
    + rewrite Hl'. unfold instant in *. lia.
    + exact Hinst.
    + rewrite Hpts. exact Hfit.
  - assert (Hl' : storage.LastUpdateTime d' = timeAt w 1).
    { unfold d', reread. rewrite Hsecond. reflexivity. }
    split; [exact Hl'|]. intros t Ht Hinst Hfit.
    apply (currentEnergyAt_since d' (timeAt w 1) t Hvalid Hl' Hnow Hinst Ht). exact Hfit.
Qed.

Lemma RefillMyEnergy_phase_by_second_read_witness :
  (exists response w' d',
     RefillMyEnergy "game" "u1" "ad" (calmWorld regular 1700000450) = (Ok response, w') /\
     storage.records (backend w') !! ("game", storage.getEnergyKey "u1")
     = Some (storage.EnergyJSON d') /\
     storage.CurrentEnergy d' = 61 /\
     currentEnergyAt d' 1700000600 = 62) /\
  (exists response w' d',
     RefillMyEnergy "game" "u1" "ad" (secondReadFails regular 1700000450)
     = (Ok response, w') /\
     pb.refill_Success response = true /\
     storage.records (backend w') !! ("game", storage.getEnergyKey "u1")
     = Some (storage.EnergyJSON d') /\
     storage.CurrentEnergy d' = 61 /\
     storage.LastUpdateTime d' = 1700000450 /\
     currentEnergyAt d' 1700000600 = 61).
Proof.
  split.
  - destruct (RefillMyEnergy_phase_by_second_read "game" "u1" "ad" 20 regular
                (calmWorld regular 1700000450))
      as (response & w' & d' & Hrun & _ & Hrec & Hcur & Hkept & _).
    + reflexivity.
    + reflexivity.
    + reflexivity.
    + reflexivity.
    + unfold validRecord, fits32. cbn. lia.
    + unfold instant. cbn. lia.
    + unfold instant. vm_compute. split; [discriminate|reflexivity].
    + vm_compute. split; discriminate.
    + reflexivity.
    + vm_compute. reflexivity.
    + cbn. lia.
    + assert (Hc : storage.CurrentEnergy d' = 61) by (rewrite Hcur; vm_compute; reflexivity).
      exists response, w', d'. split; [exact Hrun|]. split; [exact Hrec|].
      split; [exact Hc|]. rewrite (Hkept eq_refl).
      * rewrite Hc. vm_compute. reflexivity.
      * vm_compute. discriminate.
      * unfold instant. lia.
      * rewrite Hc. vm_compute. reflexivity.
  - destruct (RefillMyEnergy_phase_by_second_read "game" "u1" "ad" 20 regular
                (secondReadFails regular 1700000450))
      as (response & w' & d' & Hrun & Hok & Hrec & Hcur & _ & Hlost).
    + reflexivity.
    + reflexivity.
    + reflexivity.
    + reflexivity.
    + unfold validRecord, fits32. cbn. lia.
    + unfold instant. cbn. lia.
    + unfold instant. vm_compute. split; [discriminate|reflexivity].
    + vm_compute. split; discriminate.
    + reflexivity.
    + vm_compute. reflexivity.
    + cbn. lia.
    + assert (Hc : storage.CurrentEnergy d' = 61) by (rewrite Hcur; vm_compute; reflexivity).
      destruct (Hlost eq_refl) as [Hlast Hlater].
      exists response, w', d'. split; [exact Hrun|]. split; [exact Hok|].
      split; [exact Hrec|]. split; [exact Hc|].
      split; [rewrite Hlast; vm_compute; reflexivity|].
      rewrite Hlater.
      * rewrite Hc. vm_compute. reflexivity.
      * vm_compute. discriminate.
      * unfold instant. lia.
      * rewrite Hc. vm_compute. reflexivity.
Defined.

(** ** The admin transactions *)

Section AdminTransactions.

Variables namespace userId : string.
Variable d : storage.EnergyData.
Variable w : World.

Let key := (namespace, storage.getEnergyKey userId).

Hypothesis Hhealthy : healthy (backend w).
Hypothesis Hstored : storage.records (backend w) !! key = Some (storage.EnergyJSON d).
Hypothesis Hrate : storage.RegenRateSeconds d <> 0.

Lemma ConsumeEnergy_writes amount :
  0 < amount <= currentEnergyAt d (timeAt w 0) ->
  exists newState w',
    ConsumeEnergy namespace userId amount w
    = (Ok {| pb.consume_EnergyState := newState;
             pb.consume_Success := true;
             pb.consume_Loot := [] |}, w') /\
    storage.records (backend w')
    = <[key := storage.EnergyJSON
                 (adminData userId (wrap32 (currentEnergyAt d (timeAt w 0) - amount))
                    (storage.MaxEnergy d) (timeAt w 1) (storage.RegenRateSeconds d))]>
        (storage.records (backend w)) /\
    rand_reads w' = rand_reads w.
Proof.
  intros Hamount. unfold ConsumeEnergy.
  destruct (calculateEnergyStateAt_returns d (timeAt w 0) Hrate) as [st Hst].
  destruct (calculateEnergyStateAt_fields d _ _ Hst) as (Hcur & Hmax & Hr & _).
  destruct (Z.leb_spec amount 0); [lia|].
  erewrite bind_Ok;
    [|rewrite (getOrCreateEnergyState_existing namespace userId w d Hhealthy Hstored);
      rewrite Hst; reflexivity].
  rewrite Hcur, Hmax, Hr.
  destruct (Z.ltb_spec (currentEnergyAt d (timeAt w 0)) amount); [lia|].
  rewrite (bind_Ok _ _ _ _ _ (time_Now_Unix_run _)).
  change (timeAt (clock_read _) 0) with (timeAt w 1).
  erewrite bind_Ok; [|apply save_stores; intros n; apply Hhealthy].
  unfold bind at 1. rewrite calculateEnergyState_run.
  match goal with
  | |- context [calculateEnergyStateAt ?u ?t] =>
      destruct (calculateEnergyStateAt_returns u t Hrate) as [st' Hst']
  end.
  rewrite Hst'. unfold ret. eexists _, _. repeat split; reflexivity.
Qed.

Lemma RefillEnergy_writes amount :
  0 < amount ->
  exists newState w',
    RefillEnergy namespace userId amount w
    = (Ok {| pb.refill_EnergyState := newState; pb.refill_Success := true |}, w') /\
    storage.records (backend w')
    = <[key := storage.EnergyJSON
                 (adminData userId
                    (if storage.MaxEnergy d <? wrap32 (currentEnergyAt d (timeAt w 0) + amount)
                     then storage.MaxEnergy d
                     else wrap32 (currentEnergyAt d (timeAt w 0) + amount))
                    (storage.MaxEnergy d) (timeAt w 1) (storage.RegenRateSeconds d))]>
        (storage.records (backend w)).
Proof.
  intros Hamount. unfold RefillEnergy.
  destruct (calculateEnergyStateAt_returns d (timeAt w 0) Hrate) as [st Hst].
  destruct (calculateEnergyStateAt_fields d _ _ Hst) as (Hcur & Hmax & Hr & _).
  destruct (Z.leb_spec amount 0); [lia|].
  erewrite bind_Ok;
    [|rewrite (getOrCreateEnergyState_existing namespace userId w d Hhealthy Hstored);
      rewrite Hst; reflexivity].
  rewrite Hcur, Hmax, Hr.
  rewrite (bind_Ok _ _ _ _ _ (time_Now_Unix_run _)).
  change (timeAt (clock_read _) 0) with (timeAt w 1).
  erewrite bind_Ok; [|apply save_stores; intros n; apply Hhealthy].
  unfold bind at 1. rewrite calculateEnergyState_run.
  match goal with
  | |- context [calculateEnergyStateAt ?u ?t] =>
      destruct (calculateEnergyStateAt_returns u t Hrate) as [st' Hst']
  end.
  rewrite Hst'. unfold ret. eexists _, _. repeat split; reflexivity.
Qed.

End AdminTransactions.

(** X12. The admin consume of a raw amount: with enough derived energy it
    persists the derived energy less the amount and sets the checkpoint to
    the time of the call, so that regeneration starts over from there; it
    rolls no loot and never reads the random source.  With too little
    energy it answers success = false and writes nothing. *)
Theorem ConsumeEnergy_restarts_cycle (namespace userId : string) (amount : Z)
    (d : storage.EnergyData) (w : World) :
  healthy (backend w) ->
  storage.records (backend w) !! (namespace, storage.getEnergyKey userId)
  = Some (storage.EnergyJSON d) ->
  fits32 (storage.MaxEnergy d) -> fits32 (storage.RegenRateSeconds d) ->
  0 < storage.RegenRateSeconds d ->
  instant (timeAt w 1) ->
  0 < amount ->
  exists response w',
    ConsumeEnergy namespace userId amount w = (Ok response, w') /\
    pb.consume_Loot response = [] /\
    rand_reads w' = rand_reads w /\
    (currentEnergyAt d (timeAt w 0) < amount ->
     pb.consume_Success response = false /\
     storage.records (backend w') = storage.records (backend w)) /\
    (amount <= currentEnergyAt d (timeAt w 0) ->
     pb.consume_Success response = true /\
     exists d',
       storage.records (backend w') !! (namespace, storage.getEnergyKey userId)
       = Some (storage.EnergyJSON d') /\
       storage.CurrentEnergy d' = currentEnergyAt d (timeAt w 0) - amount /\
       storage.LastUpdateTime d' = timeAt w 1 /\
       forall t,
         timeAt w 1 <= t -> instant t ->
         storage.CurrentEnergy d' + (t - timeAt w 1) / storage.RegenRateSeconds d < 2 ^ 31 ->
         currentEnergyAt d' t
         = Z.min (storage.MaxEnergy d)
             (storage.CurrentEnergy d' + (t - timeAt w 1) / storage.RegenRateSeconds d)).
Proof.
  intros Hh Hd Hfm Hfr Hr Hnow Hamount.
  pose proof (currentEnergyAt_le_max d (timeAt w 0)) as Hle.
  destruct (Z.lt_ge_cases (currentEnergyAt d (timeAt w 0)) amount) as [Hlow|Henough].
  - destruct (calculateEnergyStateAt_returns d (timeAt w 0) ltac:(lia)) as [st Hst].
    destruct (calculateEnergyStateAt_fields d _ _ Hst) as (Hcur & _).
    eexists _, _. split.
    { unfold ConsumeEnergy. destruct (Z.leb_spec amount 0); [lia|].
      erewrite bind_Ok;
        [|rewrite (getOrCreateEnergyState_existing namespace userId w d Hh Hd);
          rewrite Hst; reflexivity].
      rewrite Hcur.
      destruct (Z.ltb_spec (currentEnergyAt d (timeAt w 0)) amount); [|lia].
      reflexivity. }
    cbn. repeat split; try reflexivity; try lia.
  - destruct (ConsumeEnergy_writes namespace userId d w Hh Hd ltac:(lia) amount ltac:(lia))
      as (newState & w' & Hrun & Hrec & Hrand).
    assert (Hcur : wrap32 (currentEnergyAt d (timeAt w 0) - amount)
                   = currentEnergyAt d (timeAt w 0) - amount).
    { apply wrap32_fits. unfold fits32 in *. lia. }
    rewrite Hcur in Hrec.
    eexists _, w'. split; [exact Hrun|]. split; [reflexivity|]. split; [exact Hrand|].
    split; [lia|]. intros _. split; [reflexivity|].
    eexists. split; [rewrite Hrec; apply lookup_insert_eq|].
    unfold adminData. cbn [storage.CurrentEnergy storage.LastUpdateTime].
    split; [reflexivity|]. split; [reflexivity|].
    intros t Ht Hinst Hov.
    rewrite (currentEnergyAt_since _ (timeAt w 1) t); try assumption; try reflexivity.
    unfold validRecord. cbn. unfold fits32 in *. repeat split; lia.
Qed.

Lemma ConsumeEnergy_restarts_cycle_witness :
  exists response w' d',
    ConsumeEnergy "game" "u1" 5 (calmWorld regular 1700000450) = (Ok response, w') /\
    pb.consume_Loot response = [] /\
    storage.records (backend w') !! ("game", storage.getEnergyKey "u1")
    = Some (storage.EnergyJSON d') /\
    storage.CurrentEnergy d' = 36 /\
    storage.LastUpdateTime d' = 1700000450 /\
    currentEnergyAt d' 1700000600 = 36 /\
    currentEnergyAt regular 1700000600 = 42.
Proof.
  destruct (ConsumeEnergy_restarts_cycle "game" "u1" 5 regular (calmWorld regular 1700000450))
    as (response & w' & Hrun & Hloot & _ & _ & Hdone).
  - intros n. reflexivity.
  - reflexivity.
  - unfold fits32. cbn. lia.
  - unfold fits32. cbn. lia.
  - cbn. lia.
  - unfold instant. vm_compute. split; [discriminate|reflexivity].
  - lia.
  - destruct Hdone as (_ & d' & Hrec & Hcur & Hlast & Hlater); [vm_compute; discriminate|].
    assert (Hc : storage.CurrentEnergy d' = 36) by (rewrite Hcur; vm_compute; reflexivity).
    exists response, w', d'. split; [exact Hrun|]. split; [exact Hloot|].
    split; [exact Hrec|]. split; [exact Hc|].
    split; [rewrite Hlast; vm_compute; reflexivity|].
    split; [|vm_compute; reflexivity].
    rewrite Hlater.
    + rewrite Hc. vm_compute. reflexivity.
    + vm_compute. discriminate.
    + unfold instant. lia.
    + rewrite Hc. vm_compute. reflexivity.
Defined.

(** X13. The admin refill of a raw amount persists an energy that never
    exceeds the maximum and sets the checkpoint to the time of the call.
    While derived energy plus amount fits int32 the energy is that sum,
    capped; when the sum passes [MaxInt32] it wraps around and a negative
    energy is persisted. *)
Theorem RefillEnergy_persists (namespace userId : string) (amount : Z)
    (d : storage.EnergyData) (w : World) :
  healthy (backend w) ->
  storage.records (backend w) !! (namespace, storage.getEnergyKey userId)
  = Some (storage.EnergyJSON d) ->
  storage.RegenRateSeconds d <> 0 ->
  fits32 (storage.MaxEnergy d) -> 0 <= storage.MaxEnergy d ->
  fits32 amount -> 0 < amount ->
  exists response w' d',
    RefillEnergy namespace userId amount w = (Ok response, w') /\
    pb.refill_Success response = true /\
    storage.records (backend w') !! (namespace, storage.getEnergyKey userId)
    = Some (storage.EnergyJSON d') /\
    storage.LastUpdateTime d' = timeAt w 1 /\
    storage.CurrentEnergy d' <= storage.MaxEnergy d /\
    (currentEnergyAt d (timeAt w 0) + amount < 2 ^ 31 ->
     storage.CurrentEnergy d'
     = Z.min (storage.MaxEnergy d) (currentEnergyAt d (timeAt w 0) + amount)) /\
    (2 ^ 31 <= currentEnergyAt d (timeAt w 0) + amount ->
     storage.CurrentEnergy d' = currentEnergyAt d (timeAt w 0) + amount - 2 ^ 32 /\
     storage.CurrentEnergy d' < 0).
Proof.
  intros Hh Hd Hrate Hfm Hmax Hfa Hamount.
  destruct (RefillEnergy_writes namespace userId d w Hh Hd Hrate amount Hamount)
    as (newState & w' & Hrun & Hrec).
  pose proof (currentEnergyAt_fits32 d (timeAt w 0) Hfm) as Hfd.
  pose proof (currentEnergyAt_le_max d (timeAt w 0)) as Hle.
  eexists _, w', _. split; [exact Hrun|]. split; [reflexivity|].
  split; [rewrite Hrec; apply lookup_insert_eq|].
  unfold adminData. cbn [storage.CurrentEnergy storage.LastUpdateTime].
  split; [reflexivity|]. split; [|split].
  - destruct (Z.ltb_spec (storage.MaxEnergy d)
                (wrap32 (currentEnergyAt d (timeAt w 0) + amount))); lia.
  - intros Hov. rewrite wrap32_fits by (unfold fits32 in *; lia).
    destruct (Z.ltb_spec (storage.MaxEnergy d)
                (currentEnergyAt d (timeAt w 0) + amount)); lia.
  - intros Hov.
    assert (Hwrap : wrap32 (currentEnergyAt d (timeAt w 0) + amount)
                    = currentEnergyAt d (timeAt w 0) + amount - 2 ^ 32).
    { unfold wrap32, wrap. unfold fits32 in *.
      change (2 ^ (32 - 1)) with 2147483648. change (2 ^ 32) with 4294967296.
      change (2 ^ 31) with 2147483648 in *.
      rewrite <- (Z.mod_add _ (-1) 4294967296) by lia.
      rewrite Z.mod_small by lia. lia. }
    rewrite Hwrap. unfold fits32 in *.
    destruct (Z.ltb_spec (storage.MaxEnergy d)
                (currentEnergyAt d (timeAt w 0) + amount - 2 ^ 32)); lia.
Qed.

Lemma RefillEnergy_persists_witness :
  exists response w' d',
    RefillEnergy "game" "u1" 2147483647 (calmWorld regular 1700000450) = (Ok response, w') /\
    storage.records (backend w') !! ("game", storage.getEnergyKey "u1")
    = Some (storage.EnergyJSON d') /\
    storage.LastUpdateTime d' = 1700000450 /\
    storage.CurrentEnergy d' = -2147483608.
Proof.
  destruct (RefillEnergy_persists "game" "u1" 2147483647 regular
              (calmWorld regular 1700000450))
    as (response & w' & d' & Hrun & _ & Hrec & Hlast & _ & _ & Hwrap).
  - intros n. reflexivity.
  - reflexivity.
  - discriminate.
  - unfold fits32. cbn. lia.
  - cbn. lia.
  - unfold fits32. lia.
  - lia.
  - exists response, w', d'. split; [exact Hrun|]. split; [exact Hrec|].
    split; [rewrite Hlast; vm_compute; reflexivity|].
    destruct Hwrap as [Hcur _]; [vm_compute; discriminate|].
    rewrite Hcur. vm_compute. reflexivity.
Defined.

(** ** Rejected requests, reset and reads *)

(** X14. A request with an unknown action, an unknown source or an amount
    that is not positive fails with InvalidArgument before anything is read:
    the backend, the clock and the random source are as they were. *)
Theorem invalid_requests_touch_nothing (namespace userId actionType source : string)
    (amount : Z) (w : World) :
  actionType <> "fight" -> actionType <> "explore" ->
  source <> "daily" -> source <> "ad" -> source <> "purchase" -> source <> "debug" ->
  amount <= 0 ->
  ConsumeMyEnergy namespace userId actionType w = (Fail InvalidArgument, w) /\
  RefillMyEnergy namespace userId source w = (Fail InvalidArgument, w) /\
  ConsumeEnergy namespace userId amount w = (Fail InvalidArgument, w) /\
  RefillEnergy namespace userId amount w = (Fail InvalidArgument, w).
Proof.
  intros Hf He H1 H2 H3 H4 Hamount.
  unfold ConsumeMyEnergy, RefillMyEnergy, ConsumeEnergy, RefillEnergy.
  rewrite actionEnergyCosts_lookup, refillAmounts_lookup.
  repeat case_decide; try congruence.
  destruct (Z.leb_spec amount 0); [|lia].
  repeat split; reflexivity.
Qed.

Lemma invalid_requests_touch_nothing_witness :
  ConsumeMyEnergy "game" "u1" "Fight" (calmWorld regular 1700000450)
  = (Fail InvalidArgument, calmWorld regular 1700000450) /\
  RefillMyEnergy "game" "u1" "gift" (calmWorld regular 1700000450)
  = (Fail InvalidArgument, calmWorld regular 1700000450) /\
  ConsumeEnergy "game" "u1" 0 (calmWorld regular 1700000450)
  = (Fail InvalidArgument, calmWorld regular 1700000450) /\
  RefillEnergy "game" "u1" 0 (calmWorld regular 1700000450)
  = (Fail InvalidArgument, calmWorld regular 1700000450).
Proof.
  apply (invalid_requests_touch_nothing "game" "u1" "Fight" "gift" 0
           (calmWorld regular 1700000450)); first [discriminate | lia].
Defined.

(** X15. A reset whose write gets through replaces whatever is stored by
    the defaults: energy 100 of 100, rate 300, level 1, no inventory, the
    checkpoint at the time of the reset; the state it returns shows 100 as
    long as the clock behaves. *)
Theorem ResetEnergy_restores_defaults (namespace userId : string) (w : World) :
  storage.outage (backend w) (storage.requests (backend w)) = false ->
  exists response w' d',
    ResetEnergy namespace userId w = (Ok response, w') /\
    pb.reset_Success response = true /\
    storage.records (backend w') !! (namespace, storage.getEnergyKey userId)
    = Some (storage.EnergyJSON d') /\
    storage.CurrentEnergy d' = 100 /\ storage.MaxEnergy d' = 100 /\
    storage.RegenRateSeconds d' = 300 /\ storage.Level d' = 1 /\
    storage.Inventory d' = None /\ storage.LastUpdateTime d' = timeAt w 0 /\
    (timeAt w 0 <= timeAt w 1 < timeAt w 0 + 2 ^ 31 ->
     pb.CurrentEnergy (pb.reset_EnergyState response) = 100).
Proof.
  intros Hup. unfold ResetEnergy.
  rewrite (bind_Ok _ _ _ _ _ (time_Now_Unix_run _)).
  erewrite bind_Ok.
  2:{ unfold orFail, onStorage. cbn [backend clock_read].
      rewrite SaveEnergyData_stores by exact Hup. reflexivity. }
  unfold bind at 1. rewrite calculateEnergyState_run.
  change (timeAt (with_backend _ (clock_read w)) 0) with (timeAt w 1).
  destruct (calculateEnergyStateAt_returns (defaultData userId (timeAt w 0)) (timeAt w 1)
              ltac:(discriminate)) as [st Hst].
  rewrite Hst. unfold ret. eexists _, _, _. split; [reflexivity|].
  split; [reflexivity|]. split; [cbn; apply lookup_insert_eq|].
  repeat (split; [reflexivity|]). cbn [pb.reset_EnergyState].
  intros Hclock. destruct (calculateEnergyStateAt_fields _ _ _ Hst) as (-> & _).
  apply defaultData_full; try apply wrap64_range. exact Hclock.
Qed.

Lemma ResetEnergy_restores_defaults_witness :
  exists response w' d',
    ResetEnergy "game" "u1" (calmWorld veteran 1700000450) = (Ok response, w') /\
    storage.records (backend w') !! ("game", storage.getEnergyKey "u1")
    = Some (storage.EnergyJSON d') /\
    storage.CurrentEnergy d' = 100 /\ storage.Inventory d' = None /\
    pb.CurrentEnergy (pb.reset_EnergyState response) = 100.
Proof.
  destruct (ResetEnergy_restores_defaults "game" "u1" (calmWorld veteran 1700000450))
    as (response & w' & d' & Hrun & _ & Hrec & Hcur & _ & _ & _ & Hinv & _ & Hshown).
  - reflexivity.
  - exists response, w', d'. repeat split; try assumption.
    apply Hshown. vm_compute. split; [discriminate|reflexivity].
Defined.

(** X16. Reading the config never writes and never reads the clock.  With
    the backend up, a player without a record gets the defaults (100, 300,
    level 1) and still has no record afterwards; a player with a record gets
    the record's own values. *)
Theorem GetEnergyConfig_reads_only (namespace userId : string) (w : World) :
  healthy (backend w) ->
  exists result w',
    GetEnergyConfig namespace userId w = (result, w') /\
    storage.records (backend w') = storage.records (backend w) /\
    clock_reads w' = clock_reads w /\
    (storage.records (backend w) !! (namespace, storage.getEnergyKey userId) = None ->
     result = Ok {| pb.cfg_UserId := userId; pb.cfg_MaxEnergy := 100;
                    pb.cfg_RegenRateSeconds := 300; pb.cfg_Level := 1 |}) /\
    (forall d,
       storage.records (backend w) !! (namespace, storage.getEnergyKey userId)
       = Some (storage.EnergyJSON d) ->
       result = Ok {| pb.cfg_UserId := storage.UserId d;
                      pb.cfg_MaxEnergy := storage.MaxEnergy d;
                      pb.cfg_RegenRateSeconds := storage.RegenRateSeconds d;
                      pb.cfg_Level := storage.Level d |}).
Proof.
  intros Hh. unfold GetEnergyConfig, bind, onStorage.
  destruct (storage.records (backend w) !! (namespace, storage.getEnergyKey userId))
    as [[d|]|] eqn:Hd.
  - rewrite (GetEnergyData_stored namespace userId _ d Hh Hd). unfold ret.
    eexists _, _. split; [reflexivity|]. repeat split; try reflexivity.
    + discriminate.
    + intros d0 [= <-]. reflexivity.
  - unfold storage.GetEnergyData, storage.AdminGetGameRecordHandlerV1Short.
    rewrite Hh, Hd. cbn. eexists _, _. split; [reflexivity|].
    repeat split; try reflexivity; discriminate.
  - rewrite (GetEnergyData_absent namespace userId _ Hh Hd). unfold ret.
    eexists _, _. split; [reflexivity|]. repeat split; try reflexivity. discriminate.
Qed.

Lemma GetEnergyConfig_reads_only_witness :
  exists w',
    GetEnergyConfig "game" "u2" (calmWorld regular 1700000450)
    = (Ok {| pb.cfg_UserId := "u2"; pb.cfg_MaxEnergy := 100;
             pb.cfg_RegenRateSeconds := 300; pb.cfg_Level := 1 |}, w') /\
    storage.records (backend w') !! ("game", storage.getEnergyKey "u2") = None.
Proof.
  destruct (GetEnergyConfig_reads_only "game" "u2" (calmWorld regular 1700000450))
    as (result & w' & Hrun & Hrec & _ & Habsent & _).
  - intros n. reflexivity.
  - exists w'. rewrite Hrun, Hrec. split; [|reflexivity].
    rewrite Habsent; reflexivity.
Defined.

(** X17. The inventory listing of a player with a stored inventory has one
    item for each entry of the inventory, no item identifier twice, each
    with the stored quantity and with the display name of the identifier
    (the identifier itself when it has none); the read writes nothing. *)
Theorem GetMyInventory_lists_inventory (namespace userId : string) (d : storage.EnergyData)
    (inventory : gmap string Z) (w : World) :
  healthy (backend w) ->
  storage.records (backend w) !! (namespace, storage.getEnergyKey userId)
  = Some (storage.EnergyJSON d) ->
  storage.Inventory d = Some inventory ->
  exists items w',
    GetMyInventory namespace userId w = (Ok items, w') /\
    storage.records (backend w') = storage.records (backend w) /\
    length items = size inventory /\
    NoDup (pb.inv_ItemId <$> items) /\
    (forall itemId qty,
       inventory !! itemId = Some qty <->
       exists item, item ∈ items /\ pb.inv_ItemId item = itemId /\
                    pb.inv_Quantity item = qty) /\
    (forall item, item ∈ items ->
       pb.inv_ItemName item
       = default (pb.inv_ItemId item) (itemNames !! pb.inv_ItemId item)).
Proof.
  intros Hh Hd Hinv. unfold GetMyInventory, bind, onStorage.
  rewrite (GetEnergyData_stored namespace userId _ d Hh Hd), Hinv. unfold ret.
  eexists _, _. split; [reflexivity|]. split; [reflexivity|].
  split; [rewrite length_fmap; apply length_map_to_list|].
  split; [|split].
  - rewrite <- list_fmap_compose.
    erewrite list_fmap_ext; [apply NoDup_fst_map_to_list|].
    intros i [k q] _. reflexivity.
  - intros itemId qty. rewrite <- elem_of_map_to_list. split.
    + intros Hin. exists (inventoryItem (itemId, qty)).
      split; [apply list_elem_of_fmap_2; exact Hin|]. split; reflexivity.
    + intros (item & Hin & <- & <-).
      apply list_elem_of_fmap_1 in Hin as ([k q] & -> & Hin). exact Hin.
  - intros item Hin. apply list_elem_of_fmap_1 in Hin as ([k q] & -> & _). reflexivity.
Qed.

Lemma GetMyInventory_lists_inventory_witness :
  exists items w',
    GetMyInventory "game" "u1" (calmWorld regular 1700000450) = (Ok items, w') /\
    length items = 1%nat /\
    exists item,
      item ∈ items /\ pb.inv_ItemId item = "gold" /\ pb.inv_Quantity item = 7 /\
      pb.inv_ItemName item = "Gold".
Proof.
  destruct (GetMyInventory_lists_inventory "game" "u1" regular {[ "gold" := 7 ]}
              (calmWorld regular 1700000450))
    as (items & w' & Hrun & _ & Hlen & _ & Hitems & Hnames).
  - intros n. reflexivity.
  - reflexivity.
  - reflexivity.
  - exists items, w'. split; [exact Hrun|].
    split; [rewrite Hlen; apply map_size_singleton|].
    destruct (proj1 (Hitems "gold" 7)) as (item & Hin & Hid & Hq);
      [apply lookup_singleton_eq|].
    exists item. repeat split; try assumption.
    rewrite (Hnames item Hin), Hid. reflexivity.
Defined.

(** ** One player at a time *)

Section Isolation.

Variable k : string * string.

Lemma leaves_ret {A} (a : A) : leavesOtherRecords k (ret a).
Proof. intros w r w' [= <- <-] k' _. reflexivity. Qed.

Lemma leaves_throw {A} c : leavesOtherRecords k (@throw A c).
Proof. intros w r w' [= <- <-] k' _. reflexivity. Qed.

Lemma leaves_lift {A} (o : outcome A) : leavesOtherRecords k (lift o).
Proof. intros w r w' [= <- <-] k' _. reflexivity. Qed.

Lemma leaves_time : leavesOtherRecords k time_Now_Unix.
Proof. intros w r w' [= <- <-] k' _. reflexivity. Qed.

Lemma leaves_rand n : leavesOtherRecords k (rand_Intn n).
Proof.
  intros w r w'. unfold rand_Intn. destruct (n <=? 0); intros [= <- <-] k' _; reflexivity.
Qed.

Lemma leaves_bind {A B} (m : M A) (f : A -> M B) :
  leavesOtherRecords k m -> (forall a, leavesOtherRecords k (f a)) ->
  leavesOtherRecords k (bind m f).
Proof.
  intros Hm Hf w r w'. unfold bind.
  destruct (m w) as [[a|c|] w1] eqn:Hrun.
  - intros Hk k' Hne. rewrite (Hf a _ _ _ Hk k' Hne). apply (Hm _ _ _ Hrun k' Hne).
  - intros [= <- <-]. apply (Hm _ _ _ Hrun).
  - intros [= <- <-]. apply (Hm _ _ _ Hrun).
Qed.

Lemma leaves_orFail {A} c (m : M A) :
  leavesOtherRecords k m -> leavesOtherRecords k (orFail c m).
Proof.
  intros Hm w r w'. unfold orFail.
  destruct (m w) as [[a|c'|] w1] eqn:Hrun; intros [= <- <-]; apply (Hm _ _ _ Hrun).
Qed.

Lemma leaves_dropError {A} (m : M (option A)) :
  leavesOtherRecords k m -> leavesOtherRecords k (dropError m).
Proof.
  intros Hm w r w'. unfold dropError.
  destruct (m w) as [[a|c'|] w1] eqn:Hrun; intros [= <- <-]; apply (Hm _ _ _ Hrun).
Qed.

Lemma leaves_get namespace userId :
  leavesOtherRecords k (onStorage (storage.GetEnergyData namespace userId)).
Proof.
  intros w r w'. unfold onStorage, storage.GetEnergyData,
    storage.AdminGetGameRecordHandlerV1Short.
  destruct (storage.outage _ _); [intros [= <- <-] k' _; reflexivity|].
  destruct (storage.records _ !! _) as [[d|]|]; intros [= <- <-] k' _; reflexivity.
Qed.

Lemma leaves_save namespace userId d :
  k = (namespace, storage.getEnergyKey userId) ->
  leavesOtherRecords k (onStorage (storage.SaveEnergyData namespace userId d)).
Proof.
  intros -> w r w'. unfold onStorage, storage.SaveEnergyData,
    storage.AdminPostGameRecordHandlerV1Short.
  destruct (storage.outage _ _); intros [= <- <-] k' Hne; [reflexivity|].
  cbn. apply lookup_insert_ne. congruence.
Qed.

Lemma leaves_calculateEnergyState d : leavesOtherRecords k (calculateEnergyState d).
Proof.
  unfold calculateEnergyState. apply leaves_bind; [apply leaves_time|].
  intros now. apply leaves_lift.
Qed.

Lemma leaves_rollLoot actionType : leavesOtherRecords k (rollLoot actionType).
Proof.
  intros w r w' Hrun k' _.
  destruct (rollLoot_rolls actionType w) as (loot & n & Hroll & _).
  rewrite Hroll in Hrun. injection Hrun as _ <-. reflexivity.
Qed.

Lemma leaves_getOrCreateEnergyState namespace userId :
  k = (namespace, storage.getEnergyKey userId) ->
  leavesOtherRecords k (getOrCreateEnergyState namespace userId).
Proof.
  intros Hk. unfold getOrCreateEnergyState.
  apply leaves_bind; [apply leaves_orFail, leaves_get|].
  intros [d|]; [apply leaves_calculateEnergyState|].
  apply leaves_bind; [apply leaves_time|]. intros now.
  apply leaves_bind; [apply leaves_orFail, leaves_save; exact Hk|].
  intros _. apply leaves_calculateEnergyState.
Qed.

End Isolation.

Ltac leaves_step Hk :=
  first
    [ apply leaves_getOrCreateEnergyState; exact Hk
    | apply leaves_calculateEnergyState | apply leaves_rollLoot
    | apply leaves_ret | apply leaves_throw | apply leaves_lift | apply leaves_time
    | apply leaves_orFail | apply leaves_dropError | apply leaves_get
    | apply leaves_save; exact Hk
    | apply leaves_bind; [|intros ?]
    | match goal with
      | |- leavesOtherRecords _ (match ?x with _ => _ end) => destruct x
      | |- leavesOtherRecords _ (if ?c then _ else _) => destruct c
      end ].

Section IsolationOfOperations.

Variables namespace userId : string.

Let k := (namespace, storage.getEnergyKey userId).

Lemma leaves_ConsumeMyEnergy a : leavesOtherRecords k (ConsumeMyEnergy namespace userId a).
Proof. unfold ConsumeMyEnergy. repeat leaves_step (eq_refl k). Qed.

Lemma leaves_RefillMyEnergy s : leavesOtherRecords k (RefillMyEnergy namespace userId s).
Proof. unfold RefillMyEnergy. repeat leaves_step (eq_refl k). Qed.

Lemma leaves_ConsumeEnergy n : leavesOtherRecords k (ConsumeEnergy namespace userId n).
Proof. unfold ConsumeEnergy. repeat leaves_step (eq_refl k). Qed.

Lemma leaves_RefillEnergy n : leavesOtherRecords k (RefillEnergy namespace userId n).
Proof. unfold RefillEnergy. repeat leaves_step (eq_refl k). Qed.

Lemma leaves_UpdateEnergyConfig m r :
  leavesOtherRecords k (UpdateEnergyConfig namespace userId m r).
Proof. unfold UpdateEnergyConfig. repeat leaves_step (eq_refl k). Qed.

Lemma leaves_ResetEnergy : leavesOtherRecords k (ResetEnergy namespace userId).
Proof. unfold ResetEnergy. repeat leaves_step (eq_refl k). Qed.

End IsolationOfOperations.

Lemma getEnergyKey_inj userId userId' :
  storage.getEnergyKey userId = storage.getEnergyKey userId' -> userId = userId'.
Proof. unfold storage.getEnergyKey. cbn. intros [= H]. exact H. Qed.

Lemma leaves_keeps {A} (m : M A) namespace userId namespace' userId' :
  (namespace', userId') <> (namespace, userId) ->
  leavesOtherRecords (namespace, storage.getEnergyKey userId) m ->
  keepsRecordOf namespace' userId' m.
Proof.
  intros Hne Hm w. destruct (m w) as [r w'] eqn:Hrun. cbn.
  apply (Hm _ _ _ Hrun). intros Heq. apply Hne.
  assert (Hn : namespace' = namespace) by congruence.
  assert (Hk : storage.getEnergyKey userId' = storage.getEnergyKey userId) by congruence.
  apply getEnergyKey_inj in Hk. congruence.
Qed.

(** X18. Every operation that writes touches the record of its own player
    only: whatever the world and whatever the outcome (success, refusal,
    failure of the backend, panic), the record of any other player, and of
    the same player in another namespace, is afterwards what it was. *)
Theorem operations_keep_other_players (namespace userId namespace' userId' : string)
    (actionType source : string) (amount maxEnergy regenRateSeconds : Z) :
  (namespace', userId') <> (namespace, userId) ->
  keepsRecordOf namespace' userId' (ConsumeMyEnergy namespace userId actionType) /\
  keepsRecordOf namespace' userId' (RefillMyEnergy namespace userId source) /\
  keepsRecordOf namespace' userId' (ConsumeEnergy namespace userId amount) /\
  keepsRecordOf namespace' userId' (RefillEnergy namespace userId amount) /\
  keepsRecordOf namespace' userId'
    (UpdateEnergyConfig namespace userId maxEnergy regenRateSeconds) /\
  keepsRecordOf namespace' userId' (ResetEnergy namespace userId) /\
  keepsRecordOf namespace' userId' (GetEnergy namespace userId).
Proof.
  intros Hne.
  repeat split; apply (leaves_keeps _ namespace userId); try exact Hne.
  - apply leaves_ConsumeMyEnergy.
  - apply leaves_RefillMyEnergy.
  - apply leaves_ConsumeEnergy.
  - apply leaves_RefillEnergy.
  - apply leaves_UpdateEnergyConfig.
  - apply leaves_ResetEnergy.
  - apply leaves_getOrCreateEnergyState. reflexivity.
Qed.

Lemma operations_keep_other_players_witness :
  storage.records (backend (snd (ConsumeMyEnergy "game" "u1" "fight" busyWorld)))
    !! ("game", storage.getEnergyKey "u2")
  = Some (storage.EnergyJSON veteran) /\
  storage.records (backend (snd (ResetEnergy "game" "u1" busyWorld)))
    !! ("game", storage.getEnergyKey "u2")
  = Some (storage.EnergyJSON veteran).
Proof.
  destruct (operations_keep_other_players "game" "u1" "game" "u2" "fight" "ad" 1 0 0)
    as (Hconsume & _ & _ & _ & _ & Hreset & _).
  - discriminate.
  - split; [rewrite Hconsume|rewrite Hreset]; reflexivity.
Defined.

(** ** A player without a record *)

(** X20. The first consume of a player without a record: the defaults are
    written, the action is paid out of the full 100, and the record
    persisted at the end holds 100 less the cost, a checkpoint at the time of
    the transaction, and an inventory that is exactly the loot returned. *)
Theorem first_consume_of_new_player (namespace userId actionType : string) (energyCost : Z)
    (w : World) :
  actionEnergyCosts !! actionType = Some energyCost ->
  healthy (backend w) ->
  storage.records (backend w) !! (namespace, storage.getEnergyKey userId) = None ->
  timeAt w 0 <= timeAt w 1 < timeAt w 0 + 2 ^ 31 ->
  exists response w' d',
    ConsumeMyEnergy namespace userId actionType w = (Ok response, w') /\
    pb.consume_Success response = true /\
    (1 <= length (pb.consume_Loot response) <= 3)%nat /\
    storage.records (backend w') !! (namespace, storage.getEnergyKey userId)
    = Some (storage.EnergyJSON d') /\
    storage.CurrentEnergy d' = 100 - energyCost /\
    storage.MaxEnergy d' = 100 /\ storage.RegenRateSeconds d' = 300 /\
    storage.LastUpdateTime d' = timeAt w 2 /\
    storage.Inventory d' = Some (addLoot ∅ (pb.consume_Loot response)).
Proof.
  intros Hcost Hh Hnone Hclock.
  pose proof (actionEnergyCosts_at_most _ _ Hcost) as Hcostpos.
  destruct (calculateEnergyStateAt_returns (defaultData userId (timeAt w 0)) (timeAt w 1) ltac:(discriminate))
    as [st Hst].
  destruct (calculateEnergyStateAt_fields (defaultData userId (timeAt w 0)) _ _ Hst) as (Hcur & Hmax & Hr & _).
  rewrite (defaultData_full userId (timeAt w 0) (timeAt w 1)) in Hcur
    by (try apply wrap64_range; exact Hclock).
  unfold ConsumeMyEnergy. rewrite Hcost.
  erewrite bind_Ok;
    [|rewrite (getOrCreateEnergyState_absent namespace userId w Hh Hnone);
      rewrite Hst; reflexivity].
  rewrite Hcur, Hmax, Hr.
  destruct (Z.ltb_spec 100 energyCost); [lia|].
  erewrite bind_Ok.
  2:{ apply (reload_stored namespace userId _ (defaultData userId (timeAt w 0))); [intros n; apply Hh|].
      cbn. apply lookup_insert_eq. }
  rewrite (bind_Ok _ _ _ _ _ (time_Now_Unix_run _)).
  change (timeAt (with_backend _ (clock_read _)) 0) with (timeAt w 2).
  cbn [defaultData storage.MaxEnergy storage.RegenRateSeconds].
  unfold storage.DefaultMaxEnergy.
  destruct (Z.leb_spec 100 100); [|lia].
  rewrite (bind_Ok _ _ _ _ _ (eq_refl : ret (timeAt w 2) _ = (Ok (timeAt w 2), _))).
  match goal with
  | |- context [bind (rollLoot actionType) _ ?w3] =>
      destruct (rollLoot_rolls actionType w3) as (loot & k & Hloot & Hlen & _)
  end.
  rewrite (bind_Ok _ _ _ _ _ Hloot).
  erewrite bind_Ok; [|apply save_stores; intros n; apply Hh].
  unfold bind at 1. rewrite calculateEnergyState_run.
  match goal with
  | |- context [calculateEnergyStateAt ?u ?t] =>
      destruct (calculateEnergyStateAt_returns u t ltac:(discriminate)) as [st' Hst']
  end.
  rewrite Hst'. unfold ret. eexists _, _, _. split; [reflexivity|].
  split; [reflexivity|]. split; [exact Hlen|].
  split; [cbn; apply lookup_insert_eq|].
  cbn. split; [apply wrap32_fits; unfold fits32; lia|].
  repeat split; reflexivity.
Qed.

Lemma first_consume_of_new_player_witness :
  exists response w' d',
    ConsumeMyEnergy "game" "u1" "fight" emptyWorld = (Ok response, w') /\
    pb.consume_Success response = true /\
    storage.records (backend w') !! ("game", storage.getEnergyKey "u1")
    = Some (storage.EnergyJSON d') /\
    storage.CurrentEnergy d' = 90.
Proof.
  destruct (first_consume_of_new_player "game" "u1" "fight" 10 emptyWorld)
    as (response & w' & d' & Hrun & Hok & _ & Hrec & Hcur & _).
  - reflexivity.
  - intros n. reflexivity.
  - reflexivity.
  - vm_compute. split; [discriminate|reflexivity].
  - exists response, w', d'. repeat split; assumption.
Defined.

(** ** The authorisation interceptor *)

Section Splitting.

Import Stdlib.Strings.Ascii.

Variable sep : ascii.

Lemma splitOn_nonempty s : common.splitOn sep s <> [].
Proof.
  destruct s as [|c s]; cbn -[Ascii.eqb]; [discriminate|].
  destruct (Ascii.eqb c sep); [discriminate|].
  destruct (common.splitOn sep s); discriminate.
Qed.

Lemma splitOn_whole s : occursIn sep s = false -> common.splitOn sep s = [s].
Proof.
  induction s as [|c s IH]; cbn -[Ascii.eqb]; [reflexivity|].
  destruct (Ascii.eqb c sep); cbn -[Ascii.eqb]; [discriminate|].
  intros Hs. rewrite (IH Hs). reflexivity.
Qed.

Lemma splitOn_app a b :
  occursIn sep a = false ->
  common.splitOn sep (a +:+ String sep b) = a :: common.splitOn sep b.
Proof.
  induction a as [|c a IH].
  - intros _. change ("" +:+ String sep b) with (String sep b).
    cbn -[Ascii.eqb]. rewrite Ascii.eqb_refl. reflexivity.
  - change (String c a +:+ String sep b) with (String c (a +:+ String sep b)).
    cbn -[Ascii.eqb]. destruct (Ascii.eqb c sep); cbn -[Ascii.eqb]; [discriminate|].
    intros Ha. rewrite (IH Ha). reflexivity.
Qed.

(** Splitting loses nothing: the parts have no separator in them, and put
    together again they are the text. *)
Lemma splitOn_joinWith s :
  Forall (fun part => occursIn sep part = false) (common.splitOn sep s) /\
  joinWith sep (common.splitOn sep s) = s.
Proof.
  induction s as [|c s [IHparts IHjoin]]; cbn -[Ascii.eqb].
  - split; [repeat constructor|reflexivity].
  - destruct (Ascii.eqb c sep) eqn:Hc.
    + apply Ascii.eqb_eq in Hc as ->. split; [constructor; [reflexivity|exact IHparts]|].
      pose proof (splitOn_nonempty s) as Hne.
      destruct (common.splitOn sep s) as [|part rest]; [contradiction|].
      cbn -[Ascii.eqb] in *. rewrite IHjoin. reflexivity.
    + pose proof (splitOn_nonempty s) as Hne.
      destruct (common.splitOn sep s) as [|part rest]; [contradiction|].
      apply Forall_cons in IHparts as [Hpart Hrest]. split.
      * constructor; [cbn -[Ascii.eqb]; rewrite Hc; exact Hpart|exact Hrest].
      * destruct rest; cbn -[Ascii.eqb] in *; rewrite <- IHjoin; reflexivity.
Qed.

End Splitting.

Section FullMethod.

Import Stdlib.Strings.Ascii.

Lemma length_zero_empty s : String.length s = 0%nat <-> s = "".
Proof. destruct s; cbn; split; intros H; congruence. Qed.

(** X21. [parseFullMethod] accepts exactly the texts "/service/method" whose
    two names are not empty and have no slash, and returns the two names;
    the two errors of an empty name that follow the match can never be
    returned. *)
Theorem parseFullMethod_round_trip :
  (forall serviceName methodName,
     serviceName <> "" -> methodName <> "" ->
     occursIn "/" serviceName = false -> occursIn "/" methodName = false ->
     common.parseFullMethod ("/" +:+ serviceName +:+ "/" +:+ methodName)
     = inr (serviceName, methodName)) /\
  (forall fullMethod serviceName methodName,
     common.parseFullMethod fullMethod = inr (serviceName, methodName) ->
     fullMethod = "/" +:+ serviceName +:+ "/" +:+ methodName /\
     serviceName <> "" /\ methodName <> "" /\
     occursIn "/" serviceName = false /\ occursIn "/" methodName = false) /\
  (forall fullMethod,
     common.parseFullMethod fullMethod <> inl common.EmptyServiceName /\
     common.parseFullMethod fullMethod <> inl common.EmptyMethodName).
Proof.
  split; [|split].
  - intros svc meth Hs Hm Hsf Hmf.
    unfold common.parseFullMethod, common.matchFullMethod.
    change ("/" +:+ svc +:+ "/" +:+ meth) with (String "/" (svc +:+ String "/" meth)).
    cbn -[common.splitOn].
    rewrite (splitOn_app "/" svc meth Hsf), (splitOn_whole "/" meth Hmf).
    destruct svc as [|c svc]; [congruence|]. destruct meth as [|c' meth]; [congruence|].
    reflexivity.
  - intros s svc meth. unfold common.parseFullMethod, common.matchFullMethod.
    destruct s as [|c rest]; [discriminate|].
    destruct (Ascii.eqb c "/") eqn:Hc; [|discriminate].
    apply Ascii.eqb_eq in Hc as ->.
    destruct (splitOn_joinWith "/" rest) as [Hparts Hjoin].
    destruct (common.splitOn "/" rest) as [|a [|b [|? ?]]]; try discriminate.
    destruct (0 <? String.length a)%nat eqn:Ha; [|discriminate].
    destruct (0 <? String.length b)%nat eqn:Hb; [|discriminate]. cbn.
    apply Nat.ltb_lt in Ha, Hb.
    destruct (Nat.eqb_spec (String.length a) 0); [lia|].
    destruct (Nat.eqb_spec (String.length b) 0); [lia|].
    intros [= <- <-].
    inversion Hparts as [|? ? Hpa Hrest]; subst. inversion Hrest as [|? ? Hpb _]; subst.
    cbn in *. repeat split; try assumption.
    + intros ->. cbn in Ha. lia.
    + intros ->. cbn in Hb. lia.
  - intros s. unfold common.parseFullMethod.
    destruct (common.matchFullMethod s) as [[svc meth]|] eqn:Hmatch; [|split; discriminate].
    assert (Hlen : (0 < String.length svc)%nat /\ (0 < String.length meth)%nat).
    { unfold common.matchFullMethod in Hmatch.
      destruct s as [|c rest]; [discriminate|].
      destruct (Ascii.eqb c "/"); [|discriminate].
      destruct (common.splitOn "/" rest) as [|a [|b [|? ?]]]; try discriminate.
      destruct (0 <? String.length a)%nat eqn:Ha; [|discriminate].
      destruct (0 <? String.length b)%nat eqn:Hb; [|discriminate].
      injection Hmatch as <- <-. apply Nat.ltb_lt in Ha, Hb. split; assumption. }
    destruct Hlen as [Hs Hm].
    destruct (Nat.eqb_spec (String.length svc) 0); [lia|].
    destruct (Nat.eqb_spec (String.length meth) 0); [lia|].
    split; discriminate.
Qed.

End FullMethod.

Section Authorisation.

Import Stdlib.Strings.Ascii.

Variable claimsSub : string -> option string.
Variable getNamespace : string.

(** X22. The user identifier taken from a token is a given non-empty text
    exactly when the token has three parts separated by dots and the middle
    part decodes to claims whose "sub" is that text; in every other case the
    identifier is empty. *)
Theorem extractUserIDFromToken_three_parts (token sub : string) :
  sub <> "" ->
  common.extractUserIDFromToken claimsSub token = sub <->
  exists header payload signature,
    token = header +:+ "." +:+ payload +:+ "." +:+ signature /\
    occursIn "." header = false /\ occursIn "." payload = false /\
    occursIn "." signature = false /\
    claimsSub payload = Some sub.
Proof.
  intros Hsub. unfold common.extractUserIDFromToken. split.
  - destruct (splitOn_joinWith "." token) as [Hparts Hjoin].
    destruct (common.splitOn "." token) as [|h [|p [|s [|? ?]]]]; try congruence.
    apply Forall_cons in Hparts as [Hh Hparts].
    apply Forall_cons in Hparts as [Hp Hparts].
    apply Forall_cons in Hparts as [Hs _].
    destruct (claimsSub p) as [sub'|] eqn:Hclaims; cbn; [|congruence].
    intros ->. exists h, p, s. cbn in Hjoin. rewrite <- Hjoin. auto.
  - intros (h & p & s & -> & Hh & Hp & Hs & Hclaims).
    change (h +:+ "." +:+ p +:+ "." +:+ s) with (h +:+ String "." (p +:+ String "." s)).
    rewrite (splitOn_app "." h _ Hh), (splitOn_app "." p s Hp), (splitOn_whole "." s Hs).
    rewrite Hclaims. reflexivity.
Qed.

End Authorisation.

Lemma extractUserIDFromToken_three_parts_witness :
  common.extractUserIDFromToken demoClaims "aGVhZGVy.cGF5bG9hZA.c2ln" = "u1".
Proof.
  apply (extractUserIDFromToken_three_parts demoClaims "aGVhZGVy.cGF5bG9hZA.c2ln" "u1").
  - discriminate.
  - exists "aGVhZGVy", "cGF5bG9hZA", "c2ln". repeat split; reflexivity.
Defined.

Lemma TrimPrefix_strips prefix s : common.TrimPrefix (prefix +:+ s) prefix = s.
Proof.
  unfold common.TrimPrefix.
  assert (H : common.trimPrefix prefix (prefix +:+ s) = Some s).
  { induction prefix as [|c prefix IH]; [destruct s; reflexivity|].
    change (String c prefix +:+ s) with (String c (prefix +:+ s)).
    cbn. rewrite Ascii.eqb_refl. exact IH. }
  rewrite H. reflexivity.
Qed.

(** X23. For a method that requires a token or declares a permission, the
    interceptor hands the call to the handler exactly when a validator is
    set, the metadata has an authorization value, and the validator accepts
    the first such value (less its "Bearer " prefix) for the declared
    permission, the namespace and the user of the token; the token of a value
    "Bearer T" is T. *)
Theorem intercept_calls_handler_iff_accepted {E : Type}
    (claimsSub : string -> option string) (getNamespace : string)
    (Validator : option (string -> option common.Permission -> string -> option string
                         -> bool))
    (requirement : common.AuthRequirement) (meta : option (gmap string (list string))) :
  common.RequireToken requirement = true \/ common.RequiredPermission requirement <> None ->
  (common.intercept (E := E) claimsSub getNamespace Validator (inr (Some requirement)) meta
   = common.CallHandler
   <->
   exists validate entries authorization others,
     Validator = Some validate /\ meta = Some entries /\
     entries !! "authorization" = Some (authorization :: others) /\
     validate (common.TrimPrefix authorization "Bearer ")
       (common.RequiredPermission requirement) getNamespace
       (presentedUser claimsSub (common.TrimPrefix authorization "Bearer ")) = true) /\
  (forall token, common.TrimPrefix ("Bearer " +:+ token) "Bearer " = token).
Proof.
  intros Hdemand. split; [|intros token; apply TrimPrefix_strips].
  unfold common.intercept.
  assert (Hcond : common.RequireToken requirement
                  || bool_decide (common.RequiredPermission requirement <> None) = true).
  { destruct Hdemand as [->|Hp]; [reflexivity|].
    rewrite (bool_decide_eq_true_2 _ Hp). apply orb_true_r. }
  rewrite Hcond. unfold common.checkAuthorizationMetadata, presentedUser.
  split.
  - destruct Validator as [validate|]; [|discriminate].
    destruct meta as [entries|]; [|discriminate].
    destruct (entries !! "authorization") as [[|authorization others]|] eqn:Hauth;
      try discriminate.
    destruct (validate _ _ _ _) eqn:Hval; [|discriminate].
    intros _. exists validate, entries, authorization, others. auto.
  - intros (validate & entries & authorization & others & -> & -> & Hauth & Hval).
    rewrite Hauth, Hval. reflexivity.
Qed.

Lemma intercept_calls_handler_iff_accepted_witness :
  common.intercept (E := unit) demoClaims "accelbyte" (Some demoValidator)
    (inr (Some {| common.RequireToken := true; common.RequiredPermission := None |}))
    (Some {[ "authorization" := ["Bearer aGVhZGVy.cGF5bG9hZA.c2ln"] ]})
  = common.CallHandler /\
  common.intercept (E := unit) demoClaims "accelbyte" (Some demoValidator)
    (inr (Some {| common.RequireToken := true; common.RequiredPermission := None |}))
    (Some ∅)
  <> common.CallHandler.
Proof.
  split.
  - apply (intercept_calls_handler_iff_accepted (E := unit) demoClaims "accelbyte"
             (Some demoValidator)
             {| common.RequireToken := true; common.RequiredPermission := None |}).
    + left. reflexivity.
    + eexists _, _, _, _. repeat split; reflexivity.
  - vm_compute. discriminate.
Defined.

(** ** Reading the energy *)

(** X24. Reading the energy of a player with a record derives the state from
    the record and writes nothing; a stored value that does not decode makes
    the read fail with Internal, again writing nothing; for a player without
    a record the defaults are written and, as long as the clock behaves, the
    state shows the full 100. *)
Theorem GetEnergy_reads (namespace userId : string) (w : World) :
  healthy (backend w) ->
  exists result w',
    GetEnergy namespace userId w = (result, w') /\
    (forall d,
       storage.records (backend w) !! (namespace, storage.getEnergyKey userId)
       = Some (storage.EnergyJSON d) ->
       result = calculateEnergyStateAt d (timeAt w 0) /\
       storage.records (backend w') = storage.records (backend w)) /\
    (storage.records (backend w) !! (namespace, storage.getEnergyKey userId)
     = Some storage.ForeignJSON ->
     result = Fail Internal /\
     storage.records (backend w') = storage.records (backend w)) /\
    (storage.records (backend w) !! (namespace, storage.getEnergyKey userId) = None ->
     storage.records (backend w')
     = <[(namespace, storage.getEnergyKey userId) :=
           storage.EnergyJSON (defaultData userId (timeAt w 0))]>
         (storage.records (backend w)) /\
     (timeAt w 0 <= timeAt w 1 < timeAt w 0 + 2 ^ 31 ->
      exists st, result = Ok st /\ pb.CurrentEnergy st = 100 /\ pb.MaxEnergy st = 100)).
Proof.
  intros Hh. unfold GetEnergy.
  destruct (storage.records (backend w) !! (namespace, storage.getEnergyKey userId))
    as [[d|]|] eqn:Hd.
  - rewrite (getOrCreateEnergyState_existing namespace userId w d Hh Hd).
    eexists _, _. split; [reflexivity|].
    split; [intros d0 [= <-]; split; reflexivity|]. split; discriminate.
  - eexists _, _. split.
    { unfold getOrCreateEnergyState, bind, orFail, onStorage, storage.GetEnergyData,
        storage.AdminGetGameRecordHandlerV1Short.
      rewrite Hh, Hd. cbn. reflexivity. }
    split; [discriminate|]. split; [intros _; split; reflexivity|discriminate].
  - rewrite (getOrCreateEnergyState_absent namespace userId w Hh Hd).
    eexists _, _. split; [reflexivity|].
    split; [discriminate|]. split; [discriminate|]. intros _. split; [reflexivity|].
    intros Hclock.
    destruct (calculateEnergyStateAt_returns (defaultData userId (timeAt w 0)) (timeAt w 1)
                ltac:(discriminate)) as [st Hst].
    exists st. split; [exact Hst|].
    destruct (calculateEnergyStateAt_fields _ _ _ Hst) as (-> & -> & _).
    split; [|reflexivity].
    apply defaultData_full; try apply wrap64_range. exact Hclock.
Qed.

Lemma GetEnergy_reads_witness :
  exists result w',
    GetEnergy "game" "u1" (calmWorld regular 1700000450) = (result, w') /\
    result = calculateEnergyStateAt regular 1700000450 /\
    storage.records (backend w') = storage.records (backend (calmWorld regular 1700000450)).
Proof.
  destruct (GetEnergy_reads "game" "u1" (calmWorld regular 1700000450))
    as (result & w' & Hrun & Hstored & _).
  - intros n. reflexivity.
  - destruct (Hstored regular) as [Hres Hrec]; [reflexivity|].
    exists result, w'. split; [exact Hrun|]. split; [exact Hres|exact Hrec].
Defined.
